(** * Chunked SetVariables / GetVariables dispatch of the provisioning module

    A shallow embedding of

    - [DeviceModelService] (the limit lookups and
      [executeSetVariablesAfterBoot]), and
    - [ProvisioningModuleApi.setVariables] / [getVariables]
      (01_Provisioning/src/module/api.ts),

    together with the fragment of the JavaScript runtime those functions
    rely on: numbers, [Number(string)], [Array.prototype.slice],
    truthiness of strings and promises that resolve or reject. *)

From Stdlib Require Import List String Ascii ZArith QArith Lia Bool Arith.
From Stdlib Require Import DecimalString.
From Stdlib Require DecimalNat.
Import ListNotations.

Local Open Scope Z_scope.

(** ** The JavaScript fragment *)

Module JS.

(** A JavaScript number: NaN, the two infinities, or a finite value.
    Finite values are kept exact, as rationals in lowest terms; rounding to
    binary64 (and with it overflow to an infinity) is outside the model.
    [-0] and [+0] are both [Fin 0]. *)
Inductive number : Type :=
| NaN
| PosInfinity
| NegInfinity
| Fin (q : Q).

Definition ofZ (z : Z) : number := Fin (z # 1).
Definition ofNat (n : nat) : number := ofZ (Z.of_nat n).

(** The result of the abstract operation ToIntegerOrInfinity. *)
Inductive integerOrInfinity : Type :=
| Int (z : Z)
| PlusInf
| MinusInf.

(** truncate(q): rounding towards zero. *)
Definition truncate (q : Q) : Z := Z.quot (Qnum q) (Z.pos (Qden q)).

Definition ToIntegerOrInfinity (x : number) : integerOrInfinity :=
  match x with
  | NaN => Int 0
  | PosInfinity => PlusInf
  | NegInfinity => MinusInf
  | Fin q => Int (truncate q)
  end.

(** The clamping of a relative index that [slice] applies to both of its
    arguments. *)
Definition relativeIndex (len : Z) (r : integerOrInfinity) : Z :=
  match r with
  | MinusInf => 0
  | Int z => if z <? 0 then Z.max (len + z) 0 else Z.min z len
  | PlusInf => len
  end.

(** [Array.prototype.slice(start, end)]; [end_ = None] is an omitted
    (undefined) second argument.  The receiver is not mutated: the result
    is a new list. *)
Definition slice {A : Type} (O : list A) (start : number)
           (end_ : option number) : list A :=
  let len := Z.of_nat (List.length O) in
  let k := relativeIndex len (ToIntegerOrInfinity start) in
  let final :=
    match end_ with
    | None => len
    | Some e => relativeIndex len (ToIntegerOrInfinity e)
    end in
  firstn (Z.to_nat (final - k)) (skipn (Z.to_nat k) O).

(** ToBoolean on a string: only the empty string is falsy. *)
Definition truthyString (s : string) : bool :=
  match s with
  | EmptyString => false
  | String _ _ => true
  end.

(** *** [Number(string)] : the StringToNumber grammar, over ASCII *)

Definition isWhiteSpace (c : ascii) : bool :=
  let n := nat_of_ascii c in
  ((9 <=? n) && (n <=? 13))%nat || (n =? 32)%nat.

Definition digitValue (c : ascii) : option Z :=
  let n := nat_of_ascii c in
  if ((48 <=? n) && (n <=? 57))%nat then Some (Z.of_nat (n - 48))
  else if ((97 <=? n) && (n <=? 102))%nat then Some (Z.of_nat (n - 87))
  else if ((65 <=? n) && (n <=? 70))%nat then Some (Z.of_nat (n - 55))
  else None.

Definition isDigitOfRadix (radix : Z) (c : ascii) : bool :=
  match digitValue c with
  | Some d => d <? radix
  | None => false
  end.

Fixpoint dropWhile (p : ascii -> bool) (cs : list ascii) : list ascii :=
  match cs with
  | [] => []
  | c :: cs' => if p c then dropWhile p cs' else cs
  end.

Fixpoint takeWhile (p : ascii -> bool) (cs : list ascii) : list ascii :=
  match cs with
  | [] => []
  | c :: cs' => if p c then c :: takeWhile p cs' else []
  end.

Definition trim (cs : list ascii) : list ascii :=
  rev (dropWhile isWhiteSpace (rev (dropWhile isWhiteSpace cs))).

(** The mathematical value of a digit string in the given radix. *)
Definition digitsValue (radix : Z) (cs : list ascii) : Z :=
  fold_left
    (fun acc c => acc * radix + match digitValue c with Some d => d | None => 0 end)
    cs 0.

(** [m * 10^e] as an exact rational. *)
Definition scale10 (m e : Z) : Q :=
  if 0 <=? e then (m * 10 ^ e) # 1
  else m # (Pos.pow 10 (Z.to_pos (- e))).

(** Splits an optional leading sign off; the boolean is true for [-]. *)
Definition splitSign (cs : list ascii) : bool * list ascii :=
  match cs with
  | c :: cs' =>
      if (nat_of_ascii c =? 45)%nat then (true, cs')
      else if (nat_of_ascii c =? 43)%nat then (false, cs')
      else (false, cs)
  | [] => (false, [])
  end.

Definition isExponentIndicator (c : ascii) : bool :=
  (nat_of_ascii c =? 101)%nat || (nat_of_ascii c =? 69)%nat.

(** StrUnsignedDecimalLiteral without the [Infinity] alternative:
    digits, an optional fraction and an optional exponent, with at least
    one digit before the exponent. *)
Definition unsignedDecimal (cs : list ascii) : option Q :=
  let dec := isDigitOfRadix 10 in
  let ip := takeWhile dec cs in
  let r1 := dropWhile dec cs in
  let '(fp, r2) :=
    match r1 with
    | c :: r =>
        if (nat_of_ascii c =? 46)%nat
        then (takeWhile dec r, dropWhile dec r)
        else ([], r1)
    | [] => ([], r1)
    end in
  match ip ++ fp with
  | [] => None
  | mantissa =>
      let m := digitsValue 10 mantissa in
      let shift := Z.of_nat (List.length fp) in
      match r2 with
      | [] => Some (scale10 m (- shift))
      | c :: r3 =>
          if isExponentIndicator c then
            let '(neg, r4) := splitSign r3 in
            match r4 with
            | [] => None
            | _ :: _ =>
                if forallb dec r4 then
                  let e := digitsValue 10 r4 in
                  Some (scale10 m ((if neg then - e else e) - shift))
                else None
            end
          else None
      end
  end.

(** NonDecimalIntegerLiteral: [0x], [0o] or [0b] (either case) followed
    by at least one digit of that radix. *)
Definition nonDecimalRadix (c : ascii) : option Z :=
  let n := nat_of_ascii c in
  if (n =? 120)%nat || (n =? 88)%nat then Some 16
  else if (n =? 111)%nat || (n =? 79)%nat then Some 8
  else if (n =? 98)%nat || (n =? 66)%nat then Some 2
  else None.

Definition nonDecimal (cs : list ascii) : option Q :=
  match cs with
  | z :: p :: (_ :: _) as ds =>
      if (nat_of_ascii z =? 48)%nat then
        match nonDecimalRadix p with
        | Some radix =>
            if forallb (isDigitOfRadix radix) ds
            then Some (digitsValue radix ds # 1)
            else None
        | None => None
        end
      else None
  | _ => None
  end.

Definition StringToNumber (cs : list ascii) : number :=
  match trim cs with
  | [] => Fin 0
  | lit =>
      match nonDecimal lit with
      | Some q => Fin q
      | None =>
          let '(neg, body) := splitSign lit in
          if list_eq_dec ascii_dec body (list_ascii_of_string "Infinity")
          then (if neg then NegInfinity else PosInfinity)
          else
            match unsignedDecimal body with
            | Some q => Fin (Qred (if neg then Qopp q else q))
            | None => NaN
            end
      end
  end.

(** [Number(value)] applied to a string.  Strings are ASCII here, so of
    the white space that StringToNumber trims only the ASCII characters
    occur; values are exact, as said for [number]. *)
Definition Number (value : string) : number :=
  StringToNumber (list_ascii_of_string value).

(** A promise that has settled: awaiting it yields the value or throws
    the rejection reason. *)
Inductive Promise (E A : Type) : Type :=
| Fulfilled (a : A)
| RejectedWith (e : E).
Arguments Fulfilled {E A} a.
Arguments RejectedWith {E A} e.

End JS.

Import JS.

(** ** Protocol data

    The message and attribute types are imported from the packages
    @citrineos/base and @citrineos/data.  Each is given here with the
    fields the functions read or write. *)

(** Modelled from the spec: the attribute types of the device model, of
    which the lookups only use [Actual] ("actual value" type). *)
Inductive AttributeEnumType : Type := Actual | Target | MinSet | MaxSet.

(** Modelled from the spec: the item-level status of a result, "at minimum
    Accepted, Rejected, RebootRequired, and other device-defined terminal
    statuses".  The code compares it with [Rejected] and [RebootRequired]
    only. *)
Inductive SetVariableStatusEnumType : Type :=
| Accepted
| Rejected
| UnknownComponent
| UnknownVariable
| NotSupportedAttributeType
| RebootRequired.

Definition SetVariableStatusEnumType_eqb (a b : SetVariableStatusEnumType) : bool :=
  match a, b with
  | Accepted, Accepted
  | Rejected, Rejected
  | UnknownComponent, UnknownComponent
  | UnknownVariable, UnknownVariable
  | NotSupportedAttributeType, NotSupportedAttributeType
  | RebootRequired, RebootRequired => true
  | _, _ => false
  end.

Inductive CallAction : Type := SetVariables | GetVariables.

(** Modelled from the spec: a ConfigurationItem, one atomic key and target
    value that a SetVariables request asks the station to apply.  The
    functions never look inside an item. *)
Record SetVariableDataType : Type := {
  sv_component : string;
  sv_variable : string;
  sv_attributeValue : string
}.

(** Modelled from the spec: one item of a GetVariables request, the key
    without a value. *)
Record GetVariableDataType : Type := {
  gv_component : string;
  gv_variable : string
}.

(** Modelled from the spec: one per-item outcome of a ChunkResult, tagged
    with its status. *)
Record SetVariableResultType : Type := {
  attributeStatus : SetVariableStatusEnumType;
  sr_component : string;
  sr_variable : string
}.

Record SetVariablesResponse : Type := {
  setVariableResult : list SetVariableResultType
}.

(** Modelled from the spec: an attribute record of the device model, of
    which the functions read the textual [value]. *)
Record VariableAttribute : Type := {
  value : string
}.

(** The filter handed to the attribute store. *)
Record VariableAttributeQuerystring : Type := {
  stationId : string;
  component_name : string;
  variable_name : string;
  variable_instance : string;
  type : AttributeEnumType
}.

(** What a JavaScript [throw] carries in these functions. *)
Inductive Error : Type :=
| SetVariablesResponseNotFound
    (* new Error('SetVariables response not found') *)
| StandardComponentStructureViolation (attributes : list VariableAttribute)
    (* new Error("Violation of Standard Component Structure: " + JSON.stringify(attributes)) *)
| SyntaxError
    (* thrown by JSON.parse, or by reading a result list that is not there *)
| CallbackError (reason : string).
    (* a rejected promise of a callback or collaborator *)

Definition Promise := JS.Promise Error.

(** The payload of a message confirmation: a string, or an object (here
    always an array of request items).  [None] is an absent payload. *)
Inductive Payload : Type :=
| PayloadString (s : string)
| PayloadSetVariableData (items : list SetVariableDataType)
| PayloadGetVariableData (items : list GetVariableDataType).

Record IMessageConfirmation : Type := {
  success : bool;
  payload : option Payload
}.

(** ToBoolean on a payload: objects are truthy, also the empty array. *)
Definition truthyPayload (p : option Payload) : bool :=
  match p with
  | None => false
  | Some (PayloadString s) => truthyString s
  | Some (PayloadSetVariableData _) | Some (PayloadGetVariableData _) => true
  end.

(** The two reads of [IDeviceModelRepository] that the service uses. *)
Record IDeviceModelRepository : Type := {
  readAllByQuerystring : VariableAttributeQuerystring -> list VariableAttribute;
  readAllSetVariableByStationId : string -> list SetVariableDataType
}.

(** How a run of an [async] function stands after a bounded number of loop
    iterations: it returned, it threw, or the loop is still going.  Each
    case carries the observable state [S] of the run. *)
Inductive Completion (R S : Type) : Type :=
| Returned (result : R) (final : S)
| Thrown (e : Error) (final : S)
| Running (st : S).
Arguments Returned {R S} result final.
Arguments Thrown {R S} e final.
Arguments Running {R S} st.

(** The outcome of one loop iteration: go round again, or throw. *)
Inductive Step (S : Type) : Type :=
| Continue (st : S)
| Throw (e : Error) (st : S).
Arguments Continue {S} st.
Arguments Throw {S} e st.

Definition stateOf {R S : Type} (c : Completion R S) : S :=
  match c with
  | Returned _ s | Thrown _ s | Running s => s
  end.

(** ** DeviceModelService *)

Module DeviceModelService.

(** One call of the [sendSetVariableRequest] callback. *)
Record Dispatch : Type := {
  correlationId : string;
  data : list SetVariableDataType;
  itemsPerMessage : number
}.

(** The locals of [executeSetVariablesAfterBoot] that the loop updates,
    followed by what the run has done so far: the number of [uuidv4()]
    calls, the calls of [sendSetVariableRequest] (oldest first), the
    correlation ids handed to [cacheCallback], and the ids whose response
    went through [JSON.parse] and the [forEach]. *)
Record State : Type := {
  rejectedSetVariable : bool;
  rebootSetVariable : bool;
  setVariableData : list SetVariableDataType;
  minted : nat;
  sent : list Dispatch;
  retrieved : list string;
  inspected : list string
}.

(** The body of the [forEach] callback, on the pair
    (rejectedSetVariable, rebootSetVariable). *)
Definition inspectResult (flags : bool * bool) (result : SetVariableResultType)
  : bool * bool :=
  if SetVariableStatusEnumType_eqb (attributeStatus result) Rejected
  then (true, snd flags)
  else if SetVariableStatusEnumType_eqb (attributeStatus result) RebootRequired
  then (fst flags, true)
  else flags.

Definition forEachResult (results : list SetVariableResultType)
           (flags : bool * bool) : bool * bool :=
  fold_left inspectResult results flags.

(** ToBoolean on [string | null]. *)
Definition truthy (r : option string) : bool :=
  match r with
  | Some s => truthyString s
  | None => false
  end.

Section Service.

(** [this._deviceModelRepository]. *)
Variable _deviceModelRepository : IDeviceModelRepository.

(** [uuidv4()]: the value returned by the k-th call of a run. *)
Variable uuidv4 : nat -> string.

(** [JSON.parse] at type [SetVariablesResponse]; [None] when it throws. *)
Variable JSON_parse : string -> option SetVariablesResponse.

Definition getItemsPerMessageSetVariablesByStationId (station : string)
  : Promise (option number) :=
  let itemsPerMessageSetVariablesAttributes :=
    readAllByQuerystring _deviceModelRepository
      {| stationId := station;
         component_name := "DeviceDataCtrlr";
         variable_name := "ItemsPerMessage";
         variable_instance := "SetVariables";
         type := Actual |} in
  match itemsPerMessageSetVariablesAttributes with
  | [] => (* length === 0 *) Fulfilled None
  | first :: _ => (* attributes[0] *) Fulfilled (Some (Number (value first)))
  end.

Definition getItemsPerMessageGetVariablesByStationId (station : string)
  : Promise (option number) :=
  let itemsPerMessageGetVariablesAttributes :=
    readAllByQuerystring _deviceModelRepository
      {| stationId := station;
         component_name := "DeviceDataCtrlr";
         variable_name := "ItemsPerMessage";
         variable_instance := "GetVariables";
         type := Actual |} in
  match itemsPerMessageGetVariablesAttributes with
  | [] => Fulfilled None
  | first :: _ => Fulfilled (Some (Number (value first)))
  end.

Section Loop.

Variable cacheCallback : string -> Promise (option string).
Variable sendSetVariableRequest :
  string -> list SetVariableDataType -> number ->
  Promise IMessageConfirmation.
Variable itemsPerMessageSetVariables : number.

(** One iteration of the [while] loop, entered with a non-empty
    [setVariableData]. *)
Definition loopBody (st : State) : Step State :=
  let correlationId := uuidv4 (minted st) in
  let sent' :=
    sent st ++ [{| correlationId := correlationId;
                   data := setVariableData st;
                   itemsPerMessage := itemsPerMessageSetVariables |}] in
  match sendSetVariableRequest correlationId (setVariableData st)
                               itemsPerMessageSetVariables with
  | RejectedWith e =>
      Throw e {| rejectedSetVariable := rejectedSetVariable st;
                 rebootSetVariable := rebootSetVariable st;
                 setVariableData := setVariableData st;
                 minted := S (minted st);
                 sent := sent';
                 retrieved := retrieved st;
                 inspected := inspected st |}
  | Fulfilled _ =>
      let setVariableData' :=
        slice (setVariableData st) itemsPerMessageSetVariables None in
      let after (rejected reboot : bool) (inspected' : list string) :=
        {| rejectedSetVariable := rejected;
           rebootSetVariable := reboot;
           setVariableData := setVariableData';
           minted := S (minted st);
           sent := sent';
           retrieved := retrieved st ++ [correlationId];
           inspected := inspected' |} in
      let unchanged :=
        after (rejectedSetVariable st) (rebootSetVariable st) (inspected st) in
      match cacheCallback correlationId with
      | RejectedWith e => Throw e unchanged
      | Fulfilled setVariablesResponseJsonString =>
          if truthy setVariablesResponseJsonString then
            if rejectedSetVariable st && rebootSetVariable st then
              (* continue *)
              Continue unchanged
            else
              match setVariablesResponseJsonString with
              | Some text =>
                  match JSON_parse text with
                  | Some setVariablesResponse =>
                      let flags :=
                        forEachResult
                          (setVariableResult setVariablesResponse)
                          (rejectedSetVariable st, rebootSetVariable st) in
                      Continue
                        (after (fst flags) (snd flags)
                               (inspected st ++ [correlationId]))
                  | None => Throw SyntaxError unchanged
                  end
              | None => Throw SetVariablesResponseNotFound unchanged
              end
          else Throw SetVariablesResponseNotFound unchanged
      end
  end.

(** [while (setVariableData.length > 0) { ... }] followed by the
    [return]; [fuel] bounds the number of iterations that are run. *)
Fixpoint whileLoop (fuel : nat) (st : State)
  : Completion (bool * bool) State :=
  match setVariableData st with
  | [] => Returned (rejectedSetVariable st, rebootSetVariable st) st
  | _ :: _ =>
      match fuel with
      | O => Running st
      | S fuel' =>
          match loopBody st with
          | Continue st' => whileLoop fuel' st'
          | Throw e st' => Thrown e st'
          end
      end
  end.

End Loop.

Definition initialState (items : list SetVariableDataType) : State :=
  {| rejectedSetVariable := false;
     rebootSetVariable := false;
     setVariableData := items;
     minted := O;
     sent := [];
     retrieved := [];
     inspected := [] |}.

Definition executeSetVariablesAfterBoot
           (station : string)
           (cacheCallback : string -> Promise (option string))
           (sendSetVariableRequest :
              string -> list SetVariableDataType -> number ->
              Promise IMessageConfirmation)
           (fuel : nat) : Completion (bool * bool) State :=
  let setVariableData :=
    readAllSetVariableByStationId _deviceModelRepository station in
  match getItemsPerMessageSetVariablesByStationId station with
  | RejectedWith e => Thrown e (initialState setVariableData)
  | Fulfilled limit =>
      (* limit ?? setVariableData.length *)
      let itemsPerMessageSetVariables :=
        match limit with
        | Some n => n
        | None => ofNat (List.length setVariableData)
        end in
      whileLoop cacheCallback sendSetVariableRequest
                itemsPerMessageSetVariables fuel
                (initialState setVariableData)
  end.

End Service.

(** Modelled from the spec: the body of the [sendSetVariableRequest]
    callback belongs to the caller of the service.  It is handed the
    remaining list together with the limit, and the chunk it sends is the
    leading part of that list, no larger than the limit: what the route
    layer writes as [slice(0, itemsPerMessage)]. *)
Definition chunkOf (d : Dispatch) : list SetVariableDataType :=
  slice (data d) (ofZ 0) (Some (itemsPerMessage d)).

End DeviceModelService.

(** ** ProvisioningModuleApi: the route-layer endpoints (api.ts) *)

Module ProvisioningModuleApi.

Inductive Request : Type :=
| SetVariablesRequest (setVariableData : list SetVariableDataType)
| GetVariablesRequest (getVariableData : list GetVariableDataType).

(** One call of [this._module.sendCall]. *)
Record Call : Type := {
  identifier : string;
  partyId : string;
  action : CallAction;
  request : Request
}.

(** The local [finalMessageConfirmation] and the calls of [sendCall] made
    so far (oldest first). *)
Record State : Type := {
  finalMessageConfirmation : IMessageConfirmation;
  calls : list Call
}.

Definition initialState : State :=
  {| finalMessageConfirmation := {| success := true; payload := None |};
     calls := [] |}.

Section Api.

(** [this._module.deviceModelRepository.readAllByQuery]. *)
Variable readAllByQuery : VariableAttributeQuerystring -> list VariableAttribute.

(** [this._module.sendCall]: the first argument is the number of calls
    the run has made before this one, so that the transport may answer
    equal requests differently. *)
Variable sendCall :
  nat -> string -> string -> CallAction -> Request -> Promise IMessageConfirmation.

Section Endpoint.

Variable station : string.
Variable party : string.

(** The body of the [while] loop of [setVariables].  The tested list
    [setVariableData] is a [const] that the body only reads. *)
Definition setVariablesBody (setVariableData : list SetVariableDataType)
           (itemsPerMessageSetVariables : number) (st : State) : Step State :=
  let setVariableDataSubset :=
    slice setVariableData (ofZ 0) (Some itemsPerMessageSetVariables) in
  let call :=
    {| identifier := station; partyId := party; action := SetVariables;
       request := SetVariablesRequest setVariableDataSubset |} in
  match sendCall (List.length (calls st)) station party SetVariables
                 (SetVariablesRequest setVariableDataSubset) with
  | RejectedWith e =>
      Throw e {| finalMessageConfirmation := finalMessageConfirmation st;
                 calls := calls st ++ [call] |}
  | Fulfilled messageConfirmation =>
      if negb (truthyPayload (payload messageConfirmation)) then
        Continue
          {| finalMessageConfirmation :=
               {| success := false;
                  payload :=
                    match payload (finalMessageConfirmation st) with
                    | Some (PayloadSetVariableData collected) =>
                        Some (PayloadSetVariableData
                                (collected ++ setVariableDataSubset))
                    | _ => Some (PayloadSetVariableData setVariableDataSubset)
                    end |};
             calls := calls st ++ [call] |}
      else
        Continue {| finalMessageConfirmation := finalMessageConfirmation st;
                    calls := calls st ++ [call] |}
  end.

Fixpoint setVariablesLoop (setVariableData : list SetVariableDataType)
         (itemsPerMessageSetVariables : number) (fuel : nat) (st : State)
  : Completion IMessageConfirmation State :=
  match setVariableData with
  | [] => Returned (finalMessageConfirmation st) st
  | _ :: _ =>
      match fuel with
      | O => Running st
      | S fuel' =>
          match setVariablesBody setVariableData
                                 itemsPerMessageSetVariables st with
          | Continue st' =>
              setVariablesLoop setVariableData
                               itemsPerMessageSetVariables fuel' st'
          | Throw e st' => Thrown e st'
          end
      end
  end.

Definition setVariables (setVariableData : list SetVariableDataType)
           (fuel : nat) : Completion IMessageConfirmation State :=
  let itemsPerMessageSetVariablesAttributes :=
    readAllByQuery
      {| stationId := station;
         component_name := "DeviceDataCtrlr";
         variable_name := "ItemsPerMessage";
         variable_instance := "SetVariables";
         type := Actual |} in
  match itemsPerMessageSetVariablesAttributes with
  | [only] =>
      (* length == 1 *)
      setVariablesLoop setVariableData (Number (value only)) fuel initialState
  | [] =>
      (* length == 0: if no limit reported, no limit used *)
      let call :=
        {| identifier := station; partyId := party; action := SetVariables;
           request := SetVariablesRequest setVariableData |} in
      let final :=
        {| finalMessageConfirmation := finalMessageConfirmation initialState;
           calls := [call] |} in
      match sendCall O station party SetVariables
                     (SetVariablesRequest setVariableData) with
      | Fulfilled confirmation => Returned confirmation final
      | RejectedWith e => Thrown e final
      end
  | _ :: _ :: _ =>
      Thrown (StandardComponentStructureViolation
                itemsPerMessageSetVariablesAttributes) initialState
  end.

(** The body of the [while] loop of [getVariables]. *)
Definition getVariablesBody (getVariableData : list GetVariableDataType)
           (itemsPerMessageGetVariables : number) (st : State) : Step State :=
  let getVariableDataSubset :=
    slice getVariableData (ofZ 0) (Some itemsPerMessageGetVariables) in
  let call :=
    {| identifier := station; partyId := party; action := GetVariables;
       request := GetVariablesRequest getVariableDataSubset |} in
  match sendCall (List.length (calls st)) station party GetVariables
                 (GetVariablesRequest getVariableDataSubset) with
  | RejectedWith e =>
      Throw e {| finalMessageConfirmation := finalMessageConfirmation st;
                 calls := calls st ++ [call] |}
  | Fulfilled messageConfirmation =>
      if negb (truthyPayload (payload messageConfirmation)) then
        Continue
          {| finalMessageConfirmation :=
               {| success := false;
                  payload :=
                    match payload (finalMessageConfirmation st) with
                    | Some (PayloadGetVariableData collected) =>
                        Some (PayloadGetVariableData
                                (collected ++ getVariableDataSubset))
                    | _ => Some (PayloadGetVariableData getVariableDataSubset)
                    end |};
             calls := calls st ++ [call] |}
      else
        Continue {| finalMessageConfirmation := finalMessageConfirmation st;
                    calls := calls st ++ [call] |}
  end.

Fixpoint getVariablesLoop (getVariableData : list GetVariableDataType)
         (itemsPerMessageGetVariables : number) (fuel : nat) (st : State)
  : Completion IMessageConfirmation State :=
  match getVariableData with
  | [] => Returned (finalMessageConfirmation st) st
  | _ :: _ =>
      match fuel with
      | O => Running st
      | S fuel' =>
          match getVariablesBody getVariableData
                                 itemsPerMessageGetVariables st with
          | Continue st' =>
              getVariablesLoop getVariableData
                               itemsPerMessageGetVariables fuel' st'
          | Throw e st' => Thrown e st'
          end
      end
  end.

Definition getVariables (getVariableData : list GetVariableDataType)
           (fuel : nat) : Completion IMessageConfirmation State :=
  let itemsPerMessageGetVariablesAttributes :=
    readAllByQuery
      {| stationId := station;
         component_name := "DeviceDataCtrlr";
         variable_name := "ItemsPerMessage";
         variable_instance := "GetVariables";
         type := Actual |} in
  match itemsPerMessageGetVariablesAttributes with
  | [only] =>
      getVariablesLoop getVariableData (Number (value only)) fuel initialState
  | [] =>
      let call :=
        {| identifier := station; partyId := party; action := GetVariables;
           request := GetVariablesRequest getVariableData |} in
      let final :=
        {| finalMessageConfirmation := finalMessageConfirmation initialState;
           calls := [call] |} in
      match sendCall O station party GetVariables
                     (GetVariablesRequest getVariableData) with
      | Fulfilled confirmation => Returned confirmation final
      | RejectedWith e => Thrown e final
      end
  | _ :: _ :: _ =>
      Thrown (StandardComponentStructureViolation
                itemsPerMessageGetVariablesAttributes) initialState
  end.

End Endpoint.

End Api.

End ProvisioningModuleApi.

(** ** Notions used to state the properties of a run *)

Definition isRejected (result : SetVariableResultType) : bool :=
  SetVariableStatusEnumType_eqb (attributeStatus result) Rejected.

Definition isRebootRequired (result : SetVariableResultType) : bool :=
  SetVariableStatusEnumType_eqb (attributeStatus result) RebootRequired.

(** ceil(n / L) on natural numbers, for [0 < L]. *)
Definition ceilDiv (n L : nat) : nat := ((n + L - 1) / L)%nat.

Module Run.

Section Notions.

Import DeviceModelService.

Variable uuidv4 : nat -> string.
Variable JSON_parse : string -> option SetVariablesResponse.
Variable cacheCallback : string -> Promise (option string).
Variable sendSetVariableRequest :
  string -> list SetVariableDataType -> number -> Promise IMessageConfirmation.
Variable limit : number.
Variable items : list SetVariableDataType.

(** The list the loop holds after [k] completed iterations. *)
Definition remaining (k : nat) : list SetVariableDataType :=
  Nat.iter k (fun l => slice l limit None) items.

Definition dispatchAt (k : nat) : Dispatch :=
  {| correlationId := uuidv4 k; data := remaining k; itemsPerMessage := limit |}.

(** The item-level results of the response to chunk [k] (none when the
    response is missing or does not decode). *)
Definition responseOf (k : nat) : list SetVariableResultType :=
  match cacheCallback (uuidv4 k) with
  | Fulfilled (Some text) =>
      match JSON_parse text with
      | Some response => setVariableResult response
      | None => []
      end
  | _ => []
  end.

(** Both flags are already set by the responses to the chunks before
    chunk [k]. *)
Definition bothSeenBefore (k : nat) : bool :=
  existsb (fun i => existsb isRejected (responseOf i)) (seq 0 k)
  && existsb (fun i => existsb isRebootRequired (responseOf i)) (seq 0 k).

(** The response to chunk [k] is present: a non-empty string. *)
Definition present (k : nat) : Prop :=
  exists text, cacheCallback (uuidv4 k) = Fulfilled (Some text)
               /\ truthyString text = true.

(** What holds between iterations of a run started on [items]. *)
Record Inv (st : State) : Prop := {
  inv_sent : sent st = map dispatchAt (seq 0 (minted st));
  inv_data : setVariableData st = remaining (minted st);
  inv_retrieved : retrieved st = map uuidv4 (seq 0 (minted st));
  inv_entered : forall i, (i < minted st)%nat -> remaining i <> [];
  inv_present : forall i, (i < minted st)%nat -> present i;
  inv_rejected :
    rejectedSetVariable st =
    existsb (fun k => existsb isRejected (responseOf k)) (seq 0 (minted st));
  inv_reboot :
    rebootSetVariable st =
    existsb (fun k => existsb isRebootRequired (responseOf k)) (seq 0 (minted st));
  inv_inspected :
    inspected st =
    map uuidv4 (filter (fun k => negb (bothSeenBefore k)) (seq 0 (minted st)))
}.

(** How an iteration can end in a [throw]. *)
Inductive ThrowCause (st : State) (e : Error) (st' : State) : Prop :=
| SendRejected :
    sendSetVariableRequest (uuidv4 (minted st)) (setVariableData st) limit
    = RejectedWith e ->
    retrieved st' = retrieved st ->
    ThrowCause st e st'
| CacheRejected :
    cacheCallback (uuidv4 (minted st)) = RejectedWith e ->
    retrieved st' = retrieved st ++ [uuidv4 (minted st)] ->
    ThrowCause st e st'
| ResponseFalsy (r : option string) :
    cacheCallback (uuidv4 (minted st)) = Fulfilled r ->
    truthy r = false ->
    e = SetVariablesResponseNotFound ->
    retrieved st' = retrieved st ++ [uuidv4 (minted st)] ->
    ThrowCause st e st'
| ResponseUndecodable (text : string) :
    cacheCallback (uuidv4 (minted st)) = Fulfilled (Some text) ->
    truthyString text = true ->
    JSON_parse text = None ->
    rejectedSetVariable st && rebootSetVariable st = false ->
    e = SyntaxError ->
    retrieved st' = retrieved st ++ [uuidv4 (minted st)] ->
    ThrowCause st e st'.

(** Chunk [k] is sent, and answered by a non-empty response that
    decodes. *)
Definition answered (k : nat) : Prop :=
  (exists c, sendSetVariableRequest (uuidv4 k) (remaining k) limit = Fulfilled c)
  /\ exists text response,
       cacheCallback (uuidv4 k) = Fulfilled (Some text)
       /\ truthyString text = true
       /\ JSON_parse text = Some response.

(** How an iteration that completes treats the response it retrieved:
    not looked at when both flags are already set, otherwise decoded and
    folded into the flags. *)
Inductive Folded (st st' : State) : Prop :=
| Skipped :
    rejectedSetVariable st = true -> rebootSetVariable st = true ->
    rejectedSetVariable st' = true -> rebootSetVariable st' = true ->
    inspected st' = inspected st ->
    Folded st st'
| Inspected (text : string) (response : SetVariablesResponse) :
    rejectedSetVariable st && rebootSetVariable st = false ->
    cacheCallback (uuidv4 (minted st)) = Fulfilled (Some text) ->
    JSON_parse text = Some response ->
    rejectedSetVariable st' =
      rejectedSetVariable st
      || existsb isRejected (setVariableResult response) ->
    rebootSetVariable st' =
      rebootSetVariable st
      || existsb isRebootRequired (setVariableResult response) ->
    inspected st' = inspected st ++ [uuidv4 (minted st)] ->
    Folded st st'.

End Notions.

End Run.

(** ** Concrete collaborators, for running the functions on examples *)

Module Sample.

Definition decimal (k : nat) : string :=
  NilEmpty.string_of_uint (Nat.to_uint k).

(** The correlation id minted by the k-th call. *)
Definition uuidv4 (k : nat) : string := "id-" ++ decimal k.

Definition item (k : nat) : SetVariableDataType :=
  {| sv_component := "Controller";
     sv_variable := "Variable" ++ decimal k;
     sv_attributeValue := decimal k |}.

Definition itemList (n : nat) : list SetVariableDataType := map item (seq 0 n).

Definition query (k : nat) : GetVariableDataType :=
  {| gv_component := "Controller"; gv_variable := "Variable" ++ decimal k |}.

Definition queryList (n : nat) : list GetVariableDataType := map query (seq 0 n).

(** A response text in a one-letter-per-result encoding that stands in for
    the JSON of a SetVariablesResponse: [A] is Accepted, [R] Rejected, [B]
    RebootRequired; any other letter makes the text undecodable. *)
Definition statusOfLetter (c : ascii) : option SetVariableStatusEnumType :=
  if Ascii.eqb c "A" then Some Accepted
  else if Ascii.eqb c "R" then Some Rejected
  else if Ascii.eqb c "B" then Some RebootRequired
  else None.

Fixpoint decodeResults (text : string) : option (list SetVariableResultType) :=
  match text with
  | EmptyString => Some []
  | String c rest =>
      match statusOfLetter c, decodeResults rest with
      | Some status, Some results =>
          Some ({| attributeStatus := status;
                   sr_component := "Controller";
                   sr_variable := "Variable" |} :: results)
      | _, _ => None
      end
  end.

Definition JSON_parse (text : string) : option SetVariablesResponse :=
  match decodeResults text with
  | Some results => Some {| setVariableResult := results |}
  | None => None
  end.

(** A correlation store that holds [responses], the k-th one under the
    k-th correlation id, and nothing under any other id. *)
Fixpoint cacheFrom (k : nat) (responses : list (option string))
         (correlationId : string) : Promise (option string) :=
  match responses with
  | [] => Fulfilled None
  | r :: rest =>
      if String.eqb correlationId (uuidv4 k) then Fulfilled r
      else cacheFrom (S k) rest correlationId
  end.

Definition cache (responses : list (option string)) := cacheFrom O responses.

(** A correlation store that answers every id with the same text. *)
Definition cacheAlways (text : string) (correlationId : string)
  : Promise (option string) :=
  Fulfilled (Some text).

(** A send callback that always succeeds. *)
Definition send (correlationId : string) (data : list SetVariableDataType)
           (itemsPerMessage : number) : Promise IMessageConfirmation :=
  Fulfilled {| success := true; payload := None |}.

(** A device model that stores [attributes] as the ItemsPerMessage
    attributes of every station and [items] as the variables to set. *)
Definition repository (attributes : list VariableAttribute)
           (items : list SetVariableDataType) : IDeviceModelRepository :=
  {| readAllByQuerystring := fun _ => attributes;
     readAllSetVariableByStationId := fun _ => items |}.

(** A transport whose every call is confirmed with a payload. *)
Definition sendCall (made : nat) (identifier partyId : string)
           (action : CallAction) (request : ProvisioningModuleApi.Request)
  : Promise IMessageConfirmation :=
  Fulfilled {| success := true; payload := Some (PayloadString "ok") |}.

End Sample.

(** ** [DeviceModelService.updateDeviceModel] *)

Module DeviceModelUpdate.

(** A property read off the [any]-typed boot payload: absent, [null], or a
    string. *)
Inductive Field : Type :=
| Undefined
| Null
| Text (s : string).

(** [value !== undefined]. *)
Definition isDefined (f : Field) : bool :=
  match f with
  | Undefined => false
  | Null | Text _ => true
  end.

Record Modem : Type := {
  iccid : Field;
  imsi : Field
}.

(** The [modem] property: absent, [null], or an object. *)
Inductive ModemField : Type :=
| ModemUndefined
| ModemNull
| ModemObject (m : Modem).

Record ChargingStation : Type := {
  model : Field;
  vendorName : Field;
  firmwareVersion : Field;
  serialNumber : Field;
  modem : ModemField
}.

(** [chargingStation.modem?.imsi]: optional chaining answers [undefined]
    when [modem] is [undefined] or [null]. *)
Definition modem_imsi (cs : ChargingStation) : Field :=
  match modem cs with
  | ModemObject m => imsi m
  | ModemUndefined | ModemNull => Undefined
  end.

Definition modem_iccid (cs : ChargingStation) : Field :=
  match modem cs with
  | ModemObject m => iccid m
  | ModemUndefined | ModemNull => Undefined
  end.

(** Modelled from the spec: the mutability of a stored attribute, of which
    the update only uses [ReadOnly]. *)
Inductive MutabilityEnumType : Type := ReadOnly | WriteOnly | ReadWrite.

(** One entry of the local [attributes] array. *)
Record Attribute : Type := {
  component : string;
  variable : string;
  value : Field
}.

(** The attribute object inside a report. *)
Record VariableAttributeType : Type := {
  type : AttributeEnumType;
  attributeValue : Field;
  mutability : MutabilityEnumType;
  persistent : bool;
  constant : bool
}.

(** The report handed to [createOrUpdateDeviceModelByStationId]. *)
Record ReportDataType : Type := {
  componentName : string;
  variableName : string;
  variableAttribute : list VariableAttributeType
}.

(** One call of [createOrUpdateDeviceModelByStationId]. *)
Record Write : Type := {
  report : ReportDataType;
  station : string;
  timestamp : string
}.

Definition attributes (chargingStation : ChargingStation) : list Attribute :=
  [ {| component := "ChargingStation"; variable := "Model";
       value := model chargingStation |};
    {| component := "ChargingStation"; variable := "VendorName";
       value := vendorName chargingStation |};
    {| component := "Controller"; variable := "FirmwareVersion";
       value := firmwareVersion chargingStation |};
    {| component := "ChargingStation"; variable := "SerialNumber";
       value := serialNumber chargingStation |};
    {| component := "DataLink"; variable := "IMSI";
       value := modem_imsi chargingStation |};
    {| component := "DataLink"; variable := "ICCID";
       value := modem_iccid chargingStation |} ].

(** The arguments of the call made for one attribute. *)
Definition writeOf (stationId timestamp : string) (attr : Attribute) : Write :=
  {| report :=
       {| componentName := component attr;
          variableName := variable attr;
          variableAttribute :=
            [ {| type := Actual;
                 attributeValue := value attr;
                 mutability := ReadOnly;
                 persistent := true;
                 constant := true |} ] |};
     station := stationId;
     timestamp := timestamp |}.

(** [Promise.all]: fulfilled with all the values when every promise is
    fulfilled, rejected otherwise.  Which of several rejection reasons is
    reported depends on the order in which the promises settle; here it is
    the first one in list order. *)
Fixpoint Promise_all {A : Type} (promises : list (Promise A)) : Promise (list A) :=
  match promises with
  | [] => Fulfilled []
  | Fulfilled a :: rest =>
      match Promise_all rest with
      | Fulfilled values => Fulfilled (a :: values)
      | RejectedWith e => RejectedWith e
      end
  | RejectedWith e :: _ => RejectedWith e
  end.

Section Update.

(** [this._deviceModelRepository.createOrUpdateDeviceModelByStationId]. *)
Variable createOrUpdateDeviceModelByStationId :
  ReportDataType -> string -> string -> Promise (list VariableAttribute).

(** The calls [updateDeviceModel] makes, in the order it makes them. *)
Definition writes (chargingStation : ChargingStation)
           (stationId timestamp : string) : list Write :=
  map (writeOf stationId timestamp)
      (filter (fun attr => isDefined (value attr)) (attributes chargingStation)).

(** [updateDeviceModel]: the calls it makes and what awaiting them gives. *)
Definition updateDeviceModel (chargingStation : ChargingStation)
           (stationId timestamp : string) : list Write * Promise unit :=
  let calls := writes chargingStation stationId timestamp in
  let promises :=
    map (fun w => createOrUpdateDeviceModelByStationId
                    (report w) (station w) (DeviceModelUpdate.timestamp w))
        calls in
  (calls,
   match Promise_all promises with
   | Fulfilled _ => Fulfilled tt
   | RejectedWith e => RejectedWith e
   end).

End Update.

End DeviceModelUpdate.

(** ** Further notions used to state properties of the runs *)

Module Route.

Import ProvisioningModuleApi.

(** The k-th call of the [setVariables] loop was confirmed without a
    payload. *)
Definition unconfirmedSet
           (sendCall : nat -> string -> string -> CallAction -> Request ->
                       Promise IMessageConfirmation)
           (station party : string) (subset : list SetVariableDataType)
           (k : nat) : bool :=
  match sendCall k station party SetVariables (SetVariablesRequest subset) with
  | Fulfilled confirmation => negb (truthyPayload (payload confirmation))
  | RejectedWith _ => false
  end.

Definition unconfirmedGet
           (sendCall : nat -> string -> string -> CallAction -> Request ->
                       Promise IMessageConfirmation)
           (station party : string) (subset : list GetVariableDataType)
           (k : nat) : bool :=
  match sendCall k station party GetVariables (GetVariablesRequest subset) with
  | Fulfilled confirmation => negb (truthyPayload (payload confirmation))
  | RejectedWith _ => false
  end.

(** [count] copies of [subset], one after the other. *)
Definition copies {A : Type} (count : nat) (subset : list A) : list A :=
  List.concat (repeat subset count).

End Route.

(** ** More concrete collaborators *)

Module Sample2.

(** A response text with one letter per result, as [Sample.JSON_parse],
    that also writes the statuses UnknownComponent ([C]), UnknownVariable
    ([V]) and NotSupportedAttributeType ([N]). *)
Definition statusOfLetter (c : ascii) : option SetVariableStatusEnumType :=
  if Ascii.eqb c "A" then Some Accepted
  else if Ascii.eqb c "R" then Some Rejected
  else if Ascii.eqb c "B" then Some RebootRequired
  else if Ascii.eqb c "C" then Some UnknownComponent
  else if Ascii.eqb c "V" then Some UnknownVariable
  else if Ascii.eqb c "N" then Some NotSupportedAttributeType
  else None.

Fixpoint decodeResults (text : string) : option (list SetVariableResultType) :=
  match text with
  | EmptyString => Some []
  | String c rest =>
      match statusOfLetter c, decodeResults rest with
      | Some status, Some results =>
          Some ({| attributeStatus := status;
                   sr_component := "Controller";
                   sr_variable := "Variable" |} :: results)
      | _, _ => None
      end
  end.

Definition JSON_parse (text : string) : option SetVariablesResponse :=
  match decodeResults text with
  | Some results => Some {| setVariableResult := results |}
  | None => None
  end.

(** A send callback that rejects the chunk sent under [failing] and
    accepts every other. *)
Definition sendFailingAt (failing : string) (correlationId : string)
           (data : list SetVariableDataType) (itemsPerMessage : number)
  : Promise IMessageConfirmation :=
  if String.eqb correlationId failing
  then RejectedWith (CallbackError "send failed")
  else Fulfilled {| success := true; payload := None |}.

(** A correlation store that rejects the read of [failing] and answers
    every other id with [text]. *)
Definition cacheFailingAt (failing text : string) (correlationId : string)
  : Promise (option string) :=
  if String.eqb correlationId failing
  then RejectedWith (CallbackError "cache failed")
  else Fulfilled (Some text).

(** A transport that confirms without a payload the calls whose number is
    in [unconfirmed], and with a payload every other call. *)
Definition sendCallUnconfirmed (unconfirmed : list nat) (made : nat)
           (identifier partyId : string) (action : CallAction)
           (request : ProvisioningModuleApi.Request)
  : Promise IMessageConfirmation :=
  if existsb (Nat.eqb made) unconfirmed
  then Fulfilled {| success := true; payload := None |}
  else Fulfilled {| success := true; payload := Some (PayloadString "ok") |}.

(** A boot payload of a station with a serial number and a modem that
    reports an ICCID only. *)
Definition station : DeviceModelUpdate.ChargingStation :=
  {| DeviceModelUpdate.model := DeviceModelUpdate.Text "M1";
     DeviceModelUpdate.vendorName := DeviceModelUpdate.Text "Vendor";
     DeviceModelUpdate.firmwareVersion := DeviceModelUpdate.Undefined;
     DeviceModelUpdate.serialNumber := DeviceModelUpdate.Null;
     DeviceModelUpdate.modem :=
       DeviceModelUpdate.ModemObject
         {| DeviceModelUpdate.iccid := DeviceModelUpdate.Text "8901";
            DeviceModelUpdate.imsi := DeviceModelUpdate.Undefined |} |}.

End Sample2.

(** * Properties *)

(** ** The JavaScript fragment on sample inputs *)

Example Number_decimal : Number "10" = ofZ 10.
Proof. reflexivity. Qed.

Example Number_zero : Number "0" = ofZ 0.
Proof. reflexivity. Qed.

Example Number_empty : Number "" = ofZ 0.
Proof. reflexivity. Qed.

Example Number_zero_fraction : Number "-0.00" = ofZ 0.
Proof. reflexivity. Qed.

Example Number_text : Number "abc" = NaN.
Proof. reflexivity. Qed.

Example Number_unit_suffix : Number "12px" = NaN.
Proof. reflexivity. Qed.

Example Number_negative : Number " -3 " = ofZ (-3).
Proof. reflexivity. Qed.

Example Number_fraction : Number "2.5" = Fin (5 # 2).
Proof. reflexivity. Qed.

Example Number_exponent : Number "2.5e1" = ofZ 25.
Proof. reflexivity. Qed.

Example Number_hex : Number "0x1F" = ofZ 31.
Proof. reflexivity. Qed.

Example Number_signed_hex : Number "-0x1F" = NaN.
Proof. reflexivity. Qed.

Example Number_infinity : Number "-Infinity" = NegInfinity.
Proof. reflexivity. Qed.

Example slice_from_2 : slice [1; 2; 3; 4; 5] (ofZ 2) None = [3; 4; 5].
Proof. reflexivity. Qed.

Example slice_from_minus_2 : slice [1; 2; 3; 4; 5] (ofZ (-2)) None = [4; 5].
Proof. reflexivity. Qed.

Example slice_from_NaN : slice [1; 2; 3; 4; 5] NaN None = [1; 2; 3; 4; 5].
Proof. reflexivity. Qed.

Example slice_past_end : slice [1; 2; 3; 4; 5] (ofZ 9) None = [].
Proof. reflexivity. Qed.

Example slice_0_2 : slice [1; 2; 3; 4; 5] (ofZ 0) (Some (ofZ 2)) = [1; 2].
Proof. reflexivity. Qed.

Example slice_0_minus_1 :
  slice [1; 2; 3; 4; 5] (ofZ 0) (Some (ofZ (-1))) = [1; 2; 3; 4].
Proof. reflexivity. Qed.

Example slice_0_fraction :
  slice [1; 2; 3; 4; 5] (ofZ 0) (Some (Fin (25 # 10))) = [1; 2].
Proof. reflexivity. Qed.

(** ** [slice] in terms of [skipn] and [firstn] *)

Section SliceFacts.

Context {A : Type}.
Implicit Types (l : list A) (x : number).

Lemma relativeIndex_range (len : Z) (r : integerOrInfinity) :
  0 <= len -> 0 <= relativeIndex len r <= len.
Proof.
  intros Hlen. destruct r as [z| |]; simpl; try lia.
  destruct (z <? 0) eqn:E; lia.
Qed.

Lemma relativeIndex_nonneg (len z : Z) :
  0 <= z -> relativeIndex len (Int z) = Z.min z len.
Proof.
  intros Hz. unfold relativeIndex.
  destruct (Z.ltb_spec z 0); [lia | reflexivity].
Qed.

Lemma ToIntegerOrInfinity_ofZ (z : Z) : ToIntegerOrInfinity (ofZ z) = Int z.
Proof. simpl. unfold truncate. simpl. now rewrite Z.quot_1_r. Qed.

(** [l.slice(x)] drops a prefix. *)
Lemma slice_from l x :
  slice l x None =
  skipn (Z.to_nat (relativeIndex (Z.of_nat (List.length l))
                                 (ToIntegerOrInfinity x))) l.
Proof.
  unfold slice.
  pose proof (relativeIndex_range (Z.of_nat (List.length l))
                                  (ToIntegerOrInfinity x)
                                  (Nat2Z.is_nonneg _)) as Hr.
  apply firstn_all2. rewrite length_skipn. lia.
Qed.

(** [l.slice(0, x)] keeps a prefix. *)
Lemma slice_upto l x :
  slice l (ofZ 0) (Some x) =
  firstn (Z.to_nat (relativeIndex (Z.of_nat (List.length l))
                                  (ToIntegerOrInfinity x))) l.
Proof.
  unfold slice. rewrite ToIntegerOrInfinity_ofZ.
  replace (relativeIndex (Z.of_nat (List.length l)) (Int 0)) with 0
    by (rewrite relativeIndex_nonneg; lia).
  now rewrite Z.sub_0_r.
Qed.

Lemma slice_from_positive l x (L : Z) :
  ToIntegerOrInfinity x = Int L -> 0 < L ->
  slice l x None = skipn (Z.to_nat L) l.
Proof.
  intros Hx HL. rewrite slice_from, Hx, relativeIndex_nonneg by lia.
  destruct (Z.le_ge_cases L (Z.of_nat (List.length l))) as [Hle|Hge].
  - now rewrite Z.min_l.
  - rewrite Z.min_r by lia. rewrite Nat2Z.id.
    rewrite skipn_all. symmetry. apply skipn_all2. lia.
Qed.

Lemma slice_upto_positive l x (L : Z) :
  ToIntegerOrInfinity x = Int L -> 0 < L ->
  slice l (ofZ 0) (Some x) = firstn (Z.to_nat L) l.
Proof.
  intros Hx HL. rewrite slice_upto, Hx, relativeIndex_nonneg by lia.
  destruct (Z.le_ge_cases L (Z.of_nat (List.length l))) as [Hle|Hge].
  - now rewrite Z.min_l.
  - rewrite Z.min_r by lia. rewrite Nat2Z.id.
    rewrite firstn_all. symmetry. apply firstn_all2. lia.
Qed.

(** A start of 0 (which is also what NaN converts to) keeps the whole
    list. *)
Lemma slice_from_zero l x :
  ToIntegerOrInfinity x = Int 0 -> slice l x None = l.
Proof.
  intros Hx. rewrite slice_from, Hx, relativeIndex_nonneg by lia.
  rewrite Z.min_l by lia. reflexivity.
Qed.

Lemma slice_from_length l : slice l (ofNat (List.length l)) None = [].
Proof.
  rewrite slice_from. unfold ofNat.
  rewrite ToIntegerOrInfinity_ofZ, relativeIndex_nonneg by lia.
  rewrite Z.min_id, Nat2Z.id. apply skipn_all.
Qed.

Lemma slice_upto_length l :
  slice l (ofZ 0) (Some (ofNat (List.length l))) = l.
Proof.
  rewrite slice_upto. unfold ofNat.
  rewrite ToIntegerOrInfinity_ofZ, relativeIndex_nonneg by lia.
  rewrite Z.min_id, Nat2Z.id. apply firstn_all.
Qed.

End SliceFacts.

(** ** The loop of [executeSetVariablesAfterBoot] *)

Lemma forEachResult_or (results : list SetVariableResultType) (rej reb : bool) :
  DeviceModelService.forEachResult results (rej, reb) =
  (rej || existsb isRejected results, reb || existsb isRebootRequired results).
Proof.
  unfold DeviceModelService.forEachResult.
  revert rej reb. induction results as [|r rs IH]; intros rej reb; simpl.
  - now rewrite !orb_false_r.
  - unfold DeviceModelService.inspectResult at 2, isRejected, isRebootRequired.
    destruct (attributeStatus r); simpl; rewrite IH; simpl;
      rewrite ?orb_true_r; reflexivity.
Qed.

Lemma ceilDiv_le (n L m : nat) :
  (0 < L)%nat -> (ceilDiv n L <= m)%nat <-> (n <= m * L)%nat.
Proof.
  intros HL. unfold ceilDiv.
  pose proof (Nat.div_mod_eq (n + L - 1) L) as E.
  pose proof (Nat.mod_upper_bound (n + L - 1) L ltac:(lia)) as B.
  split; intros H; nia.
Qed.

Lemma ceilDiv_unique (n L k : nat) :
  (0 < L)%nat -> (n <= k * L)%nat -> (forall i, i < k -> i * L < n)%nat ->
  k = ceilDiv n L.
Proof.
  intros HL Hk Hmin.
  apply Nat.le_antisymm.
  - destruct k as [|k]; [lia|].
    specialize (Hmin k ltac:(lia)).
    destruct (Nat.le_gt_cases (S k) (ceilDiv n L)) as [|Hlt]; [assumption|].
    assert (ceilDiv n L <= k)%nat as Hc by lia.
    apply (ceilDiv_le n L k HL) in Hc. lia.
  - now apply ceilDiv_le.
Qed.

Lemma nth_error_map_seq {A : Type} (f : nat -> A) (n i : nat) :
  (i < n)%nat -> nth_error (map f (seq 0 n)) i = Some (f i).
Proof.
  intros Hi. rewrite nth_error_map.
  rewrite (nth_error_nth' (seq 0 n) O) by now rewrite length_seq.
  now rewrite seq_nth.
Qed.

Lemma firstn_add {A : Type} (a b : nat) (l : list A) :
  firstn (a + b) l = firstn a l ++ firstn b (skipn a l).
Proof.
  revert l. induction a as [|a IH]; intros l; simpl; [reflexivity|].
  destruct l as [|x l]; simpl.
  - now rewrite firstn_nil.
  - now rewrite IH.
Qed.

Lemma skipn_add {A : Type} (a b : nat) (l : list A) :
  skipn b (skipn a l) = skipn (a + b) l.
Proof.
  revert l. induction a as [|a IH]; intros l; simpl; [reflexivity|].
  destruct l as [|x l]; simpl.
  - now rewrite skipn_nil.
  - apply IH.
Qed.

Lemma skipn_nil_iff {A : Type} (k : nat) (l : list A) :
  skipn k l = [] <-> (List.length l <= k)%nat.
Proof.
  split; intros H.
  - apply (f_equal (@List.length A)) in H. rewrite length_skipn in H.
    simpl in H. lia.
  - now apply skipn_all2.
Qed.

(** Cutting a list into [count] pieces of [L] items and gluing them back
    gives the first [count * L] items. *)
Lemma concat_pieces {A : Type} (L count : nat) (l : list A) :
  List.concat (map (fun i => firstn L (skipn (i * L) l)) (seq 0 count))
  = firstn (count * L) l.
Proof.
  induction count as [|c IH]; [reflexivity|].
  rewrite seq_S, map_app, concat_app, IH. simpl.
  rewrite app_nil_r, <- firstn_add. f_equal. lia.
Qed.

Section ExecuteSetVariablesAfterBoot.

Import DeviceModelService.

Variable uuidv4 : nat -> string.
Variable JSON_parse : string -> option SetVariablesResponse.
Variable cacheCallback : string -> Promise (option string).
Variable sendSetVariableRequest :
  string -> list SetVariableDataType -> number -> Promise IMessageConfirmation.
Variable limit : number.
Variable items : list SetVariableDataType.

Abbreviation remaining := (Run.remaining limit items).
Abbreviation dispatchAt := (Run.dispatchAt uuidv4 limit items).
Abbreviation responseOf := (Run.responseOf uuidv4 JSON_parse cacheCallback).
Abbreviation bothSeenBefore :=
  (Run.bothSeenBefore uuidv4 JSON_parse cacheCallback).
Abbreviation present := (Run.present uuidv4 cacheCallback).
Abbreviation answered :=
  (Run.answered uuidv4 JSON_parse cacheCallback sendSetVariableRequest limit items).
Abbreviation Inv := (Run.Inv uuidv4 JSON_parse cacheCallback limit items).
Abbreviation ThrowCause :=
  (Run.ThrowCause uuidv4 JSON_parse cacheCallback sendSetVariableRequest limit).
Abbreviation Folded := (Run.Folded uuidv4 JSON_parse cacheCallback).
Abbreviation body := (loopBody uuidv4 JSON_parse cacheCallback
                           sendSetVariableRequest limit).
Abbreviation loop := (whileLoop uuidv4 JSON_parse cacheCallback
                            sendSetVariableRequest limit).

Ltac conjs := repeat match goal with |- _ /\ _ => split end.

Ltac body_cases H :=
  unfold loopBody in H;
  repeat match type of H with
         | context [match ?x with _ => _ end] => destruct x eqn:?
         end;
  inversion H; subst; clear H; simpl in *.

Lemma Inv_initial : Inv (initialState items).
Proof.
  constructor; simpl; try reflexivity; intros i Hi; inversion Hi.
Qed.

Lemma body_counts (st : State) :
  let st' := match body st with Continue s | Throw _ s => s end in
  minted st' = S (minted st)
  /\ sent st' = sent st ++ [{| correlationId := uuidv4 (minted st);
                               data := setVariableData st;
                               itemsPerMessage := limit |}].
Proof.
  destruct (body st) as [s|e s] eqn:H; body_cases H; auto.
Qed.

Lemma body_Throw (st st' : State) (e : Error) :
  body st = Throw e st' ->
  ThrowCause st e st'
  /\ rejectedSetVariable st' = rejectedSetVariable st
  /\ rebootSetVariable st' = rebootSetVariable st
  /\ inspected st' = inspected st.
Proof.
  intros H. body_cases H; repeat split; auto;
    first [ now apply Run.SendRejected
          | now apply Run.CacheRejected
          | eapply Run.ResponseUndecodable; now eauto
          | eapply Run.ResponseFalsy; now eauto ].
Qed.

Lemma body_Continue (st st' : State) :
  body st = Continue st' ->
  Folded st st'
  /\ present (minted st)
  /\ setVariableData st' = slice (setVariableData st) limit None
  /\ retrieved st' = retrieved st ++ [uuidv4 (minted st)]
  /\ exists c, sendSetVariableRequest (uuidv4 (minted st))
                                      (setVariableData st) limit = Fulfilled c.
Proof.
  intros H. body_cases H.
  - match goal with
    | E : _ && _ = true |- _ => apply andb_prop in E; destruct E as [E1 E2]
    end.
    repeat split; eauto.
    + now apply Run.Skipped.
    + unfold present.
      match goal with
      | E : truthy ?o = true |- _ =>
          destruct o as [text|]; [eauto | discriminate]
      end.
  - match goal with
    | E : JSON_parse _ = Some _ |- _ => rename E into Hparse
    end.
    repeat split; eauto.
    + rewrite forEachResult_or. eapply Run.Inspected; eauto.
    + unfold present. eauto.
Qed.

Lemma existsb_seq_S (f : nat -> bool) (m : nat) :
  existsb f (seq 0 (S m)) = existsb f (seq 0 m) || f m.
Proof. rewrite seq_S, existsb_app. simpl. now rewrite orb_false_r. Qed.

Lemma body_Continue_Inv (st st' : State) :
  Inv st -> setVariableData st <> [] -> body st = Continue st' ->
  Inv st' /\ minted st' = S (minted st).
Proof.
  intros [Is Id Ir Ie Ip Irej Ireb Iins] Hne H.
  pose proof (body_counts st) as Hc. rewrite H in Hc. simpl in Hc.
  destruct Hc as [Hm Hs].
  destruct (body_Continue st st' H) as (Hf & Hp & Hd & Hr & _).
  split; [|assumption].
  constructor; rewrite Hm.
  - rewrite Hs, seq_S, map_app, Is. simpl.
    unfold Run.dispatchAt at 3. now rewrite Id.
  - rewrite Hd, Id. reflexivity.
  - rewrite Hr, seq_S, map_app, Ir. reflexivity.
  - intros i Hi. destruct (Nat.eq_dec i (minted st)) as [->|Hneq].
    + now rewrite <- Id.
    + apply Ie. lia.
  - intros i Hi. destruct (Nat.eq_dec i (minted st)) as [->|Hneq].
    + assumption.
    + apply Ip. lia.
  - rewrite existsb_seq_S, <- Irej.
    destruct Hf as [R1 R2 R1' R2' _ | text response _ Hcache Hparse R1' _ _].
    + now rewrite R1', R1.
    + rewrite R1'. unfold Run.responseOf. now rewrite Hcache, Hparse.
  - rewrite existsb_seq_S, <- Ireb.
    destruct Hf as [R1 R2 R1' R2' _ | text response _ Hcache Hparse _ R2' _].
    + now rewrite R2', R2.
    + rewrite R2'. unfold Run.responseOf. now rewrite Hcache, Hparse.
  - rewrite seq_S, filter_app, map_app, <- Iins. simpl.
    unfold Run.bothSeenBefore. rewrite <- Irej, <- Ireb.
    destruct Hf as [R1 R2 _ _ Hi | text response Hb _ _ _ _ Hi].
    + rewrite R1, R2, Hi. simpl. now rewrite app_nil_r.
    + now rewrite Hb, Hi.
Qed.

(** What a bounded run from a state satisfying the invariant ends in. *)
Lemma loop_Inv (fuel : nat) :
  forall st, Inv st ->
  match loop fuel st with
  | Running s =>
      Inv s /\ minted s = (minted st + fuel)%nat /\ setVariableData s <> []
  | Returned r s =>
      Inv s /\ setVariableData s = []
      /\ r = (rejectedSetVariable s, rebootSetVariable s)
      /\ (minted st <= minted s <= minted st + fuel)%nat
  | Thrown e s =>
      exists s0, Inv s0 /\ setVariableData s0 <> [] /\ body s0 = Throw e s
                 /\ (minted st <= minted s0 < minted st + fuel)%nat
  end.
Proof.
  induction fuel as [|fuel IH]; intros st I; simpl;
    destruct (setVariableData st) eqn:E;
    try (conjs; auto; solve [lia | congruence]).
  assert (setVariableData st <> []) as Hne by congruence.
  destruct (body st) as [st'|e st'] eqn:Hb.
  - destruct (body_Continue_Inv st st' I Hne Hb) as [I' Hm].
    specialize (IH st' I').
    destruct (loop fuel st') as [r fin|e fin|fin].
    + destruct IH as (? & ? & ? & ?). conjs; auto; lia.
    + destruct IH as (s0 & ? & ? & ? & ?).
      exists s0. conjs; auto; lia.
    + destruct IH as (? & ? & ?). conjs; auto; lia.
  - exists st. conjs; auto; lia.
Qed.

(** *** Shape of the remaining list *)

Lemma remaining_S (k : nat) :
  remaining (S k) = slice (remaining k) limit None.
Proof. reflexivity. Qed.

Lemma remaining_positive (L : nat) :
  ToIntegerOrInfinity limit = Int (Z.of_nat L) -> (0 < L)%nat ->
  forall k, remaining k = skipn (k * L) items.
Proof.
  intros HL Hpos. induction k as [|k IH]; [reflexivity|].
  rewrite remaining_S, IH.
  rewrite (slice_from_positive _ _ (Z.of_nat L)) by (auto; lia).
  rewrite Nat2Z.id, skipn_add. f_equal. lia.
Qed.

Lemma remaining_zero :
  ToIntegerOrInfinity limit = Int 0 -> forall k, remaining k = items.
Proof.
  intros H0. induction k as [|k IH]; [reflexivity|].
  rewrite remaining_S, IH. now apply slice_from_zero.
Qed.

(** *** Progress *)

Lemma body_answered (st : State) :
  Inv st -> answered (minted st) -> exists st', body st = Continue st'.
Proof.
  intros [_ Id _ _ _ _ _ _] [[c Hs] (text & response & Hc & Ht & Hp)].
  unfold loopBody. rewrite Id, Hs, Hc. simpl. rewrite Ht.
  destruct (rejectedSetVariable st && rebootSetVariable st);
    [|rewrite Hp]; eexists; reflexivity.
Qed.

Lemma loop_returns (L : nat) :
  ToIntegerOrInfinity limit = Int (Z.of_nat L) -> (0 < L)%nat ->
  (forall k, remaining k <> [] -> answered k) ->
  forall fuel st,
    Inv st -> (List.length (setVariableData st) <= fuel * L)%nat ->
    exists r final, loop fuel st = Returned r final.
Proof.
  intros HL Hpos Hans.
  induction fuel as [|fuel IH]; intros st I Hlen; simpl;
    destruct (setVariableData st) as [|x rest] eqn:E;
    try (eexists; eexists; reflexivity).
  - simpl in Hlen. lia.
  - assert (setVariableData st <> []) as Hne by congruence.
    assert (answered (minted st)) as Ha.
    { apply Hans. destruct I as [_ Id _ _ _ _ _ _]. now rewrite <- Id. }
    destruct (body_answered st I Ha) as [st' Hb]. rewrite Hb.
    destruct (body_Continue_Inv st st' I Hne Hb) as [I' _].
    apply IH; [assumption|].
    destruct (body_Continue st st' Hb) as (_ & _ & Hd & _).
    rewrite Hd, (slice_from_positive _ _ (Z.of_nat L)) by (auto; lia).
    rewrite length_skipn, Nat2Z.id, E. simpl List.length in *. lia.
Qed.

(** *** Runs with more fuel, and the flags along a run *)

Lemma loop_add (a b : nat) (st : State) :
  loop (a + b) st =
  match loop a st with
  | Running s => loop b s
  | c => c
  end.
Proof.
  revert st. induction a as [|a IH]; intros st; simpl.
  - destruct (setVariableData st) eqn:E; [|reflexivity].
    destruct b; simpl; now rewrite E.
  - destruct (setVariableData st) eqn:E; [reflexivity|].
    destruct (body st) as [st'|e st']; [apply IH | reflexivity].
Qed.

Lemma body_flags_mono (st : State) :
  let st' := match body st with Continue s | Throw _ s => s end in
  (rejectedSetVariable st = true -> rejectedSetVariable st' = true)
  /\ (rebootSetVariable st = true -> rebootSetVariable st' = true).
Proof.
  destruct (body st) as [st'|e st'] eqn:Hb; simpl.
  - destruct (body_Continue st st' Hb) as (Hf & _).
    destruct Hf as [_ _ R1' R2' _ | text response _ _ _ R1' R2' _].
    + auto.
    + rewrite R1', R2'. split; intros ->; reflexivity.
  - destruct (body_Throw st st' e Hb) as (_ & R1 & R2 & _).
    rewrite R1, R2. auto.
Qed.

Lemma loop_flags_mono (fuel : nat) :
  forall st,
    (rejectedSetVariable st = true ->
     rejectedSetVariable (stateOf (loop fuel st)) = true)
    /\ (rebootSetVariable st = true ->
        rebootSetVariable (stateOf (loop fuel st)) = true).
Proof.
  induction fuel as [|fuel IH]; intros st; simpl;
    destruct (setVariableData st) eqn:E; simpl; auto.
  pose proof (body_flags_mono st) as Hm.
  destruct (body st) as [st'|e st']; simpl in *; [|assumption].
  destruct (IH st') as [H1 H2]. destruct Hm as [M1 M2]. auto.
Qed.

Lemma Inv_sent_length (st : State) : Inv st -> List.length (sent st) = minted st.
Proof. intros [Is _ _ _ _ _ _ _]. now rewrite Is, length_map, length_seq. Qed.

Lemma Inv_retrieved_length (st : State) :
  Inv st -> List.length (retrieved st) = minted st.
Proof. intros [_ _ Ir _ _ _ _ _]. now rewrite Ir, length_map, length_seq. Qed.

(** *** A positive limit: the number of iterations *)

Lemma returned_count (L : nat) (final : State) :
  ToIntegerOrInfinity limit = Int (Z.of_nat L) -> (0 < L)%nat ->
  Inv final -> setVariableData final = [] ->
  minted final = ceilDiv (List.length items) L.
Proof.
  intros HL Hpos [_ Id _ Ie _ _ _ _] Hnil.
  apply ceilDiv_unique; [assumption| |].
  - rewrite Id, (remaining_positive L HL Hpos) in Hnil.
    now apply skipn_nil_iff.
  - intros i Hi. specialize (Ie i Hi).
    rewrite (remaining_positive L HL Hpos) in Ie.
    destruct (Nat.le_gt_cases (List.length items) (i * L)) as [Hle|]; [|assumption].
    exfalso. apply Ie. now apply skipn_nil_iff.
Qed.

Lemma run_positive (L : nat) :
  ToIntegerOrInfinity limit = Int (Z.of_nat L) -> (0 < L)%nat ->
  (forall k, (k < ceilDiv (List.length items) L)%nat -> answered k) ->
  forall fuel, (ceilDiv (List.length items) L <= fuel)%nat ->
  exists final,
    loop fuel (initialState items)
    = Returned (rejectedSetVariable final, rebootSetVariable final) final
    /\ Inv final
    /\ minted final = ceilDiv (List.length items) L.
Proof.
  intros HL Hpos Hans fuel Hfuel.
  assert (forall k, remaining k <> [] -> answered k) as Hans'.
  { intros k Hk. apply Hans.
    destruct (Nat.le_gt_cases (ceilDiv (List.length items) L) k) as [Hle|]; [|assumption].
    exfalso. apply Hk. rewrite (remaining_positive L HL Hpos).
    apply skipn_nil_iff. now apply ceilDiv_le. }
  destruct (loop_returns L HL Hpos Hans' fuel (initialState items) Inv_initial)
    as (r & final & Hrun).
  { simpl. now apply ceilDiv_le. }
  pose proof (loop_Inv fuel (initialState items) Inv_initial) as HI.
  rewrite Hrun in HI. destruct HI as (I & Hnil & -> & _).
  exists final. conjs; auto. now apply (returned_count L).
Qed.

Lemma chunks_positive (L : nat) (st : State) :
  ToIntegerOrInfinity limit = Int (Z.of_nat L) -> (0 < L)%nat ->
  Inv st ->
  map chunkOf (sent st)
  = map (fun i => firstn L (skipn (i * L) items)) (seq 0 (minted st)).
Proof.
  intros HL Hpos [Is _ _ _ _ _ _ _].
  rewrite Is, map_map. apply map_ext. intros i.
  unfold chunkOf. simpl.
  rewrite (slice_upto_positive _ _ (Z.of_nat L)) by (auto; lia).
  now rewrite Nat2Z.id, (remaining_positive L HL Hpos).
Qed.

(** *** A missing response *)

Lemma Inv_minted_le (st : State) (k : nat) (r : option string) :
  cacheCallback (uuidv4 k) = Fulfilled r -> truthy r = false ->
  Inv st -> (minted st <= k)%nat.
Proof.
  intros Hc Hr [_ _ _ _ Ip _ _ _].
  destruct (Nat.le_gt_cases (minted st) k) as [|Hgt]; [assumption|].
  destruct (Ip k Hgt) as (text & Hc' & Ht).
  rewrite Hc in Hc'. injection Hc' as ->. simpl in Hr. congruence.
Qed.

Lemma loop_falsy (k : nat) (r : option string) :
  cacheCallback (uuidv4 k) = Fulfilled r -> truthy r = false ->
  forall fuel,
    let c := loop fuel (initialState items) in
    (List.length (sent (stateOf c)) <= k + 1)%nat
    /\ ((k < List.length (retrieved (stateOf c)))%nat ->
        exists final, c = Thrown SetVariablesResponseNotFound final
                      /\ List.length (sent final) = (k + 1)%nat
                      /\ List.length (retrieved final) = (k + 1)%nat)
    /\ ((k < fuel)%nat -> forall st, c <> Running st).
Proof.
  intros Hc Hr fuel c.
  pose proof (loop_Inv fuel (initialState items) Inv_initial) as HI.
  fold c in HI. simpl in HI.
  destruct c as [res fin|e fin|fin]; simpl.
  - destruct HI as (I & _).
    pose proof (Inv_minted_le fin k r Hc Hr I).
    rewrite (Inv_sent_length fin I), (Inv_retrieved_length fin I).
    conjs; [lia | lia | discriminate].
  - destruct HI as (s0 & I0 & Hne & Hb & Hm).
    pose proof (Inv_minted_le s0 k r Hc Hr I0) as Hle.
    pose proof (body_counts s0) as Hcnt. rewrite Hb in Hcnt. simpl in Hcnt.
    destruct Hcnt as [_ Hs].
    assert (List.length (sent fin) = S (minted s0)) as Hlen.
    { rewrite Hs, length_app, (Inv_sent_length s0 I0). simpl. lia. }
    conjs; [lia | | discriminate].
    intros Hk.
    destruct (body_Throw s0 fin e Hb) as (Hcause & _).
    pose proof (Inv_retrieved_length s0 I0) as Hr0.
    destruct Hcause as [_ Hret | Hc' Hret | r' Hc' Hr' -> Hret
                       | text Hc' Ht _ _ _ Hret];
      rewrite Hret in Hk; try rewrite length_app in Hk; simpl in Hk;
      rewrite Hr0 in Hk; try lia;
      assert (minted s0 = k) as Hk0 by lia; rewrite Hk0 in *.
    + rewrite Hc in Hc'. discriminate.
    + exists fin. conjs; [reflexivity | lia |].
      rewrite Hret, length_app, Hr0. simpl. lia.
    + rewrite Hc in Hc'. injection Hc' as ->. simpl in Hr. congruence.
  - destruct HI as (I & Hm & _).
    pose proof (Inv_minted_le fin k r Hc Hr I).
    rewrite (Inv_sent_length fin I), (Inv_retrieved_length fin I).
    conjs; [lia | lia | intros; lia].
Qed.

(** *** A limit that converts to 0 *)

Lemma loop_not_Thrown (fuel : nat) :
  (forall k, (k < fuel)%nat -> answered k) ->
  forall e final, loop fuel (initialState items) <> Thrown e final.
Proof.
  intros Hans e final Hrun.
  pose proof (loop_Inv fuel (initialState items) Inv_initial) as HI.
  rewrite Hrun in HI. simpl in HI.
  destruct HI as (s0 & I0 & _ & Hb & Hm).
  assert (minted s0 < fuel)%nat as Hlt by lia.
  destruct (body_answered s0 I0 (Hans _ Hlt)) as [st' Hb'].
  congruence.
Qed.

Lemma loop_zero :
  ToIntegerOrInfinity limit = Int 0 -> items <> [] ->
  forall fuel,
    let c := loop fuel (initialState items) in
    (forall r final, c <> Returned r final)
    /\ (forall d, In d (sent (stateOf c)) ->
                  data d = items /\ itemsPerMessage d = limit)
    /\ ((forall k, (k < fuel)%nat -> answered k) ->
        exists st, c = Running st
                   /\ List.length (sent st) = fuel
                   /\ setVariableData st = items).
Proof.
  intros H0 Hne fuel c.
  pose proof (loop_Inv fuel (initialState items) Inv_initial) as HI.
  assert (forall s d, Inv s -> In d (sent s) ->
                      data d = items /\ itemsPerMessage d = limit) as Hsent.
  { intros s d [Is _ _ _ _ _ _ _] Hd. rewrite Is in Hd.
    apply in_map_iff in Hd. destruct Hd as (i & <- & _). simpl.
    split; [now apply remaining_zero | reflexivity]. }
  assert (forall r final, c <> Returned r final) as HnoRet.
  { intros r final Hrun. fold c in HI. rewrite Hrun in HI.
    destruct HI as ([_ Id _ _ _ _ _ _] & Hnil & _).
    rewrite Id, (remaining_zero H0) in Hnil. contradiction. }
  conjs; [assumption | |].
  - fold c in HI. destruct c as [res fin|e fin|fin]; simpl in *.
    + destruct HI as (I & _). intros d. now apply Hsent.
    + destruct HI as (s0 & I0 & _ & Hb & _).
      pose proof (body_counts s0) as Hcnt. rewrite Hb in Hcnt. simpl in Hcnt.
      destruct Hcnt as [_ Hs]. intros d Hd. rewrite Hs in Hd.
      apply in_app_or in Hd. destruct Hd as [Hd|[<-|[]]].
      * now apply (Hsent s0).
      * simpl. destruct I0 as [_ Id _ _ _ _ _ _].
        rewrite Id. split; [now apply remaining_zero | reflexivity].
    + destruct HI as (I & _). intros d. now apply Hsent.
  - intros Hans. pose proof (loop_not_Thrown fuel Hans) as HnoThrow.
    fold c in HI, HnoThrow. destruct c as [res fin|e fin|fin].
    + exfalso. now apply (HnoRet res fin).
    + exfalso. now apply (HnoThrow e fin).
    + destruct HI as (I & Hm & _). exists fin. conjs; [reflexivity | |].
      * rewrite (Inv_sent_length fin I). simpl in Hm. lia.
      * destruct I as [_ Id _ _ _ _ _ _]. rewrite Id. now apply remaining_zero.
Qed.

(** *** Every dispatch carries the limit of the run *)

Lemma loop_sent_limit (fuel : nat) (d : Dispatch) :
  In d (sent (stateOf (loop fuel (initialState items)))) ->
  itemsPerMessage d = limit.
Proof.
  pose proof (loop_Inv fuel (initialState items) Inv_initial) as HI.
  assert (forall s, Inv s -> In d (sent s) -> itemsPerMessage d = limit) as Hsent.
  { intros s [Is _ _ _ _ _ _ _] Hd. rewrite Is in Hd.
    apply in_map_iff in Hd. now destruct Hd as (i & <- & _). }
  destruct (loop fuel (initialState items)) as [res fin|e fin|fin]; simpl.
  - destruct HI as (I & _). now apply Hsent.
  - destruct HI as (s0 & I0 & _ & Hb & _).
    pose proof (body_counts s0) as Hcnt. rewrite Hb in Hcnt. simpl in Hcnt.
    destruct Hcnt as [_ Hs]. rewrite Hs. intros Hd.
    apply in_app_or in Hd. destruct Hd as [Hd|[<-|[]]]; [|reflexivity].
    now apply (Hsent s0).
  - destruct HI as (I & _). now apply Hsent.
Qed.

(** *** No discovered limit: the list length is the limit *)

Lemma remaining_whole :
  limit = ofNat (List.length items) -> forall k, remaining (S k) = [].
Proof.
  intros Hl. induction k as [|k IH]; rewrite remaining_S.
  - rewrite Hl. apply slice_from_length.
  - rewrite IH. unfold slice. now rewrite skipn_nil, firstn_nil.
Qed.

Lemma loop_whole :
  limit = ofNat (List.length items) -> items <> [] ->
  forall fuel, (0 < fuel)%nat ->
    let c := loop fuel (initialState items) in
    (forall st, c <> Running st)
    /\ sent (stateOf c)
       = [{| correlationId := uuidv4 O; data := items; itemsPerMessage := limit |}].
Proof.
  intros Hl Hne fuel Hfuel c.
  pose proof (loop_Inv fuel (initialState items) Inv_initial) as HI.
  pose proof (remaining_whole Hl) as Hnil.
  assert (forall s, Inv s -> setVariableData s <> [] -> minted s = O) as Hfirst.
  { intros s [_ Id _ _ _ _ _ _] Hd. destruct (minted s) as [|m]; [reflexivity|].
    rewrite Id, Hnil in Hd. contradiction. }
  fold c in HI. destruct c as [res fin|e fin|fin]; simpl in *.
  - destruct HI as (I & Hd & _ & _). split; [discriminate|].
    destruct I as [Is Id _ Ie _ _ _ _].
    assert (minted fin = 1%nat) as Hm.
    { destruct (minted fin) as [|[|m]]; [|reflexivity|].
      - simpl in Id. congruence.
      - exfalso. apply (Ie 1%nat); [lia | apply Hnil]. }
    rewrite Is, Hm. reflexivity.
  - destruct HI as (s0 & I0 & Hd & Hb & _). split; [discriminate|].
    pose proof (body_counts s0) as Hcnt. rewrite Hb in Hcnt. simpl in Hcnt.
    destruct Hcnt as [_ Hs]. rewrite Hs.
    pose proof (Hfirst s0 I0 Hd) as Hm.
    destruct I0 as [Is Id _ _ _ _ _ _]. rewrite Is, Id, Hm. reflexivity.
  - destruct HI as (I & Hm & Hd). pose proof (Hfirst fin I Hd). lia.
Qed.

End ExecuteSetVariablesAfterBoot.

(** ** [executeSetVariablesAfterBoot] as a run of its loop *)

Section Execute.

Import DeviceModelService.

Variable repo : IDeviceModelRepository.
Variable uuidv4 : nat -> string.
Variable JSON_parse : string -> option SetVariablesResponse.
Variable station : string.
Variable cacheCallback : string -> Promise (option string).
Variable sendSetVariableRequest :
  string -> list SetVariableDataType -> number -> Promise IMessageConfirmation.

Abbreviation execute :=
  (executeSetVariablesAfterBoot repo uuidv4 JSON_parse station cacheCallback
                                sendSetVariableRequest).

Lemma execute_discovered (limit : number) (fuel : nat) :
  getItemsPerMessageSetVariablesByStationId repo station = Fulfilled (Some limit) ->
  execute fuel =
  whileLoop uuidv4 JSON_parse cacheCallback sendSetVariableRequest limit fuel
            (initialState (readAllSetVariableByStationId repo station)).
Proof. intros H. unfold executeSetVariablesAfterBoot. now rewrite H. Qed.

Lemma execute_undiscovered (fuel : nat) :
  getItemsPerMessageSetVariablesByStationId repo station = Fulfilled None ->
  execute fuel =
  whileLoop uuidv4 JSON_parse cacheCallback sendSetVariableRequest
            (ofNat (List.length (readAllSetVariableByStationId repo station)))
            fuel (initialState (readAllSetVariableByStationId repo station)).
Proof. intros H. unfold executeSetVariablesAfterBoot. now rewrite H. Qed.

(** The lookup never rejects, so every run is a run of the loop under some
    limit. *)
Lemma execute_loop :
  exists limit, forall fuel,
    execute fuel =
    whileLoop uuidv4 JSON_parse cacheCallback sendSetVariableRequest limit fuel
              (initialState (readAllSetVariableByStationId repo station)).
Proof.
  destruct (getItemsPerMessageSetVariablesByStationId repo station)
    as [[limit|]|e] eqn:H.
  - exists limit. intros fuel. now apply execute_discovered.
  - eexists. intros fuel. now apply execute_undiscovered.
  - unfold getItemsPerMessageSetVariablesByStationId in H.
    destruct (readAllByQuerystring repo _); discriminate.
Qed.

End Execute.

(** ** The loops of the route-layer endpoints *)

Section ApiLoops.

Import ProvisioningModuleApi.

Variable sendCall :
  nat -> string -> string -> CallAction -> Request -> Promise IMessageConfirmation.
Variable station party : string.
Variable limit : number.

Ltac api_body H :=
  repeat match type of H with
         | context [match ?x with _ => _ end] => destruct x eqn:?
         end;
  inversion H; subst; clear H; simpl in *.

Lemma setVariablesBody_calls (items : list SetVariableDataType) (st : State) :
  let st' := match setVariablesBody sendCall station party items limit st with
             | Continue s | Throw _ s => s
             end in
  calls st' =
  calls st ++ [{| identifier := station; partyId := party; action := SetVariables;
                  request := SetVariablesRequest
                               (slice items (ofZ 0) (Some limit)) |}].
Proof.
  destruct (setVariablesBody sendCall station party items limit st)
    as [s|e s] eqn:H; unfold setVariablesBody in H; api_body H; reflexivity.
Qed.

Lemma getVariablesBody_calls (items : list GetVariableDataType) (st : State) :
  let st' := match getVariablesBody sendCall station party items limit st with
             | Continue s | Throw _ s => s
             end in
  calls st' =
  calls st ++ [{| identifier := station; partyId := party; action := GetVariables;
                  request := GetVariablesRequest
                               (slice items (ofZ 0) (Some limit)) |}].
Proof.
  destruct (getVariablesBody sendCall station party items limit st)
    as [s|e s] eqn:H; unfold getVariablesBody in H; api_body H; reflexivity.
Qed.

(** A non-empty list is never emptied, so the loop has no way to its
    [return]. *)
Lemma setVariablesLoop_never_returns (items : list SetVariableDataType) :
  items <> [] ->
  forall fuel st confirmation final,
    setVariablesLoop sendCall station party items limit fuel st
    <> Returned confirmation final.
Proof.
  intros Hne. induction fuel as [|fuel IH]; intros st confirmation final;
    destruct items as [|x rest]; try contradiction; simpl.
  - discriminate.
  - destruct (setVariablesBody _ _ _ _ _ _); [apply IH | discriminate].
Qed.

Lemma getVariablesLoop_never_returns (items : list GetVariableDataType) :
  items <> [] ->
  forall fuel st confirmation final,
    getVariablesLoop sendCall station party items limit fuel st
    <> Returned confirmation final.
Proof.
  intros Hne. induction fuel as [|fuel IH]; intros st confirmation final;
    destruct items as [|x rest]; try contradiction; simpl.
  - discriminate.
  - destruct (getVariablesBody _ _ _ _ _ _); [apply IH | discriminate].
Qed.

(** Every call of the loop sends the same leading part of the list. *)
Lemma setVariablesLoop_calls (items : list SetVariableDataType) (fuel : nat) :
  forall st,
    Forall (fun call => request call
                        = SetVariablesRequest (slice items (ofZ 0) (Some limit)))
           (calls st) ->
    Forall (fun call => request call
                        = SetVariablesRequest (slice items (ofZ 0) (Some limit)))
           (calls (stateOf (setVariablesLoop sendCall station party items
                                             limit fuel st))).
Proof.
  induction fuel as [|fuel IH]; intros st Hall;
    destruct items as [|x rest] eqn:E; simpl; try assumption.
  pose proof (setVariablesBody_calls (x :: rest) st) as Hc.
  destruct (setVariablesBody _ _ _ _ _ _) as [st'|e st']; simpl in Hc |- *.
  - apply IH. rewrite Hc. apply Forall_app. split; [assumption|].
    constructor; [reflexivity | constructor].
  - rewrite Hc. apply Forall_app. split; [assumption|].
    constructor; [reflexivity | constructor].
Qed.

Lemma getVariablesLoop_calls (items : list GetVariableDataType) (fuel : nat) :
  forall st,
    Forall (fun call => request call
                        = GetVariablesRequest (slice items (ofZ 0) (Some limit)))
           (calls st) ->
    Forall (fun call => request call
                        = GetVariablesRequest (slice items (ofZ 0) (Some limit)))
           (calls (stateOf (getVariablesLoop sendCall station party items
                                             limit fuel st))).
Proof.
  induction fuel as [|fuel IH]; intros st Hall;
    destruct items as [|x rest] eqn:E; simpl; try assumption.
  pose proof (getVariablesBody_calls (x :: rest) st) as Hc.
  destruct (getVariablesBody _ _ _ _ _ _) as [st'|e st']; simpl in Hc |- *.
  - apply IH. rewrite Hc. apply Forall_app. split; [assumption|].
    constructor; [reflexivity | constructor].
  - rewrite Hc. apply Forall_app. split; [assumption|].
    constructor; [reflexivity | constructor].
Qed.

(** While the transport accepts the calls, each iteration adds one. *)
Lemma setVariablesLoop_running (items : list SetVariableDataType) :
  items <> [] ->
  (forall made req, exists confirmation,
      sendCall made station party SetVariables req = Fulfilled confirmation) ->
  forall fuel st,
    exists st', setVariablesLoop sendCall station party items limit fuel st
                = Running st'
                /\ List.length (calls st') = (List.length (calls st) + fuel)%nat.
Proof.
  intros Hne Hsend. induction fuel as [|fuel IH]; intros st;
    destruct items as [|x rest] eqn:E; try contradiction; simpl.
  - exists st. split; [reflexivity | lia].
  - pose proof (setVariablesBody_calls (x :: rest) st) as Hc.
    destruct (setVariablesBody _ _ _ _ _ _) as [st'|e st'] eqn:Hb;
      simpl in Hc.
    + destruct (IH st') as (st'' & Hrun & Hlen). exists st''.
      split; [exact Hrun|]. rewrite Hlen, Hc, length_app. simpl. lia.
    + exfalso. unfold setVariablesBody in Hb.
      destruct (Hsend (List.length (calls st))
                      (SetVariablesRequest
                         (slice (x :: rest) (ofZ 0) (Some limit))))
        as [confirmation Hs].
      rewrite Hs in Hb.
      destruct (negb (truthyPayload (payload confirmation))); discriminate.
Qed.

Lemma getVariablesLoop_running (items : list GetVariableDataType) :
  items <> [] ->
  (forall made req, exists confirmation,
      sendCall made station party GetVariables req = Fulfilled confirmation) ->
  forall fuel st,
    exists st', getVariablesLoop sendCall station party items limit fuel st
                = Running st'
                /\ List.length (calls st') = (List.length (calls st) + fuel)%nat.
Proof.
  intros Hne Hsend. induction fuel as [|fuel IH]; intros st;
    destruct items as [|x rest] eqn:E; try contradiction; simpl.
  - exists st. split; [reflexivity | lia].
  - pose proof (getVariablesBody_calls (x :: rest) st) as Hc.
    destruct (getVariablesBody _ _ _ _ _ _) as [st'|e st'] eqn:Hb;
      simpl in Hc.
    + destruct (IH st') as (st'' & Hrun & Hlen). exists st''.
      split; [exact Hrun|]. rewrite Hlen, Hc, length_app. simpl. lia.
    + exfalso. unfold getVariablesBody in Hb.
      destruct (Hsend (List.length (calls st))
                      (GetVariablesRequest
                         (slice (x :: rest) (ofZ 0) (Some limit))))
        as [confirmation Hs].
      rewrite Hs in Hb.
      destruct (negb (truthyPayload (payload confirmation))); discriminate.
Qed.

End ApiLoops.

(** ** The claims *)

(** C1.  With a discovered limit whose integer value is [L > 0] (so in
    particular the integer [L] itself), and every chunk sent and answered, a
    run over [n] items returns after exactly ceil(n / L) dispatches; the
    i-th dispatch carries the next min(L, remaining) items in the original
    order, every chunk but the last has [L] items, and the chunks
    concatenated are the original list. *)
Theorem C1_chunks_of_positive_limit :
  forall (repo : IDeviceModelRepository) (uuidv4 : nat -> string)
         (JSON_parse : string -> option SetVariablesResponse)
         (station : string)
         (cacheCallback : string -> Promise (option string))
         (sendSetVariableRequest :
            string -> list SetVariableDataType -> number ->
            Promise IMessageConfirmation)
         (limit : number) (L : nat),
    let items := readAllSetVariableByStationId repo station in
    let count := ceilDiv (List.length items) L in
    items <> [] ->
    DeviceModelService.getItemsPerMessageSetVariablesByStationId repo station
    = Fulfilled (Some limit) ->
    ToIntegerOrInfinity limit = Int (Z.of_nat L) ->
    (0 < L)%nat ->
    (forall k, (k < count)%nat ->
               Run.answered uuidv4 JSON_parse cacheCallback
                            sendSetVariableRequest limit items k) ->
    forall fuel, (count <= fuel)%nat ->
    exists result final,
      DeviceModelService.executeSetVariablesAfterBoot
        repo uuidv4 JSON_parse station cacheCallback sendSetVariableRequest fuel
      = Returned result final
      /\ let chunks := map DeviceModelService.chunkOf
                           (DeviceModelService.sent final) in
         List.length chunks = count
         /\ (forall i, (i < count)%nat ->
               nth_error chunks i = Some (firstn L (skipn (i * L) items))
               /\ List.length (firstn L (skipn (i * L) items))
                  = Nat.min L (List.length items - i * L))
         /\ (forall i, (S i < count)%nat -> List.length (nth i chunks []) = L)
         /\ List.concat chunks = items.
Proof.
  intros repo uuidv4 JSON_parse station cacheCallback sendSetVariableRequest
         limit L items count _ Hlimit HL Hpos Hans fuel Hfuel.
  destruct (run_positive uuidv4 JSON_parse cacheCallback sendSetVariableRequest
                         limit items L HL Hpos Hans fuel Hfuel)
    as (final & Hrun & I & Hcount).
  exists (DeviceModelService.rejectedSetVariable final,
          DeviceModelService.rebootSetVariable final), final.
  split.
  - rewrite (execute_discovered repo uuidv4 JSON_parse station cacheCallback
                                sendSetVariableRequest limit fuel Hlimit).
    exact Hrun.
  - cbv zeta.
    rewrite (chunks_positive uuidv4 JSON_parse cacheCallback limit items L final
                             HL Hpos I).
    rewrite Hcount. fold count.
    assert (forall i, List.length (firstn L (skipn (i * L) items))
                      = Nat.min L (List.length items - i * L)) as Hlen.
    { intros i. now rewrite length_firstn, length_skipn. }
    split; [now rewrite length_map, length_seq|].
    split; [|split].
    + intros i Hi. split; [|apply Hlen].
      now apply (nth_error_map_seq (fun i => firstn L (skipn (i * L) items))).
    + intros i Hi.
      assert (i < count)%nat as Hi' by lia.
      pose proof (nth_error_map_seq
                    (fun i => firstn L (skipn (i * L) items)) count i Hi') as Hn.
      apply (nth_error_nth _ _ []) in Hn. rewrite Hn, Hlen.
      assert (~ (List.length items <= S i * L))%nat as Hnot.
      { intros Hle. apply (ceilDiv_le _ L (S i) Hpos) in Hle. fold count in Hle. lia. }
      lia.
    + rewrite concat_pieces. apply firstn_all2.
      now apply (ceilDiv_le _ L count Hpos).
Qed.

Lemma C1_chunks_of_positive_limit_witness :
  exists result final,
    DeviceModelService.executeSetVariablesAfterBoot
      (Sample.repository [{| value := "2" |}] (Sample.itemList 5))
      Sample.uuidv4 Sample.JSON_parse "station-1"
      (Sample.cacheAlways "A") Sample.send 3
    = Returned result final
    /\ let chunks := map DeviceModelService.chunkOf
                         (DeviceModelService.sent final) in
       List.length chunks = 3%nat
       /\ (forall i, (i < 3)%nat ->
             nth_error chunks i
             = Some (firstn 2 (skipn (i * 2) (Sample.itemList 5)))
             /\ List.length (firstn 2 (skipn (i * 2) (Sample.itemList 5)))
                = Nat.min 2 (5 - i * 2))
       /\ (forall i, (S i < 3)%nat -> List.length (nth i chunks []) = 2%nat)
       /\ List.concat chunks = Sample.itemList 5.
Proof.
  apply (C1_chunks_of_positive_limit
           (Sample.repository [{| value := "2" |}] (Sample.itemList 5))
           Sample.uuidv4 Sample.JSON_parse "station-1"
           (Sample.cacheAlways "A") Sample.send (ofZ 2) 2).
  - discriminate.
  - reflexivity.
  - reflexivity.
  - lia.
  - intros k _. split.
    + eexists. reflexivity.
    + exists "A"%string. eexists. repeat split; reflexivity.
  - vm_compute. lia.
Defined.

(** C2.  A run that returns has dispatched every planned chunk and
    retrieved the response of each, all of them present: the list is used
    up, the dispatches are the successive remaining lists of the plan under
    the limit in force (the discovered one, or the list length when none is
    discovered), and under a limit of integer value [L > 0] they are
    ceil(n / L) chunks that together make up the item list.  The pair it
    returns is the disjunction, over all those chunks and all their
    item-level results, of "status is Rejected" and of "status is
    RebootRequired".  In particular 25 items under a limit of 10 go out as
    chunks of 10, 10 and 5 items, and a Rejected in the second response with
    a RebootRequired in the third give (true, true). *)
Theorem C2_returned_flags_are_disjunctions :
  forall (repo : IDeviceModelRepository) (uuidv4 : nat -> string)
         (JSON_parse : string -> option SetVariablesResponse)
         (station : string)
         (cacheCallback : string -> Promise (option string))
         (sendSetVariableRequest :
            string -> list SetVariableDataType -> number ->
            Promise IMessageConfirmation)
         (fuel : nat) (anyRejected anyRebootRequired : bool)
         (final : DeviceModelService.State),
    let items := readAllSetVariableByStationId repo station in
    let lookup :=
      DeviceModelService.getItemsPerMessageSetVariablesByStationId
        repo station in
    let results := Run.responseOf uuidv4 JSON_parse cacheCallback in
    let count := List.length (DeviceModelService.sent final) in
    DeviceModelService.executeSetVariablesAfterBoot
      repo uuidv4 JSON_parse station cacheCallback sendSetVariableRequest fuel
    = Returned (anyRejected, anyRebootRequired) final ->
    DeviceModelService.retrieved final
    = map DeviceModelService.correlationId (DeviceModelService.sent final)
    /\ (forall k, (k < count)%nat -> Run.present uuidv4 cacheCallback k)
    /\ anyRejected
       = existsb (fun k => existsb isRejected (results k)) (seq 0 count)
    /\ anyRebootRequired
       = existsb (fun k => existsb isRebootRequired (results k)) (seq 0 count)
    /\ (forall limit,
          lookup = Fulfilled (Some limit)
          \/ (lookup = Fulfilled None /\ limit = ofNat (List.length items)) ->
          DeviceModelService.setVariableData final = []
          /\ DeviceModelService.sent final
             = map (Run.dispatchAt uuidv4 limit items) (seq 0 count)
          /\ Run.remaining limit items count = []
          /\ (forall i, (i < count)%nat -> Run.remaining limit items i <> [])
          /\ (forall L,
                ToIntegerOrInfinity limit = Int (Z.of_nat L) -> (0 < L)%nat ->
                count = ceilDiv (List.length items) L
                /\ List.concat (map DeviceModelService.chunkOf
                                    (DeviceModelService.sent final)) = items))
    /\ (forall limit,
          List.length items = 25%nat ->
          lookup = Fulfilled (Some limit) ->
          ToIntegerOrInfinity limit = Int 10 ->
          map (fun d => List.length (DeviceModelService.chunkOf d))
              (DeviceModelService.sent final) = [10; 10; 5]%nat
          /\ (existsb isRejected (results 1%nat) = true ->
              existsb isRebootRequired (results 2%nat) = true ->
              anyRejected = true /\ anyRebootRequired = true)).
Proof.
  intros repo uuidv4 JSON_parse station cacheCallback sendSetVariableRequest
         fuel anyRejected anyRebootRequired final items lookup results count
         Hret.
  assert (forall limit,
            DeviceModelService.whileLoop
              uuidv4 JSON_parse cacheCallback sendSetVariableRequest limit fuel
              (DeviceModelService.initialState items)
            = Returned (anyRejected, anyRebootRequired) final ->
            Run.Inv uuidv4 JSON_parse cacheCallback limit items final
            /\ DeviceModelService.setVariableData final = []
            /\ anyRejected = DeviceModelService.rejectedSetVariable final
            /\ anyRebootRequired = DeviceModelService.rebootSetVariable final)
    as Hinv.
  { intros limit Hloop.
    pose proof (loop_Inv uuidv4 JSON_parse cacheCallback sendSetVariableRequest
                         limit items fuel (DeviceModelService.initialState items)
                         (Inv_initial uuidv4 JSON_parse cacheCallback limit items))
      as HI.
    rewrite Hloop in HI. destruct HI as (I & Hnil & Hflags & _).
    injection Hflags as -> ->. auto. }
  destruct (execute_loop repo uuidv4 JSON_parse station cacheCallback
                         sendSetVariableRequest) as [limit0 Hrun].
  pose proof Hret as Hloop. rewrite Hrun in Hloop.
  destruct (Hinv limit0 Hloop) as (I & _ & Hrej & Hreb).
  pose proof (Inv_sent_length _ _ _ _ _ _ I) as Hcount. fold count in Hcount.
  pose proof I as [Is _ Ir _ Ip Irej Ireb _].
  split; [|split; [|split; [|split; [|split]]]].
  - rewrite Ir, Is, map_map. reflexivity.
  - intros k Hk. apply Ip. lia.
  - rewrite Hrej, Irej, Hcount. reflexivity.
  - rewrite Hreb, Ireb, Hcount. reflexivity.
  - intros limit Hlimit.
    assert (DeviceModelService.whileLoop
              uuidv4 JSON_parse cacheCallback sendSetVariableRequest limit fuel
              (DeviceModelService.initialState items)
            = Returned (anyRejected, anyRebootRequired) final) as Hloop'.
    { rewrite <- Hret. symmetry.
      destruct Hlimit as [Hsome | [Hnone ->]].
      - now apply execute_discovered.
      - now apply execute_undiscovered. }
    destruct (Hinv limit Hloop') as (I' & Hnil & _ & _).
    pose proof (Inv_sent_length _ _ _ _ _ _ I') as Hm. fold count in Hm.
    pose proof I' as [Is' Id' _ Ie' _ _ _ _].
    rewrite <- Hm in Is', Id', Ie'.
    split; [exact Hnil|]. split; [exact Is'|].
    split; [now rewrite <- Id'|]. split; [exact Ie'|].
    intros L HL Hpos.
    pose proof (returned_count uuidv4 JSON_parse cacheCallback limit items
                               L final HL Hpos I' Hnil) as Hceil.
    split; [now rewrite Hm|].
    rewrite (chunks_positive uuidv4 JSON_parse cacheCallback limit items
                             L final HL Hpos I').
    rewrite concat_pieces. apply firstn_all2.
    rewrite Hceil. now apply (ceilDiv_le _ L _ Hpos).
  - intros limit H25 Hlimit H10.
    pose proof Hret as Hloop'.
    rewrite (execute_discovered repo uuidv4 JSON_parse station cacheCallback
                                sendSetVariableRequest limit fuel Hlimit)
      in Hloop'.
    destruct (Hinv limit Hloop') as (I' & Hnil & _ & _).
    assert (DeviceModelService.minted final = 3%nat) as Hm.
    { rewrite (returned_count uuidv4 JSON_parse cacheCallback limit items
                              10 final H10 ltac:(lia) I' Hnil).
      fold items. rewrite H25. reflexivity. }
    split.
    + rewrite <- (map_map DeviceModelService.chunkOf (@List.length _)).
      rewrite (chunks_positive uuidv4 JSON_parse cacheCallback limit items
                               10 final H10 ltac:(lia) I').
      rewrite Hm. cbn [seq map].
      rewrite !length_firstn, !length_skipn. fold items. rewrite H25.
      reflexivity.
    + intros H1 H2.
      rewrite Hrej, Hreb, Irej, Ireb.
      pose proof (Inv_sent_length _ _ _ _ _ _ I') as Hc3.
      assert (DeviceModelService.minted final = 3%nat) as Hm0 by assumption.
      rewrite Hm0. cbn [seq existsb]. fold results.
      rewrite H1, H2, !orb_true_r. auto.
Qed.

Lemma C2_returned_flags_are_disjunctions_witness :
  let responses :=
    [Some "AAAAAAAAAA"%string; Some "AAARAAAAAA"%string; Some "AABAA"%string] in
  let run :=
    DeviceModelService.executeSetVariablesAfterBoot
      (Sample.repository [{| value := "10" |}] (Sample.itemList 25))
      Sample.uuidv4 Sample.JSON_parse "station-1"
      (Sample.cache responses) Sample.send in
  run 3%nat = Returned (true, true) (stateOf (run 3%nat))
  /\ map (fun d => List.length (DeviceModelService.chunkOf d))
         (DeviceModelService.sent (stateOf (run 3%nat))) = [10; 10; 5]%nat
  /\ DeviceModelService.setVariableData (stateOf (run 3%nat)) = []
  /\ List.concat (map DeviceModelService.chunkOf
                      (DeviceModelService.sent (stateOf (run 3%nat))))
     = Sample.itemList 25.
Proof.
  intros responses run.
  assert (run 3%nat = Returned (true, true) (stateOf (run 3%nat))) as Hret
    by (vm_compute; reflexivity).
  pose proof (C2_returned_flags_are_disjunctions
                (Sample.repository [{| value := "10" |}] (Sample.itemList 25))
                Sample.uuidv4 Sample.JSON_parse "station-1"
                (Sample.cache responses) Sample.send
                3%nat true true (stateOf (run 3%nat)) Hret)
    as (_ & _ & _ & _ & Hplan & Hscenario).
  destruct (Hplan (ofZ 10) (or_introl eq_refl)) as (Hnil & _ & _ & _ & Hcover).
  destruct (Hcover 10%nat eq_refl ltac:(lia)) as [_ Hconcat].
  destruct (Hscenario (ofZ 10) eq_refl eq_refl eq_refl) as [Hsizes _].
  split; [exact Hret|]. split; [exact Hsizes|]. split; [exact Hnil|].
  exact Hconcat.
Defined.

(** C3, as the code has it.  In a run that has not thrown, the response of
    every chunk dispatched so far has been retrieved and was present; it was
    decoded and folded into the flags exactly when the two flags were not
    both set by the earlier responses, and left undecoded otherwise; either
    way the flags are the disjunctions over all the responses, so skipping
    changes no flag. *)
Theorem C3_inspected_unless_both_flags_set :
  forall (repo : IDeviceModelRepository) (uuidv4 : nat -> string)
         (JSON_parse : string -> option SetVariablesResponse)
         (station : string)
         (cacheCallback : string -> Promise (option string))
         (sendSetVariableRequest :
            string -> list SetVariableDataType -> number ->
            Promise IMessageConfirmation)
         (fuel : nat),
    let run :=
      DeviceModelService.executeSetVariablesAfterBoot
        repo uuidv4 JSON_parse station cacheCallback sendSetVariableRequest in
    let results := Run.responseOf uuidv4 JSON_parse cacheCallback in
    let final := stateOf (run fuel) in
    let count := List.length (DeviceModelService.sent final) in
    (forall e st, run fuel <> Thrown e st) ->
    DeviceModelService.retrieved final = map uuidv4 (seq 0 count)
    /\ (forall k, (k < count)%nat -> Run.present uuidv4 cacheCallback k)
    /\ DeviceModelService.inspected final
       = map uuidv4
             (filter (fun k => negb (Run.bothSeenBefore
                                       uuidv4 JSON_parse cacheCallback k))
                     (seq 0 count))
    /\ DeviceModelService.rejectedSetVariable final
       = existsb (fun k => existsb isRejected (results k)) (seq 0 count)
    /\ DeviceModelService.rebootSetVariable final
       = existsb (fun k => existsb isRebootRequired (results k)) (seq 0 count).
Proof.
  intros repo uuidv4 JSON_parse station cacheCallback sendSetVariableRequest
         fuel run results final count Hok.
  destruct (execute_loop repo uuidv4 JSON_parse station cacheCallback
                         sendSetVariableRequest) as [limit Hrun].
  set (items := readAllSetVariableByStationId repo station) in *.
  assert (Run.Inv uuidv4 JSON_parse cacheCallback limit items final) as I.
  { pose proof (loop_Inv uuidv4 JSON_parse cacheCallback sendSetVariableRequest
                         limit items fuel (DeviceModelService.initialState items)
                         (Inv_initial uuidv4 JSON_parse cacheCallback limit items))
      as HI.
    unfold final. unfold run in *. rewrite Hrun in *.
    destruct (DeviceModelService.whileLoop _ _ _ _ _ fuel _)
      as [res fin|e fin|fin]; simpl.
    - now destruct HI.
    - exfalso. now apply (Hok e fin).
    - now destruct HI. }
  pose proof (Inv_sent_length _ _ _ _ _ _ I) as Hcount. fold count in Hcount.
  destruct I as [_ _ Ir _ Ip Irej Ireb Iins].
  rewrite Hcount. repeat split; auto.
Qed.

Lemma C3_inspected_unless_both_flags_set_witness :
  let run :=
    DeviceModelService.executeSetVariablesAfterBoot
      (Sample.repository [{| value := "1" |}] (Sample.itemList 3))
      Sample.uuidv4 Sample.JSON_parse "station-1"
      (Sample.cache [Some "RB"%string; Some "A"%string; Some "?"%string])
      Sample.send in
  DeviceModelService.inspected (stateOf (run 3%nat))
  = map Sample.uuidv4
        (filter (fun k => negb (Run.bothSeenBefore
                                  Sample.uuidv4 Sample.JSON_parse
                                  (Sample.cacheFrom 0
                                     [Some "RB"%string; Some "A"%string;
                                      Some "?"%string]) k))
                (seq 0 (List.length
                          (DeviceModelService.sent (stateOf (run 3%nat)))))).
Proof.
  refine (proj1 (proj2 (proj2
            (C3_inspected_unless_both_flags_set
               (Sample.repository [{| value := "1" |}] (Sample.itemList 3))
               Sample.uuidv4 Sample.JSON_parse "station-1"
               (Sample.cache [Some "RB"%string; Some "A"%string;
                                    Some "?"%string])
               Sample.send 3%nat _)))).
  intros e st. vm_compute. discriminate.
Defined.

(** C3, as stated, fails.  Three items go out one per chunk; the first
    response reports a Rejected and a RebootRequired.  The second response
    is present and decodable, the third is present and does not decode: both
    are retrieved, neither is inspected, and the run returns (true, true). *)
Lemma C3_counterexample :
  let cache :=
    Sample.cache [Some "RB"%string; Some "A"%string; Some "?"%string] in
  let run :=
    DeviceModelService.executeSetVariablesAfterBoot
      (Sample.repository [{| value := "1" |}] (Sample.itemList 3))
      Sample.uuidv4 Sample.JSON_parse "station-1" cache Sample.send in
  run 3%nat = Returned (true, true) (stateOf (run 3%nat))
  /\ cache "id-1"%string = Fulfilled (Some "A"%string)
  /\ cache "id-2"%string = Fulfilled (Some "?"%string)
  /\ Sample.JSON_parse "?" = None
  /\ DeviceModelService.retrieved (stateOf (run 3%nat))
     = ["id-0"; "id-1"; "id-2"]%string
  /\ DeviceModelService.inspected (stateOf (run 3%nat)) = ["id-0"%string]
  /\ ~ In "id-1"%string (DeviceModelService.inspected (stateOf (run 3%nat))).
Proof.
  cbv zeta. repeat split; try (vm_compute; reflexivity).
  vm_compute. intros [H|[]]. discriminate.
Qed.

(** C4, as the code has it.  When the attribute store returns two or more
    records for the limit query, the route-layer [setVariables] and
    [getVariables] throw "Violation of Standard Component Structure" without
    sending anything, whereas the lookups of [DeviceModelService] raise no
    error and answer with [Number(value)] of the first record. *)
Theorem C4_two_records_route_throws_service_takes_first :
  forall (repo : IDeviceModelRepository)
         (readAllByQuery : VariableAttributeQuerystring -> list VariableAttribute)
         (sendCall : nat -> string -> string -> CallAction ->
                     ProvisioningModuleApi.Request ->
                     Promise IMessageConfirmation)
         (station party : string)
         (setVariableData : list SetVariableDataType)
         (getVariableData : list GetVariableDataType)
         (instance : string)
         (first second : VariableAttribute) (others : list VariableAttribute)
         (fuel : nat),
    let query :=
      {| stationId := station;
         component_name := "DeviceDataCtrlr";
         variable_name := "ItemsPerMessage";
         variable_instance := instance;
         type := Actual |} in
    let found := first :: second :: others in
    (instance = "SetVariables"%string ->
     readAllByQuerystring repo query = found ->
     DeviceModelService.getItemsPerMessageSetVariablesByStationId repo station
     = Fulfilled (Some (Number (value first))))
    /\ (instance = "GetVariables"%string ->
        readAllByQuerystring repo query = found ->
        DeviceModelService.getItemsPerMessageGetVariablesByStationId repo station
        = Fulfilled (Some (Number (value first))))
    /\ (instance = "SetVariables"%string ->
        readAllByQuery query = found ->
        ProvisioningModuleApi.setVariables
          readAllByQuery sendCall station party setVariableData fuel
        = Thrown (StandardComponentStructureViolation found)
                 ProvisioningModuleApi.initialState
        /\ ProvisioningModuleApi.calls ProvisioningModuleApi.initialState = [])
    /\ (instance = "GetVariables"%string ->
        readAllByQuery query = found ->
        ProvisioningModuleApi.getVariables
          readAllByQuery sendCall station party getVariableData fuel
        = Thrown (StandardComponentStructureViolation found)
                 ProvisioningModuleApi.initialState
        /\ ProvisioningModuleApi.calls ProvisioningModuleApi.initialState = []).
Proof.
  intros repo readAllByQuery sendCall station party setVariableData
         getVariableData instance first second others fuel query found.
  split; [|split; [|split]]; intros -> Hfound; subst query.
  - unfold DeviceModelService.getItemsPerMessageSetVariablesByStationId.
    now rewrite Hfound.
  - unfold DeviceModelService.getItemsPerMessageGetVariablesByStationId.
    now rewrite Hfound.
  - unfold ProvisioningModuleApi.setVariables. rewrite Hfound.
    split; reflexivity.
  - unfold ProvisioningModuleApi.getVariables. rewrite Hfound.
    split; reflexivity.
Qed.

Lemma C4_two_records_route_throws_service_takes_first_witness :
  DeviceModelService.getItemsPerMessageSetVariablesByStationId
    (Sample.repository [{| value := "5" |}; {| value := "7" |}]
                       (Sample.itemList 6))
    "station-1"
  = Fulfilled (Some (Number "5"))
  /\ ProvisioningModuleApi.setVariables
       (fun _ => [{| value := "5" |}; {| value := "7" |}]) Sample.sendCall
       "station-1" "party-1" (Sample.itemList 6) 1
     = Thrown (StandardComponentStructureViolation
                 [{| value := "5" |}; {| value := "7" |}])
              ProvisioningModuleApi.initialState.
Proof.
  pose proof (C4_two_records_route_throws_service_takes_first
                (Sample.repository [{| value := "5" |}; {| value := "7" |}]
                                   (Sample.itemList 6))
                (fun _ => [{| value := "5" |}; {| value := "7" |}])
                Sample.sendCall "station-1" "party-1"
                (Sample.itemList 6) (Sample.queryList 6) "SetVariables"
                {| value := "5" |} {| value := "7" |} [] 1%nat)
    as (Hservice & _ & Hroute & _).
  split.
  - apply Hservice; reflexivity.
  - apply Hroute; reflexivity.
Defined.

(** C4, as stated, fails for the lookup of [DeviceModelService]: with the
    two records "5" and "7" it answers 5, and the run that uses it sends six
    items as chunks under that limit and returns. *)
Lemma C4_counterexample :
  let repo :=
    Sample.repository [{| value := "5" |}; {| value := "7" |}]
                      (Sample.itemList 6) in
  let run :=
    DeviceModelService.executeSetVariablesAfterBoot
      repo Sample.uuidv4 Sample.JSON_parse "station-1"
      (Sample.cacheAlways "A") Sample.send in
  DeviceModelService.getItemsPerMessageSetVariablesByStationId repo "station-1"
  = Fulfilled (Some (ofZ 5))
  /\ run 2%nat = Returned (false, false) (stateOf (run 2%nat))
  /\ map DeviceModelService.itemsPerMessage
         (DeviceModelService.sent (stateOf (run 2%nat))) = [ofZ 5; ofZ 5].
Proof.
  cbv zeta. repeat split; vm_compute; reflexivity.
Qed.

(** C5, as the code has it.  With one matching record the lookup answers
    with [Number(value)] whatever that is: it raises no error and it does
    not answer "no limit", and each dispatch of the run is handed that very
    number as its limit. *)
Theorem C5_single_record_value_used_unchecked :
  forall (repo : IDeviceModelRepository) (uuidv4 : nat -> string)
         (JSON_parse : string -> option SetVariablesResponse)
         (station : string)
         (cacheCallback : string -> Promise (option string))
         (sendSetVariableRequest :
            string -> list SetVariableDataType -> number ->
            Promise IMessageConfirmation)
         (attribute : VariableAttribute) (fuel : nat),
    readAllByQuerystring repo
      {| stationId := station;
         component_name := "DeviceDataCtrlr";
         variable_name := "ItemsPerMessage";
         variable_instance := "SetVariables";
         type := Actual |} = [attribute] ->
    DeviceModelService.getItemsPerMessageSetVariablesByStationId repo station
    = Fulfilled (Some (Number (value attribute)))
    /\ Forall (fun d => DeviceModelService.itemsPerMessage d
                        = Number (value attribute))
              (DeviceModelService.sent
                 (stateOf (DeviceModelService.executeSetVariablesAfterBoot
                             repo uuidv4 JSON_parse station cacheCallback
                             sendSetVariableRequest fuel))).
Proof.
  intros repo uuidv4 JSON_parse station cacheCallback sendSetVariableRequest
         attribute fuel Hattr.
  assert (DeviceModelService.getItemsPerMessageSetVariablesByStationId
            repo station = Fulfilled (Some (Number (value attribute)))) as Hl.
  { unfold DeviceModelService.getItemsPerMessageSetVariablesByStationId.
    now rewrite Hattr. }
  split; [exact Hl|].
  rewrite (execute_discovered repo uuidv4 JSON_parse station cacheCallback
                              sendSetVariableRequest _ fuel Hl).
  apply Forall_forall. intros d Hd.
  exact (loop_sent_limit uuidv4 JSON_parse cacheCallback
                         sendSetVariableRequest _ _ fuel d Hd).
Qed.

Lemma C5_single_record_value_used_unchecked_witness :
  let repo := Sample.repository [{| value := "abc" |}] (Sample.itemList 2) in
  DeviceModelService.getItemsPerMessageSetVariablesByStationId repo "station-1"
  = Fulfilled (Some (Number "abc"))
  /\ Forall (fun d => DeviceModelService.itemsPerMessage d = Number "abc")
            (DeviceModelService.sent
               (stateOf (DeviceModelService.executeSetVariablesAfterBoot
                           repo Sample.uuidv4 Sample.JSON_parse "station-1"
                           (Sample.cacheAlways "A") Sample.send 3))).
Proof.
  apply (C5_single_record_value_used_unchecked
           (Sample.repository [{| value := "abc" |}] (Sample.itemList 2))
           Sample.uuidv4 Sample.JSON_parse "station-1"
           (Sample.cacheAlways "A") Sample.send {| value := "abc" |} 3%nat).
  reflexivity.
Defined.

(** C5, as stated, fails: the texts "abc", "0" and "-3" come back as the
    limits NaN, 0 and -3, each as a fulfilled lookup. *)
Lemma C5_counterexample :
  let lookup text :=
    DeviceModelService.getItemsPerMessageSetVariablesByStationId
      (Sample.repository [{| value := text |}] (Sample.itemList 2))
      "station-1" in
  lookup "abc"%string = Fulfilled (Some NaN)
  /\ lookup "0"%string = Fulfilled (Some (ofZ 0))
  /\ lookup "-3"%string = Fulfilled (Some (ofZ (-3))).
Proof.
  cbv zeta. repeat split; reflexivity.
Qed.

(** C6.  Along a run the two flags only ever go from false to true: a flag
    that is set after [i] iterations is still set after any [j >= i]
    iterations, and in the pair the run returns. *)
Theorem C6_flags_monotonic :
  forall (repo : IDeviceModelRepository) (uuidv4 : nat -> string)
         (JSON_parse : string -> option SetVariablesResponse)
         (station : string)
         (cacheCallback : string -> Promise (option string))
         (sendSetVariableRequest :
            string -> list SetVariableDataType -> number ->
            Promise IMessageConfirmation)
         (i j : nat),
    let run :=
      DeviceModelService.executeSetVariablesAfterBoot
        repo uuidv4 JSON_parse station cacheCallback sendSetVariableRequest in
    (i <= j)%nat ->
    (DeviceModelService.rejectedSetVariable (stateOf (run i)) = true ->
     DeviceModelService.rejectedSetVariable (stateOf (run j)) = true)
    /\ (DeviceModelService.rebootSetVariable (stateOf (run i)) = true ->
        DeviceModelService.rebootSetVariable (stateOf (run j)) = true)
    /\ (forall anyRejected anyRebootRequired final,
          run j = Returned (anyRejected, anyRebootRequired) final ->
          (DeviceModelService.rejectedSetVariable (stateOf (run i)) = true ->
           anyRejected = true)
          /\ (DeviceModelService.rebootSetVariable (stateOf (run i)) = true ->
              anyRebootRequired = true)).
Proof.
  intros repo uuidv4 JSON_parse station cacheCallback sendSetVariableRequest
         i j run Hij.
  destruct (execute_loop repo uuidv4 JSON_parse station cacheCallback
                         sendSetVariableRequest) as [limit Hrun].
  set (items := readAllSetVariableByStationId repo station) in *.
  assert ((DeviceModelService.rejectedSetVariable (stateOf (run i)) = true ->
           DeviceModelService.rejectedSetVariable (stateOf (run j)) = true)
          /\ (DeviceModelService.rebootSetVariable (stateOf (run i)) = true ->
              DeviceModelService.rebootSetVariable (stateOf (run j)) = true))
    as [Hrej Hreb].
  { unfold run. rewrite !Hrun.
    replace j with (i + (j - i))%nat by lia. rewrite loop_add.
    destruct (DeviceModelService.whileLoop _ _ _ _ _ i _) as [res fin|e fin|fin];
      simpl; auto.
    apply loop_flags_mono. }
  split; [exact Hrej|]. split; [exact Hreb|].
  intros anyRejected anyRebootRequired final Hret.
  pose proof (loop_Inv uuidv4 JSON_parse cacheCallback sendSetVariableRequest
                       limit items j (DeviceModelService.initialState items)
                       (Inv_initial uuidv4 JSON_parse cacheCallback limit items))
    as HI.
  unfold run in Hret. rewrite Hrun in Hret. rewrite Hret in HI.
  destruct HI as (_ & _ & Hflags & _). injection Hflags as -> ->.
  unfold run in Hrej, Hreb. rewrite (Hrun j), Hret in Hrej, Hreb.
  simpl in Hrej, Hreb. unfold run. auto.
Qed.

Lemma C6_flags_monotonic_witness :
  let run :=
    DeviceModelService.executeSetVariablesAfterBoot
      (Sample.repository [{| value := "1" |}] (Sample.itemList 3))
      Sample.uuidv4 Sample.JSON_parse "station-1"
      (Sample.cache [Some "R"%string; Some "B"%string; Some "A"%string])
      Sample.send in
  DeviceModelService.rejectedSetVariable (stateOf (run 1%nat)) = true
  /\ DeviceModelService.rejectedSetVariable (stateOf (run 3%nat)) = true.
Proof.
  split; [reflexivity|].
  refine (proj1
            (C6_flags_monotonic
               (Sample.repository [{| value := "1" |}] (Sample.itemList 3))
               Sample.uuidv4 Sample.JSON_parse "station-1"
               (Sample.cache [Some "R"%string; Some "B"%string;
                                    Some "A"%string])
               Sample.send 1%nat 3%nat _) _).
  - lia.
  - reflexivity.
Defined.

(** C7.  If the response to chunk [k] is absent or an empty string, at most
    [k + 1] chunks are ever dispatched; once that response has been
    retrieved the run has ended by throwing 'SetVariables response not
    found' after exactly [k + 1] dispatches; the run is over within [k + 1]
    iterations; and a pair of flags is returned only by a run that never
    retrieved that response. *)
Theorem C7_missing_response_aborts :
  forall (repo : IDeviceModelRepository) (uuidv4 : nat -> string)
         (JSON_parse : string -> option SetVariablesResponse)
         (station : string)
         (cacheCallback : string -> Promise (option string))
         (sendSetVariableRequest :
            string -> list SetVariableDataType -> number ->
            Promise IMessageConfirmation)
         (k : nat),
    let run :=
      DeviceModelService.executeSetVariablesAfterBoot
        repo uuidv4 JSON_parse station cacheCallback sendSetVariableRequest in
    cacheCallback (uuidv4 k) = Fulfilled None
    \/ cacheCallback (uuidv4 k) = Fulfilled (Some ""%string) ->
    forall fuel,
      (List.length (DeviceModelService.sent (stateOf (run fuel))) <= k + 1)%nat
      /\ ((k < List.length (DeviceModelService.retrieved (stateOf (run fuel))))%nat ->
          exists final,
            run fuel = Thrown SetVariablesResponseNotFound final
            /\ List.length (DeviceModelService.sent final) = (k + 1)%nat
            /\ List.length (DeviceModelService.retrieved final) = (k + 1)%nat)
      /\ ((k < fuel)%nat -> forall st, run fuel <> Running st)
      /\ (forall result final,
            run fuel = Returned result final ->
            (List.length (DeviceModelService.retrieved final) <= k)%nat).
Proof.
  intros repo uuidv4 JSON_parse station cacheCallback sendSetVariableRequest
         k run Hmissing fuel.
  destruct (execute_loop repo uuidv4 JSON_parse station cacheCallback
                         sendSetVariableRequest) as [limit Hrun].
  assert (exists r, cacheCallback (uuidv4 k) = Fulfilled r
                    /\ DeviceModelService.truthy r = false) as (r & Hc & Hr).
  { destruct Hmissing as [H|H]; eexists; (split; [exact H | reflexivity]). }
  destruct (loop_falsy uuidv4 JSON_parse cacheCallback sendSetVariableRequest
                       limit (readAllSetVariableByStationId repo station)
                       k r Hc Hr fuel) as (Hsent & Hthrow & Hend).
  unfold run. rewrite Hrun.
  split; [exact Hsent|]. split; [exact Hthrow|]. split; [exact Hend|].
  intros result final Hret. rewrite Hret in Hthrow. simpl in Hthrow.
  destruct (Nat.le_gt_cases
              (List.length (DeviceModelService.retrieved final)) k) as [|Hgt];
    [assumption|].
  destruct (Hthrow Hgt) as (final' & Habs & _). discriminate.
Qed.

Lemma C7_missing_response_aborts_witness :
  let run :=
    DeviceModelService.executeSetVariablesAfterBoot
      (Sample.repository [{| value := "1" |}] (Sample.itemList 3))
      Sample.uuidv4 Sample.JSON_parse "station-1"
      (Sample.cache [Some "R"%string; Some ""%string; Some "A"%string])
      Sample.send in
  exists final,
    run 3%nat = Thrown SetVariablesResponseNotFound final
    /\ List.length (DeviceModelService.sent final) = 2%nat
    /\ List.length (DeviceModelService.retrieved final) = 2%nat.
Proof.
  refine (proj1 (proj2
            (C7_missing_response_aborts
               (Sample.repository [{| value := "1" |}] (Sample.itemList 3))
               Sample.uuidv4 Sample.JSON_parse "station-1"
               (Sample.cache [Some "R"%string; Some ""%string;
                                    Some "A"%string])
               Sample.send 1%nat _ 3%nat)) _).
  - right. reflexivity.
  - vm_compute. lia.
Defined.

(** C8.  When no ItemsPerMessage attribute is discovered, a non-empty item
    list is dispatched exactly once, with every item in that one chunk, and an
    empty item list is not dispatched at all: the run returns at once and
    the send callback is never called. *)
Theorem C8_no_limit_single_chunk :
  forall (repo : IDeviceModelRepository) (uuidv4 : nat -> string)
         (JSON_parse : string -> option SetVariablesResponse)
         (station : string)
         (cacheCallback : string -> Promise (option string))
         (sendSetVariableRequest :
            string -> list SetVariableDataType -> number ->
            Promise IMessageConfirmation),
    let items := readAllSetVariableByStationId repo station in
    let run :=
      DeviceModelService.executeSetVariablesAfterBoot
        repo uuidv4 JSON_parse station cacheCallback sendSetVariableRequest in
    DeviceModelService.getItemsPerMessageSetVariablesByStationId repo station
    = Fulfilled None ->
    (items = [] ->
     forall fuel,
       run fuel = Returned (false, false) (DeviceModelService.initialState [])
       /\ DeviceModelService.sent (stateOf (run fuel)) = [])
    /\ (items <> [] ->
        forall fuel, (0 < fuel)%nat ->
          (forall st, run fuel <> Running st)
          /\ DeviceModelService.sent (stateOf (run fuel))
             = [{| DeviceModelService.correlationId := uuidv4 O;
                   DeviceModelService.data := items;
                   DeviceModelService.itemsPerMessage :=
                     ofNat (List.length items) |}]
          /\ map DeviceModelService.chunkOf
                 (DeviceModelService.sent (stateOf (run fuel)))
             = [items]).
Proof.
  intros repo uuidv4 JSON_parse station cacheCallback sendSetVariableRequest
         items run Hnone.
  assert (forall fuel,
            run fuel =
            DeviceModelService.whileLoop
              uuidv4 JSON_parse cacheCallback sendSetVariableRequest
              (ofNat (List.length items)) fuel
              (DeviceModelService.initialState items)) as Hrun.
  { intros fuel. now apply execute_undiscovered. }
  split.
  - intros Hnil fuel. rewrite Hrun, Hnil. destruct fuel; simpl; auto.
  - intros Hne fuel Hfuel. rewrite Hrun.
    destruct (loop_whole uuidv4 JSON_parse cacheCallback sendSetVariableRequest
                         (ofNat (List.length items)) items eq_refl Hne
                         fuel Hfuel) as [Hend Hsent].
    split; [exact Hend|]. rewrite Hsent. split; [reflexivity|].
    cbn [map]. unfold DeviceModelService.chunkOf.
    cbn [DeviceModelService.data DeviceModelService.itemsPerMessage].
    now rewrite slice_upto_length.
Qed.

Lemma C8_no_limit_single_chunk_witness :
  let run :=
    DeviceModelService.executeSetVariablesAfterBoot
      (Sample.repository [] (Sample.itemList 3))
      Sample.uuidv4 Sample.JSON_parse "station-1"
      (Sample.cacheAlways "A") Sample.send in
  (forall st, run 1%nat <> Running st)
  /\ DeviceModelService.sent (stateOf (run 1%nat))
     = [{| DeviceModelService.correlationId := Sample.uuidv4 O;
           DeviceModelService.data := Sample.itemList 3;
           DeviceModelService.itemsPerMessage := ofNat 3 |}]
  /\ map DeviceModelService.chunkOf
         (DeviceModelService.sent (stateOf (run 1%nat)))
     = [Sample.itemList 3].
Proof.
  apply (proj2 (C8_no_limit_single_chunk
                  (Sample.repository [] (Sample.itemList 3))
                  Sample.uuidv4 Sample.JSON_parse "station-1"
                  (Sample.cacheAlways "A") Sample.send eq_refl)).
  - discriminate.
  - lia.
Defined.

(** C9.  When the one discovered ItemsPerMessage value converts to 0 or to
    NaN and the item list is not empty, [slice] leaves the list as it is, so
    the loop condition stays true: no run returns, every dispatch carries the
    whole list, and as long as the chunks are answered the number of
    dispatches grows with the number of iterations allowed. *)
Theorem C9_zero_or_NaN_limit_never_returns :
  forall (repo : IDeviceModelRepository) (uuidv4 : nat -> string)
         (JSON_parse : string -> option SetVariablesResponse)
         (station : string)
         (cacheCallback : string -> Promise (option string))
         (sendSetVariableRequest :
            string -> list SetVariableDataType -> number ->
            Promise IMessageConfirmation)
         (attribute : VariableAttribute),
    let items := readAllSetVariableByStationId repo station in
    let limit := Number (value attribute) in
    let run :=
      DeviceModelService.executeSetVariablesAfterBoot
        repo uuidv4 JSON_parse station cacheCallback sendSetVariableRequest in
    items <> [] ->
    readAllByQuerystring repo
      {| stationId := station;
         component_name := "DeviceDataCtrlr";
         variable_name := "ItemsPerMessage";
         variable_instance := "SetVariables";
         type := Actual |} = [attribute] ->
    limit = NaN \/ limit = ofZ 0 ->
    slice items limit None = items
    /\ forall fuel,
         (forall result final, run fuel <> Returned result final)
         /\ (forall d, In d (DeviceModelService.sent (stateOf (run fuel))) ->
                       DeviceModelService.data d = items)
         /\ ((forall k, (k < fuel)%nat ->
                        Run.answered uuidv4 JSON_parse cacheCallback
                                     sendSetVariableRequest limit items k) ->
             exists st, run fuel = Running st
                        /\ List.length (DeviceModelService.sent st) = fuel
                        /\ DeviceModelService.setVariableData st = items).
Proof.
  intros repo uuidv4 JSON_parse station cacheCallback sendSetVariableRequest
         attribute items limit run Hne Hattr Hlimit.
  assert (ToIntegerOrInfinity limit = Int 0) as H0.
  { destruct Hlimit as [-> | ->]; [reflexivity | apply ToIntegerOrInfinity_ofZ]. }
  split; [now apply slice_from_zero|].
  intros fuel.
  assert (run fuel =
          DeviceModelService.whileLoop
            uuidv4 JSON_parse cacheCallback sendSetVariableRequest limit fuel
            (DeviceModelService.initialState items)) as Hrun.
  { apply execute_discovered.
    unfold DeviceModelService.getItemsPerMessageSetVariablesByStationId.
    now rewrite Hattr. }
  rewrite Hrun.
  destruct (loop_zero uuidv4 JSON_parse cacheCallback sendSetVariableRequest
                      limit items H0 Hne fuel) as (Hret & Hsent & Hgrow).
  split; [exact Hret|]. split; [|exact Hgrow].
  intros d Hd. now apply Hsent.
Qed.

Lemma C9_zero_or_NaN_limit_never_returns_witness :
  let items := Sample.itemList 2 in
  let run :=
    DeviceModelService.executeSetVariablesAfterBoot
      (Sample.repository [{| value := "0" |}] items)
      Sample.uuidv4 Sample.JSON_parse "station-1"
      (Sample.cacheAlways "A") Sample.send in
  exists st, run 7%nat = Running st
             /\ List.length (DeviceModelService.sent st) = 7%nat
             /\ DeviceModelService.setVariableData st = items.
Proof.
  refine (proj2 (proj2 (proj2
            (C9_zero_or_NaN_limit_never_returns
               (Sample.repository [{| value := "0" |}] (Sample.itemList 2))
               Sample.uuidv4 Sample.JSON_parse "station-1"
               (Sample.cacheAlways "A") Sample.send {| value := "0" |}
               _ _ _) 7%nat)) _).
  - discriminate.
  - reflexivity.
  - right. reflexivity.
  - intros k _. split.
    + eexists. reflexivity.
    + exists "A"%string. eexists. repeat split; reflexivity.
Defined.

(** [l.slice(0, x)] for an [x] whose integer value is a natural number
    [L]: the first [L] items of [l] (all of them when there are fewer). *)
Lemma slice_upto_first {A : Type} (l : list A) (x : number) (L : nat) :
  ToIntegerOrInfinity x = Int (Z.of_nat L) ->
  slice l (ofZ 0) (Some x) = firstn L l.
Proof.
  intros Hx. rewrite slice_upto, Hx, relativeIndex_nonneg by lia.
  destruct (Z.le_ge_cases (Z.of_nat L) (Z.of_nat (List.length l))) as [Hle|Hge].
  - now rewrite Z.min_l, Nat2Z.id.
  - rewrite Z.min_r by lia. rewrite Nat2Z.id, firstn_all.
    symmetry. apply firstn_all2. lia.
Qed.

(** C10.  In the route-layer [setVariables] and [getVariables], the list
    tested by the loop condition is never changed by the loop body.  With
    exactly one limit attribute and a non-empty item list, no run returns a
    confirmation, every call sends the same [slice(0, limit)] of the list,
    which for a limit of integer value [L] is the first [L] items of the
    list, and while the transport accepts the calls their number grows with
    the number of iterations allowed. *)
Theorem C10_route_layer_loops_never_return :
  forall (readAllByQuery : VariableAttributeQuerystring -> list VariableAttribute)
         (sendCall : nat -> string -> string -> CallAction ->
                     ProvisioningModuleApi.Request ->
                     Promise IMessageConfirmation)
         (station party : string)
         (setVariableData : list SetVariableDataType)
         (getVariableData : list GetVariableDataType)
         (attribute : VariableAttribute) (fuel : nat),
    let limit := Number (value attribute) in
    (setVariableData <> [] ->
     readAllByQuery {| stationId := station;
                       component_name := "DeviceDataCtrlr";
                       variable_name := "ItemsPerMessage";
                       variable_instance := "SetVariables";
                       type := Actual |} = [attribute] ->
     let run :=
       ProvisioningModuleApi.setVariables
         readAllByQuery sendCall station party setVariableData fuel in
     (forall confirmation final, run <> Returned confirmation final)
     /\ Forall (fun call =>
                  ProvisioningModuleApi.request call
                  = ProvisioningModuleApi.SetVariablesRequest
                      (slice setVariableData (ofZ 0) (Some limit)))
               (ProvisioningModuleApi.calls (stateOf run))
     /\ ((forall made req, exists confirmation,
             sendCall made station party SetVariables req
             = Fulfilled confirmation) ->
         exists st, run = Running st
                    /\ List.length (ProvisioningModuleApi.calls st) = fuel)
     /\ (forall L,
           ToIntegerOrInfinity limit = Int (Z.of_nat L) ->
           Forall (fun call =>
                     ProvisioningModuleApi.request call
                     = ProvisioningModuleApi.SetVariablesRequest
                         (firstn L setVariableData))
                  (ProvisioningModuleApi.calls (stateOf run))))
    /\ (getVariableData <> [] ->
        readAllByQuery {| stationId := station;
                          component_name := "DeviceDataCtrlr";
                          variable_name := "ItemsPerMessage";
                          variable_instance := "GetVariables";
                          type := Actual |} = [attribute] ->
        let run :=
          ProvisioningModuleApi.getVariables
            readAllByQuery sendCall station party getVariableData fuel in
        (forall confirmation final, run <> Returned confirmation final)
        /\ Forall (fun call =>
                     ProvisioningModuleApi.request call
                     = ProvisioningModuleApi.GetVariablesRequest
                         (slice getVariableData (ofZ 0) (Some limit)))
                  (ProvisioningModuleApi.calls (stateOf run))
        /\ ((forall made req, exists confirmation,
                sendCall made station party GetVariables req
                = Fulfilled confirmation) ->
            exists st, run = Running st
                       /\ List.length (ProvisioningModuleApi.calls st) = fuel)
        /\ (forall L,
              ToIntegerOrInfinity limit = Int (Z.of_nat L) ->
              Forall (fun call =>
                        ProvisioningModuleApi.request call
                        = ProvisioningModuleApi.GetVariablesRequest
                            (firstn L getVariableData))
                     (ProvisioningModuleApi.calls (stateOf run)))).
Proof.
  intros readAllByQuery sendCall station party setVariableData getVariableData
         attribute fuel limit.
  split; intros Hne Hattr run.
  - assert (run = ProvisioningModuleApi.setVariablesLoop
                    sendCall station party setVariableData limit fuel
                    ProvisioningModuleApi.initialState) as ->.
    { unfold run, ProvisioningModuleApi.setVariables. now rewrite Hattr. }
    split; [now apply setVariablesLoop_never_returns|]. split; [|split].
    + apply setVariablesLoop_calls. constructor.
    + intros Hsend.
      destruct (setVariablesLoop_running
                  sendCall station party limit setVariableData Hne Hsend
                  fuel ProvisioningModuleApi.initialState) as (st & Hrun & Hlen).
      exists st. split; [exact Hrun | exact Hlen].
    + intros L HL. rewrite <- (slice_upto_first setVariableData limit L HL).
      apply setVariablesLoop_calls. constructor.
  - assert (run = ProvisioningModuleApi.getVariablesLoop
                    sendCall station party getVariableData limit fuel
                    ProvisioningModuleApi.initialState) as ->.
    { unfold run, ProvisioningModuleApi.getVariables. now rewrite Hattr. }
    split; [now apply getVariablesLoop_never_returns|]. split; [|split].
    + apply getVariablesLoop_calls. constructor.
    + intros Hsend.
      destruct (getVariablesLoop_running
                  sendCall station party limit getVariableData Hne Hsend
                  fuel ProvisioningModuleApi.initialState) as (st & Hrun & Hlen).
      exists st. split; [exact Hrun | exact Hlen].
    + intros L HL. rewrite <- (slice_upto_first getVariableData limit L HL).
      apply getVariablesLoop_calls. constructor.
Qed.

Lemma C10_route_layer_loops_never_return_witness :
  let run :=
    ProvisioningModuleApi.setVariables
      (fun _ => [{| value := "2" |}]) Sample.sendCall "station-1" "party-1"
      (Sample.itemList 3) 4 in
  (forall confirmation final, run <> Returned confirmation final)
  /\ (exists st, run = Running st
                 /\ List.length (ProvisioningModuleApi.calls st) = 4%nat)
  /\ Forall (fun call =>
               ProvisioningModuleApi.request call
               = ProvisioningModuleApi.SetVariablesRequest
                   [Sample.item 0; Sample.item 1])
            (ProvisioningModuleApi.calls (stateOf run)).
Proof.
  pose proof (proj1
                (C10_route_layer_loops_never_return
                   (fun _ => [{| value := "2" |}]) Sample.sendCall
                   "station-1" "party-1" (Sample.itemList 3) (Sample.queryList 3)
                   {| value := "2" |} 4%nat)) as H.
  destruct H as (Hnever & _ & Hgrow & Hfirst).
  - discriminate.
  - reflexivity.
  - split; [exact Hnever|]. split.
    + apply Hgrow. intros made req. eexists. reflexivity.
    + exact (Hfirst 2%nat eq_refl).
Defined.

(** * Further properties of the code *)

(** ** More about [slice] and lists *)

Lemma slice_is_suffix {A : Type} (l : list A) (x : number) :
  exists n, slice l x None = skipn n l.
Proof. eexists. apply slice_from. Qed.

(** [slice] from a start that is not positive leaves a non-empty list
    non-empty. *)
Lemma slice_from_nonpositive {A : Type} (l : list A) (x : number) :
  l <> [] ->
  (exists z, ToIntegerOrInfinity x = Int z /\ z <= 0)
  \/ ToIntegerOrInfinity x = MinusInf ->
  slice l x None <> [].
Proof.
  intros Hne Hx. rewrite slice_from.
  assert (0 < Z.of_nat (List.length l)) as Hlen.
  { destruct l; [contradiction | simpl; lia]. }
  assert (relativeIndex (Z.of_nat (List.length l)) (ToIntegerOrInfinity x)
          < Z.of_nat (List.length l)) as Hlt.
  { destruct Hx as [(z & -> & Hz) | ->]; simpl; [|assumption].
    destruct (Z.ltb_spec z 0); lia. }
  pose proof (relativeIndex_range (Z.of_nat (List.length l))
                                  (ToIntegerOrInfinity x) (Nat2Z.is_nonneg _)).
  intros Hnil. apply skipn_nil_iff in Hnil. lia.
Qed.

(** [slice] from a start at or past the end leaves nothing. *)
Lemma slice_from_covering {A : Type} (l : list A) (x : number) :
  (exists z, ToIntegerOrInfinity x = Int z /\ Z.of_nat (List.length l) <= z)
  \/ ToIntegerOrInfinity x = PlusInf ->
  slice l x None = [] /\ slice l (ofZ 0) (Some x) = l.
Proof.
  intros Hx. rewrite slice_from, slice_upto.
  assert (relativeIndex (Z.of_nat (List.length l)) (ToIntegerOrInfinity x)
          = Z.of_nat (List.length l)) as ->.
  { destruct Hx as [(z & -> & Hz) | ->]; simpl; [|reflexivity].
    destruct (Z.ltb_spec z 0); lia. }
  rewrite Nat2Z.id. split; [apply skipn_all | apply firstn_all].
Qed.

Lemma NoDup_map_injective {A B : Type} (f : A -> B) (l : list A) :
  (forall a b, f a = f b -> a = b) -> NoDup l -> NoDup (map f l).
Proof.
  intros Hinj. induction 1 as [|a l Hnotin Hnd IH]; simpl; constructor; auto.
  intros Hin. apply in_map_iff in Hin. destruct Hin as (b & Hb & Hin).
  apply Hinj in Hb. now subst.
Qed.

Lemma firstn_map_seq {A : Type} (f : nat -> A) (m n : nat) :
  (m <= n)%nat -> firstn m (map f (seq 0 n)) = map f (seq 0 m).
Proof.
  intros Hle. replace n with (m + (n - m))%nat by lia.
  rewrite seq_app, map_app, firstn_app, length_map, length_seq.
  rewrite Nat.sub_diag, firstn_O, app_nil_r.
  apply firstn_all2. rewrite length_map, length_seq. lia.
Qed.

Ltac conjs := repeat match goal with |- _ /\ _ => split end.

(** ** More about the loop of [executeSetVariablesAfterBoot] *)

Section RunFacts.

Import DeviceModelService.

Variable uuidv4 : nat -> string.
Variable JSON_parse : string -> option SetVariablesResponse.
Variable cacheCallback : string -> Promise (option string).
Variable sendSetVariableRequest :
  string -> list SetVariableDataType -> number -> Promise IMessageConfirmation.
Variable limit : number.
Variable items : list SetVariableDataType.

Abbreviation remaining := (Run.remaining limit items).
Abbreviation dispatchAt := (Run.dispatchAt uuidv4 limit items).
Abbreviation responseOf := (Run.responseOf uuidv4 JSON_parse cacheCallback).
Abbreviation bothSeenBefore :=
  (Run.bothSeenBefore uuidv4 JSON_parse cacheCallback).
Abbreviation present := (Run.present uuidv4 cacheCallback).
Abbreviation Inv := (Run.Inv uuidv4 JSON_parse cacheCallback limit items).
Abbreviation body := (loopBody uuidv4 JSON_parse cacheCallback
                               sendSetVariableRequest limit).
Abbreviation loop := (whileLoop uuidv4 JSON_parse cacheCallback
                                sendSetVariableRequest limit).
Abbreviation start := (initialState items).

(** Chunk [i] was accepted by the send callback and, unless both flags
    were set before it, its response decoded. *)
Abbreviation served i :=
  ((exists c, sendSetVariableRequest (uuidv4 i) (remaining i) limit = Fulfilled c)
   /\ (bothSeenBefore i = false ->
       exists text response,
         cacheCallback (uuidv4 i) = Fulfilled (Some text)
         /\ JSON_parse text = Some response)).

Lemma remaining_suffix (k : nat) : exists n, remaining k = skipn n items.
Proof.
  induction k as [|k [n IH]]; [now exists O|].
  rewrite remaining_S, IH.
  destruct (slice_is_suffix (skipn n items) limit) as [m ->].
  rewrite skipn_add. eauto.
Qed.

Lemma remaining_nonpositive :
  items <> [] ->
  (exists z, ToIntegerOrInfinity limit = Int z /\ z <= 0)
  \/ ToIntegerOrInfinity limit = MinusInf ->
  forall k, remaining k <> [].
Proof.
  intros Hne Hl. induction k as [|k IH]; [assumption|].
  rewrite remaining_S. now apply slice_from_nonpositive.
Qed.

(** What the traces look like in every state a run can be observed in,
    also after a [throw]. *)
Lemma loop_trace (fuel : nat) :
  let st := stateOf (loop fuel start) in
  sent st = map dispatchAt (seq 0 (List.length (sent st)))
  /\ retrieved st = map uuidv4 (seq 0 (List.length (retrieved st)))
  /\ (List.length (retrieved st) <= List.length (sent st)
      <= List.length (retrieved st) + 1)%nat
  /\ (forall i, (i < List.length (sent st))%nat -> remaining i <> [])
  /\ ((forall e final, loop fuel start <> Thrown e final) ->
      List.length (retrieved st) = List.length (sent st)).
Proof.
  pose proof (loop_Inv uuidv4 JSON_parse cacheCallback sendSetVariableRequest
                       limit items fuel start
                       (Inv_initial uuidv4 JSON_parse cacheCallback limit items))
    as HI.
  assert (forall s, Inv s ->
            sent s = map dispatchAt (seq 0 (List.length (sent s)))
            /\ retrieved s = map uuidv4 (seq 0 (List.length (retrieved s)))
            /\ (List.length (retrieved s) <= List.length (sent s)
                <= List.length (retrieved s) + 1)%nat
            /\ (forall i, (i < List.length (sent s))%nat -> remaining i <> [])
            /\ List.length (retrieved s) = List.length (sent s)) as Hinv.
  { intros s I.
    pose proof (Inv_sent_length _ _ _ _ _ _ I) as Hs.
    pose proof (Inv_retrieved_length _ _ _ _ _ _ I) as Hr.
    destruct I as [Is _ Ir Ie _ _ _ _].
    rewrite Hs, Hr. conjs; auto; lia. }
  destruct (loop fuel start) as [res fin|e fin|fin]; simpl.
  - destruct HI as (I & _). destruct (Hinv fin I) as (? & ? & ? & ? & ?).
    conjs; auto; lia.
  - destruct HI as (s0 & I0 & Hne & Hb & _).
    destruct (Hinv s0 I0) as (Hs0 & Hr0 & _ & He0 & Hlen0).
    pose proof (Inv_sent_length _ _ _ _ _ _ I0) as Hm.
    pose proof (body_counts uuidv4 JSON_parse cacheCallback
                            sendSetVariableRequest limit s0) as Hc.
    rewrite Hb in Hc. simpl in Hc. destruct Hc as [_ Hs].
    destruct (body_Throw _ _ _ _ _ _ _ _ Hb) as (Hcause & _).
    assert (retrieved fin = retrieved s0
            \/ retrieved fin = retrieved s0 ++ [uuidv4 (minted s0)]) as Hret.
    { destruct Hcause; auto. }
    assert (sent fin = map dispatchAt (seq 0 (S (List.length (sent s0))))) as Hs'.
    { rewrite Hs, seq_S, map_app, <- Hs0. simpl. rewrite Hm.
      unfold Run.dispatchAt at 1.
      destruct I0 as [_ Id _ _ _ _ _ _]. now rewrite Id. }
    assert (List.length (sent fin) = S (List.length (sent s0))) as Hl.
    { rewrite Hs, length_app. simpl. lia. }
    rewrite Hl. conjs.
    + exact Hs'.
    + destruct Hret as [-> | ->]; [exact Hr0|].
      rewrite length_app. simpl. rewrite Nat.add_1_r, seq_S, map_app, <- Hr0.
      simpl. now rewrite Hlen0, Hm.
    + destruct Hret as [-> | ->]; [|rewrite length_app; simpl]; lia.
    + destruct Hret as [-> | ->]; [|rewrite length_app; simpl]; lia.
    + intros i Hi. destruct (Nat.eq_dec i (List.length (sent s0))) as [->|Hn].
      * rewrite Hm. destruct I0 as [_ Id _ _ _ _ _ _]. now rewrite <- Id.
      * apply He0. lia.
    + intros Hnot. exfalso. now apply (Hnot e fin).
  - destruct HI as (I & _). destruct (Hinv fin I) as (? & ? & ? & ? & ?).
    conjs; auto; lia.
Qed.

(** The chunks completed so far were all accepted and, where looked at,
    decoded. *)
Lemma loop_served (fuel : nat) :
  forall st, Inv st -> (forall i, (i < minted st)%nat -> served i) ->
  match loop fuel st with
  | Running s | Returned _ s => forall i, (i < minted s)%nat -> served i
  | Thrown e s =>
      exists s0, Inv s0 /\ (forall i, (i < minted s0)%nat -> served i)
                 /\ setVariableData s0 <> [] /\ body s0 = Throw e s
  end.
Proof.
  induction fuel as [|fuel IH]; intros st I Hserved; simpl;
    destruct (setVariableData st) eqn:E; try assumption.
  assert (setVariableData st <> []) as Hne by congruence.
  destruct (body st) as [st'|e st'] eqn:Hb.
  - destruct (body_Continue_Inv _ _ _ _ _ _ _ _ I Hne Hb) as [I' Hm].
    apply IH; [assumption|].
    intros i Hi. rewrite Hm in Hi.
    destruct (Nat.eq_dec i (minted st)) as [->|Hn]; [|apply Hserved; lia].
    destruct (body_Continue _ _ _ _ _ _ _ Hb) as (Hf & _ & _ & _ & c & Hc).
    pose proof I as [_ Id _ _ _ Irej Ireb _].
    split.
    + exists c. now rewrite <- Id.
    + intros Hboth.
      destruct Hf as [R1 R2 _ _ _ | text response _ Hcache Hparse _ _ _].
      * unfold Run.bothSeenBefore in Hboth.
        rewrite <- Irej, <- Ireb, R1, R2 in Hboth. discriminate.
      * eauto.
  - exists st. conjs; auto.
Qed.

(** The two invariants of a run, side by side. *)
Lemma loop_Inv_served (fuel : nat) :
  match loop fuel start with
  | Running s =>
      Inv s /\ (forall i, (i < minted s)%nat -> served i)
      /\ minted s = fuel /\ setVariableData s <> []
  | Returned _ s =>
      Inv s /\ (forall i, (i < minted s)%nat -> served i)
      /\ setVariableData s = []
  | Thrown e s =>
      exists s0, Inv s0 /\ (forall i, (i < minted s0)%nat -> served i)
                 /\ setVariableData s0 <> [] /\ body s0 = Throw e s
                 /\ (minted s0 < fuel)%nat
  end.
Proof.
  pose proof (loop_Inv uuidv4 JSON_parse cacheCallback sendSetVariableRequest
                       limit items fuel start
                       (Inv_initial uuidv4 JSON_parse cacheCallback limit items))
    as HI.
  pose proof (loop_served fuel start
                (Inv_initial uuidv4 JSON_parse cacheCallback limit items)) as HS.
  assert (forall i, (i < minted start)%nat -> served i) as H0
    by (intros i Hi; inversion Hi).
  specialize (HS H0).
  destruct (loop fuel start) as [res fin|e fin|fin].
  - destruct HI as (I & Hnil & _). conjs; auto.
  - destruct HI as (s0 & I0 & Hne & Hb & Hm).
    destruct HS as (s1 & I1 & Hs1 & _ & Hb1).
    assert (minted s1 = minted s0) as Hmm.
    { pose proof (body_counts uuidv4 JSON_parse cacheCallback
                              sendSetVariableRequest limit s0) as C0.
      pose proof (body_counts uuidv4 JSON_parse cacheCallback
                              sendSetVariableRequest limit s1) as C1.
      rewrite Hb in C0. rewrite Hb1 in C1. simpl in C0, C1.
      destruct C0 as [C0 _]. destruct C1 as [C1 _]. lia. }
    exists s0. conjs; auto; [|simpl in Hm; lia].
    intros i Hi. apply Hs1. lia.
  - destruct HI as (I & Hm & Hne). conjs; auto.
Qed.

Lemma thrown_counts (s0 fin : State) (e : Error) :
  Inv s0 -> body s0 = Throw e fin ->
  List.length (sent fin) = S (minted s0)
  /\ (List.length (retrieved fin) = minted s0
      \/ List.length (retrieved fin) = S (minted s0)).
Proof.
  intros I0 Hb.
  pose proof (body_counts uuidv4 JSON_parse cacheCallback
                          sendSetVariableRequest limit s0) as Hc.
  rewrite Hb in Hc. simpl in Hc. destruct Hc as [_ Hs].
  pose proof (Inv_sent_length _ _ _ _ _ _ I0) as Hm.
  pose proof (Inv_retrieved_length _ _ _ _ _ _ I0) as Hr.
  split; [rewrite Hs, length_app; simpl; lia|].
  destruct (body_Throw _ _ _ _ _ _ _ _ Hb) as (Hcause & _).
  destruct Hcause as [_ -> | _ -> | ? _ _ _ -> | ? _ _ _ _ _ ->];
    try rewrite length_app; simpl; lia.
Qed.

(** *** A rejected send *)

Lemma loop_send_rejected (k : nat) (e : Error) :
  (forall d n, sendSetVariableRequest (uuidv4 k) d n = RejectedWith e) ->
  forall fuel,
    let c := loop fuel start in
    (List.length (sent (stateOf c)) <= k + 1)%nat
    /\ ((k < List.length (sent (stateOf c)))%nat ->
        exists final, c = Thrown e final
                      /\ List.length (sent final) = (k + 1)%nat
                      /\ List.length (retrieved final) = k
                      /\ rejectedSetVariable final
                         = existsb (fun i => existsb isRejected (responseOf i))
                                   (seq 0 k)
                      /\ rebootSetVariable final
                         = existsb (fun i => existsb isRebootRequired (responseOf i))
                                   (seq 0 k))
    /\ ((k < fuel)%nat -> forall st, c <> Running st).
Proof.
  intros Hsend fuel c.
  pose proof (loop_Inv_served fuel) as H. fold c in H.
  assert (forall s, Inv s -> (forall i, (i < minted s)%nat -> served i) ->
                    (minted s <= k)%nat) as Hle.
  { intros s _ Hs. destruct (Nat.le_gt_cases (minted s) k) as [|Hgt]; [assumption|].
    destruct (Hs k Hgt) as [[c0 Hc0] _]. rewrite Hsend in Hc0. discriminate. }
  destruct c as [res fin|e' fin|fin]; simpl.
  - destruct H as (I & Hs & _). pose proof (Hle fin I Hs).
    rewrite (Inv_sent_length _ _ _ _ _ _ I). conjs; [lia | lia | discriminate].
  - destruct H as (s0 & I0 & Hs0 & Hne & Hb & Hm).
    pose proof (Hle s0 I0 Hs0) as Hk.
    destruct (thrown_counts s0 fin e' I0 Hb) as [Hl _].
    rewrite Hl. conjs; [lia | | discriminate].
    intros Hgt. assert (minted s0 = k) as Hk0 by lia.
    unfold loopBody in Hb. rewrite Hk0, Hsend in Hb.
    injection Hb as <- <-. simpl.
    pose proof (Inv_sent_length _ _ _ _ _ _ I0) as Hsl.
    pose proof (Inv_retrieved_length _ _ _ _ _ _ I0) as Hrl.
    destruct I0 as [_ _ _ _ _ Irej Ireb _].
    eexists. conjs; [reflexivity | | | |]; simpl.
    + rewrite length_app, Hsl. simpl. lia.
    + now rewrite Hrl.
    + now rewrite Irej, Hk0.
    + now rewrite Ireb, Hk0.
  - destruct H as (I & Hs & Hm & _). pose proof (Hle fin I Hs).
    rewrite (Inv_sent_length _ _ _ _ _ _ I). conjs; [lia | lia | intros; lia].
Qed.

(** *** A rejected read of the correlation store *)

Lemma loop_cache_rejected (k : nat) (e : Error) :
  cacheCallback (uuidv4 k) = RejectedWith e ->
  forall fuel,
    let c := loop fuel start in
    (List.length (sent (stateOf c)) <= k + 1)%nat
    /\ ((k < List.length (retrieved (stateOf c)))%nat ->
        exists final, c = Thrown e final
                      /\ List.length (sent final) = (k + 1)%nat)
    /\ ((k < fuel)%nat -> forall st, c <> Running st).
Proof.
  intros Hcache fuel c.
  pose proof (loop_Inv_served fuel) as H. fold c in H.
  assert (forall s, Inv s -> (minted s <= k)%nat) as Hle.
  { intros s [_ _ _ _ Ip _ _ _].
    destruct (Nat.le_gt_cases (minted s) k) as [|Hgt]; [assumption|].
    destruct (Ip k Hgt) as (text & Hc' & _). rewrite Hcache in Hc'. discriminate. }
  destruct c as [res fin|e' fin|fin]; simpl.
  - destruct H as (I & _). pose proof (Hle fin I).
    rewrite (Inv_sent_length _ _ _ _ _ _ I), (Inv_retrieved_length _ _ _ _ _ _ I).
    conjs; [lia | lia | discriminate].
  - destruct H as (s0 & I0 & _ & Hne & Hb & Hm).
    pose proof (Hle s0 I0) as Hk.
    destruct (thrown_counts s0 fin e' I0 Hb) as [Hl Hr].
    rewrite Hl. conjs; [lia | | discriminate].
    intros Hgt. assert (minted s0 = k) as Hk0 by lia.
    destruct (body_Throw _ _ _ _ _ _ _ _ Hb) as (Hcause & _).
    pose proof (Inv_retrieved_length _ _ _ _ _ _ I0) as Hrl.
    destruct Hcause as [_ Hret | Hc' _ | r' Hc' _ _ _ | text Hc' _ _ _ _ _];
      try (rewrite Hk0, Hcache in Hc');
      try discriminate.
    + rewrite Hret, Hrl in Hgt. lia.
    + injection Hc' as <-. exists fin. split; [reflexivity | lia].
  - destruct H as (I & _ & Hm & _). pose proof (Hle fin I).
    rewrite (Inv_sent_length _ _ _ _ _ _ I), (Inv_retrieved_length _ _ _ _ _ _ I).
    conjs; [lia | lia | intros; lia].
Qed.

(** *** A response that does not decode *)

Lemma loop_undecodable (k : nat) (text : string) :
  cacheCallback (uuidv4 k) = Fulfilled (Some text) ->
  truthyString text = true ->
  JSON_parse text = None ->
  bothSeenBefore k = false ->
  forall fuel,
    let c := loop fuel start in
    (List.length (sent (stateOf c)) <= k + 1)%nat
    /\ ((k < List.length (retrieved (stateOf c)))%nat ->
        exists final, c = Thrown SyntaxError final
                      /\ List.length (sent final) = (k + 1)%nat)
    /\ ((k < fuel)%nat -> forall st, c <> Running st).
Proof.
  intros Hcache Htruthy Hparse Hboth fuel c.
  pose proof (loop_Inv_served fuel) as H. fold c in H.
  assert (forall s, (forall i, (i < minted s)%nat -> served i) ->
                    (minted s <= k)%nat) as Hle.
  { intros s Hs. destruct (Nat.le_gt_cases (minted s) k) as [|Hgt]; [assumption|].
    destruct (Hs k Hgt) as [_ Hd].
    destruct (Hd Hboth) as (text' & response & Hc' & Hp').
    rewrite Hcache in Hc'. injection Hc' as <-. congruence. }
  destruct c as [res fin|e' fin|fin]; simpl.
  - destruct H as (I & Hs & _). pose proof (Hle fin Hs).
    rewrite (Inv_sent_length _ _ _ _ _ _ I), (Inv_retrieved_length _ _ _ _ _ _ I).
    conjs; [lia | lia | discriminate].
  - destruct H as (s0 & I0 & Hs0 & Hne & Hb & Hm).
    pose proof (Hle s0 Hs0) as Hk.
    destruct (thrown_counts s0 fin e' I0 Hb) as [Hl Hr].
    rewrite Hl. conjs; [lia | | discriminate].
    intros Hgt. assert (minted s0 = k) as Hk0 by lia.
    destruct (body_Throw _ _ _ _ _ _ _ _ Hb) as (Hcause & _).
    pose proof (Inv_retrieved_length _ _ _ _ _ _ I0) as Hrl.
    destruct Hcause as [_ Hret | Hc' _ | r' Hc' Hr' _ _ | text' _ _ _ _ -> _];
      try (rewrite Hk0, Hcache in Hc').
    + rewrite Hret, Hrl in Hgt. lia.
    + discriminate.
    + injection Hc' as <-. simpl in Hr'. congruence.
    + exists fin. split; [reflexivity | lia].
  - destruct H as (I & Hs & Hm & _). pose proof (Hle fin Hs).
    rewrite (Inv_sent_length _ _ _ _ _ _ I), (Inv_retrieved_length _ _ _ _ _ _ I).
    conjs; [lia | lia | intros; lia].
Qed.

(** *** A limit that covers the whole list *)

Lemma loop_covering :
  slice items limit None = [] -> items <> [] ->
  forall fuel, (0 < fuel)%nat ->
    let c := loop fuel start in
    (forall st, c <> Running st)
    /\ sent (stateOf c)
       = [{| correlationId := uuidv4 O; data := items; itemsPerMessage := limit |}].
Proof.
  intros Hcover Hne fuel Hfuel c.
  assert (forall k, remaining (S k) = []) as Hnil.
  { induction k as [|k IH]; rewrite remaining_S; [exact Hcover|].
    rewrite IH. unfold slice. now rewrite skipn_nil, firstn_nil. }
  pose proof (loop_trace fuel) as (Hs & _ & _ & He & _). fold c in Hs, He.
  pose proof (loop_Inv uuidv4 JSON_parse cacheCallback sendSetVariableRequest
                       limit items fuel start
                       (Inv_initial uuidv4 JSON_parse cacheCallback limit items))
    as HI.
  fold c in HI.
  assert (List.length (sent (stateOf c)) <= 1)%nat as Hle.
  { destruct (List.length (sent (stateOf c))) as [|[|m]]; try lia.
    exfalso. apply (He 1%nat); [lia | apply Hnil]. }
  assert (List.length (sent (stateOf c)) <> O /\ forall st, c <> Running st)
    as [Hnz Hend].
  { destruct c as [res fin|e fin|fin]; cbn [stateOf] in *.
    - destruct HI as (I & Hd & _). split; [|discriminate].
      rewrite (Inv_sent_length _ _ _ _ _ _ I).
      destruct I as [_ Id _ _ _ _ _ _]. intros Hz. rewrite Hz in Id.
      simpl in Id. congruence.
    - destruct HI as (s0 & I0 & _ & Hb & _). split; [|discriminate].
      destruct (thrown_counts s0 fin e I0 Hb) as [Hl _]. lia.
    - destruct HI as (I & Hm & Hd). exfalso.
      rewrite (Inv_sent_length _ _ _ _ _ _ I) in Hle.
      destruct I as [_ Id _ _ _ _ _ _].
      destruct (minted fin) as [|[|m]] eqn:Em; try lia.
      rewrite Id, Hnil in Hd. contradiction. }
  split; [exact Hend|].
  rewrite Hs. replace (List.length (sent (stateOf c))) with 1%nat by lia.
  reflexivity.
Qed.

(** *** A positive limit: the run ends, whatever the callbacks do *)

Lemma loop_positive_bound (L : nat) :
  ToIntegerOrInfinity limit = Int (Z.of_nat L) -> (0 < L)%nat ->
  forall fuel,
    let c := loop fuel start in
    (List.length (sent (stateOf c)) <= ceilDiv (List.length items) L)%nat
    /\ ((ceilDiv (List.length items) L <= fuel)%nat -> forall st, c <> Running st).
Proof.
  intros HL Hpos fuel c.
  pose proof (loop_trace fuel) as (_ & _ & _ & He & _). fold c in He.
  assert (forall i, remaining i <> [] ->
                    (i < ceilDiv (List.length items) L)%nat) as Hlt.
  { intros i Hi.
    destruct (Nat.le_gt_cases (ceilDiv (List.length items) L) i) as [Hle|];
      [|assumption].
    exfalso. apply Hi.
    rewrite (remaining_positive limit items L HL Hpos).
    apply skipn_nil_iff. now apply ceilDiv_le. }
  split.
  - destruct (List.length (sent (stateOf c))) as [|m] eqn:Em; [lia|].
    specialize (He m ltac:(lia)). apply Hlt in He. lia.
  - intros Hfuel st Hrun.
    pose proof (loop_Inv uuidv4 JSON_parse cacheCallback sendSetVariableRequest
                         limit items fuel start
                         (Inv_initial uuidv4 JSON_parse cacheCallback limit items))
      as HI.
    fold c in HI. rewrite Hrun in HI. destruct HI as (I & Hm & Hd).
    destruct I as [_ Id _ _ _ _ _ _]. rewrite Id in Hd. apply Hlt in Hd.
    simpl in Hm. lia.
Qed.

(** *** Draining: once both flags are set the content of a response no
    longer matters *)

Lemma body_served (st : State) :
  Inv st -> served (minted st) -> present (minted st) ->
  exists st', body st = Continue st'.
Proof.
  intros [_ Id _ _ _ Irej Ireb _] [[c Hs] Hdec] (text & Hc & Ht).
  unfold loopBody. rewrite Id, Hs, Hc. simpl. rewrite Ht.
  destruct (rejectedSetVariable st && rebootSetVariable st) eqn:Hboth.
  - eexists. reflexivity.
  - destruct Hdec as (text' & response & Hc' & Hp).
    { unfold Run.bothSeenBefore. now rewrite <- Irej, <- Ireb. }
    rewrite Hc in Hc'. injection Hc' as <-. rewrite Hp.
    eexists. reflexivity.
Qed.

Lemma loop_returns_served (L : nat) :
  ToIntegerOrInfinity limit = Int (Z.of_nat L) -> (0 < L)%nat ->
  (forall k, remaining k <> [] -> served k /\ present k) ->
  forall fuel st,
    Inv st -> (List.length (setVariableData st) <= fuel * L)%nat ->
    exists r final, loop fuel st = Returned r final.
Proof.
  intros HL Hpos Hans.
  induction fuel as [|fuel IH]; intros st I Hlen; simpl;
    destruct (setVariableData st) as [|x rest] eqn:E;
    try (eexists; eexists; reflexivity).
  - simpl in Hlen. lia.
  - assert (setVariableData st <> []) as Hne by congruence.
    assert (served (minted st) /\ present (minted st)) as [Hs Hp].
    { apply Hans. destruct I as [_ Id _ _ _ _ _ _]. now rewrite <- Id. }
    destruct (body_served st I Hs Hp) as [st' Hb]. rewrite Hb.
    destruct (body_Continue_Inv _ _ _ _ _ _ _ _ I Hne Hb) as [I' _].
    apply IH; [assumption|].
    destruct (body_Continue _ _ _ _ _ _ _ Hb) as (_ & _ & Hd & _).
    rewrite Hd, (slice_from_positive _ _ (Z.of_nat L)) by (auto; lia).
    rewrite length_skipn, Nat2Z.id, E. simpl List.length in *. lia.
Qed.

Lemma existsb_seq_mono (f : nat -> bool) (a b : nat) :
  (a <= b)%nat -> existsb f (seq 0 a) = true -> existsb f (seq 0 b) = true.
Proof.
  intros Hle Ha. apply existsb_exists in Ha. destruct Ha as (x & Hx & Hf).
  apply existsb_exists. exists x. split; [|assumption].
  apply in_seq in Hx. apply in_seq. lia.
Qed.

Lemma run_drains (L : nat) :
  ToIntegerOrInfinity limit = Int (Z.of_nat L) -> (0 < L)%nat ->
  (forall k, (k < ceilDiv (List.length items) L)%nat -> served k /\ present k) ->
  forall fuel, (ceilDiv (List.length items) L <= fuel)%nat ->
  exists final,
    loop fuel start
    = Returned (rejectedSetVariable final, rebootSetVariable final) final
    /\ List.length (sent final) = ceilDiv (List.length items) L
    /\ (forall k, (k <= ceilDiv (List.length items) L)%nat ->
                  bothSeenBefore k = true ->
                  rejectedSetVariable final = true
                  /\ rebootSetVariable final = true).
Proof.
  intros HL Hpos Hans fuel Hfuel.
  assert (forall k, remaining k <> [] -> served k /\ present k) as Hans'.
  { intros k Hk. apply Hans.
    destruct (Nat.le_gt_cases (ceilDiv (List.length items) L) k) as [Hle|];
      [|assumption].
    exfalso. apply Hk. rewrite (remaining_positive limit items L HL Hpos).
    apply skipn_nil_iff. now apply ceilDiv_le. }
  destruct (loop_returns_served L HL Hpos Hans' fuel start
              (Inv_initial uuidv4 JSON_parse cacheCallback limit items))
    as (r & final & Hrun).
  { simpl. now apply ceilDiv_le. }
  pose proof (loop_Inv uuidv4 JSON_parse cacheCallback sendSetVariableRequest
                       limit items fuel start
                       (Inv_initial uuidv4 JSON_parse cacheCallback limit items))
    as HI.
  rewrite Hrun in HI. destruct HI as (I & Hnil & -> & _).
  pose proof (returned_count uuidv4 JSON_parse cacheCallback limit items
                             L final HL Hpos I Hnil) as Hcount.
  exists final. conjs; [exact Hrun | |].
  - now rewrite (Inv_sent_length _ _ _ _ _ _ I).
  - intros k Hk Hboth. destruct I as [_ _ _ _ _ Irej Ireb _].
    unfold Run.bothSeenBefore in Hboth. apply andb_prop in Hboth.
    destruct Hboth as [H1 H2]. rewrite Irej, Ireb, Hcount.
    split; now apply (existsb_seq_mono _ k).
Qed.

End RunFacts.

(** ** Further properties of [executeSetVariablesAfterBoot] *)

(** X1.  A discovered limit whose integer value is zero or negative (also a
    fraction below 1, or -Infinity) never empties a non-empty list: no run
    returns, the send callback is never handed an empty list, and while the
    chunks are answered the run is still looping after any number of
    iterations. *)
Theorem X1_nonpositive_limit_never_returns :
  forall (repo : IDeviceModelRepository) (uuidv4 : nat -> string)
         (JSON_parse : string -> option SetVariablesResponse)
         (station : string)
         (cacheCallback : string -> Promise (option string))
         (sendSetVariableRequest :
            string -> list SetVariableDataType -> number ->
            Promise IMessageConfirmation)
         (limit : number) (fuel : nat),
    let items := readAllSetVariableByStationId repo station in
    let run :=
      DeviceModelService.executeSetVariablesAfterBoot
        repo uuidv4 JSON_parse station cacheCallback sendSetVariableRequest in
    items <> [] ->
    DeviceModelService.getItemsPerMessageSetVariablesByStationId repo station
    = Fulfilled (Some limit) ->
    (exists z, ToIntegerOrInfinity limit = Int z /\ z <= 0)
    \/ ToIntegerOrInfinity limit = MinusInf ->
    (forall result final, run fuel <> Returned result final)
    /\ Forall (fun d => DeviceModelService.data d <> [])
              (DeviceModelService.sent (stateOf (run fuel)))
    /\ ((forall k, (k < fuel)%nat ->
                   Run.answered uuidv4 JSON_parse cacheCallback
                                sendSetVariableRequest limit items k) ->
        exists st, run fuel = Running st
                   /\ List.length (DeviceModelService.sent st) = fuel).
Proof.
  intros repo uuidv4 JSON_parse station cacheCallback sendSetVariableRequest
         limit fuel items run Hne Hlimit Hnonpos.
  unfold run.
  rewrite (execute_discovered repo uuidv4 JSON_parse station cacheCallback
                              sendSetVariableRequest limit fuel Hlimit).
  fold items.
  pose proof (remaining_nonpositive limit items Hne Hnonpos) as Hrem.
  pose proof (loop_Inv uuidv4 JSON_parse cacheCallback sendSetVariableRequest
                       limit items fuel (DeviceModelService.initialState items)
                       (Inv_initial uuidv4 JSON_parse cacheCallback limit items))
    as HI.
  pose proof (loop_trace uuidv4 JSON_parse cacheCallback sendSetVariableRequest
                         limit items fuel) as (Hs & _ & _ & _ & _).
  assert (forall result final,
            DeviceModelService.whileLoop
              uuidv4 JSON_parse cacheCallback sendSetVariableRequest limit fuel
              (DeviceModelService.initialState items)
            <> Returned result final) as Hnoret.
  { intros result final Hrun. rewrite Hrun in HI.
    destruct HI as ([_ Id _ _ _ _ _ _] & Hnil & _).
    rewrite Id in Hnil. exact (Hrem _ Hnil). }
  split; [exact Hnoret|]. split.
  - rewrite Hs. apply Forall_forall. intros d Hd.
    apply in_map_iff in Hd. destruct Hd as (i & <- & _). apply Hrem.
  - intros Hans.
    pose proof (loop_not_Thrown uuidv4 JSON_parse cacheCallback
                                sendSetVariableRequest limit items fuel Hans)
      as Hnothrow.
    destruct (DeviceModelService.whileLoop _ _ _ _ _ fuel _)
      as [res fin|e fin|fin].
    + exfalso. now apply (Hnoret res fin).
    + exfalso. now apply (Hnothrow e fin).
    + destruct HI as (I & Hm & _). exists fin. split; [reflexivity|].
      rewrite (Inv_sent_length _ _ _ _ _ _ I). simpl in Hm. lia.
Qed.

Lemma X1_nonpositive_limit_never_returns_witness :
  let run :=
    DeviceModelService.executeSetVariablesAfterBoot
      (Sample.repository [{| value := "-1" |}] (Sample.itemList 3))
      Sample.uuidv4 Sample.JSON_parse "station-1"
      (Sample.cacheAlways "A") Sample.send in
  exists st, run 6%nat = Running st
             /\ List.length (DeviceModelService.sent st) = 6%nat.
Proof.
  refine (proj2 (proj2
            (X1_nonpositive_limit_never_returns
               (Sample.repository [{| value := "-1" |}] (Sample.itemList 3))
               Sample.uuidv4 Sample.JSON_parse "station-1"
               (Sample.cacheAlways "A") Sample.send (ofZ (-1)) 6%nat
               _ _ _)) _).
  - discriminate.
  - reflexivity.
  - left. exists (-1). split; [reflexivity | lia].
  - intros k _. split.
    + eexists. reflexivity.
    + exists "A"%string. eexists. repeat split; reflexivity.
Defined.

(** X2.  Whatever the limit and the callbacks, every list the send callback
    is handed is a non-empty suffix of the list read from the device model:
    the loop never sends an empty request and never reorders, repeats out of
    order or invents items. *)
Theorem X2_dispatched_lists_are_nonempty_suffixes :
  forall (repo : IDeviceModelRepository) (uuidv4 : nat -> string)
         (JSON_parse : string -> option SetVariablesResponse)
         (station : string)
         (cacheCallback : string -> Promise (option string))
         (sendSetVariableRequest :
            string -> list SetVariableDataType -> number ->
            Promise IMessageConfirmation)
         (fuel : nat),
    Forall (fun d =>
              DeviceModelService.data d <> []
              /\ exists n, DeviceModelService.data d
                           = skipn n (readAllSetVariableByStationId repo station))
           (DeviceModelService.sent
              (stateOf (DeviceModelService.executeSetVariablesAfterBoot
                          repo uuidv4 JSON_parse station cacheCallback
                          sendSetVariableRequest fuel))).
Proof.
  intros repo uuidv4 JSON_parse station cacheCallback sendSetVariableRequest fuel.
  destruct (execute_loop repo uuidv4 JSON_parse station cacheCallback
                         sendSetVariableRequest) as [limit Hrun].
  rewrite Hrun.
  pose proof (loop_trace uuidv4 JSON_parse cacheCallback sendSetVariableRequest
                         limit (readAllSetVariableByStationId repo station) fuel)
    as (Hs & _ & _ & He & _).
  rewrite Hs. apply Forall_forall. intros d Hd.
  apply in_map_iff in Hd. destruct Hd as (i & <- & Hi).
  apply in_seq in Hi. simpl. split.
  - apply He. lia.
  - apply remaining_suffix.
Qed.

(** X3.  Dispatch is strictly one at a time: in every state a run can be
    observed in, the correlation ids handed to [cacheCallback] are, in
    order, the ids of the first dispatches, and at most one dispatch is
    still without a retrieved response. *)
Theorem X3_one_response_per_dispatch_in_order :
  forall (repo : IDeviceModelRepository) (uuidv4 : nat -> string)
         (JSON_parse : string -> option SetVariablesResponse)
         (station : string)
         (cacheCallback : string -> Promise (option string))
         (sendSetVariableRequest :
            string -> list SetVariableDataType -> number ->
            Promise IMessageConfirmation)
         (fuel : nat),
    let st :=
      stateOf (DeviceModelService.executeSetVariablesAfterBoot
                 repo uuidv4 JSON_parse station cacheCallback
                 sendSetVariableRequest fuel) in
    DeviceModelService.retrieved st
    = map DeviceModelService.correlationId
          (firstn (List.length (DeviceModelService.retrieved st))
                  (DeviceModelService.sent st))
    /\ (List.length (DeviceModelService.retrieved st)
        <= List.length (DeviceModelService.sent st)
        <= List.length (DeviceModelService.retrieved st) + 1)%nat.
Proof.
  intros repo uuidv4 JSON_parse station cacheCallback sendSetVariableRequest fuel.
  destruct (execute_loop repo uuidv4 JSON_parse station cacheCallback
                         sendSetVariableRequest) as [limit Hrun].
  rewrite Hrun.
  pose proof (loop_trace uuidv4 JSON_parse cacheCallback sendSetVariableRequest
                         limit (readAllSetVariableByStationId repo station) fuel)
    as (Hs & Hr & Hlen & _ & _).
  cbv zeta. split; [|exact Hlen].
  rewrite Hs at 1. rewrite firstn_map_seq by lia.
  rewrite map_map. exact Hr.
Qed.

Lemma Sample_uuidv4_injective (a b : nat) :
  Sample.uuidv4 a = Sample.uuidv4 b -> a = b.
Proof.
  unfold Sample.uuidv4, Sample.decimal. intros H. simpl in H.
  injection H as H.
  apply (f_equal NilEmpty.uint_of_string) in H.
  rewrite !NilEmpty.usu in H. injection H as H.
  now apply DecimalNat.Unsigned.to_uint_inj.
Qed.

(** X4.  The k-th dispatch carries the k-th minted correlation id, so when
    [uuidv4] never repeats a value no correlation id is used for two
    chunks. *)
Theorem X4_correlation_ids_distinct :
  forall (repo : IDeviceModelRepository) (uuidv4 : nat -> string)
         (JSON_parse : string -> option SetVariablesResponse)
         (station : string)
         (cacheCallback : string -> Promise (option string))
         (sendSetVariableRequest :
            string -> list SetVariableDataType -> number ->
            Promise IMessageConfirmation)
         (fuel : nat),
    let st :=
      stateOf (DeviceModelService.executeSetVariablesAfterBoot
                 repo uuidv4 JSON_parse station cacheCallback
                 sendSetVariableRequest fuel) in
    (forall a b, uuidv4 a = uuidv4 b -> a = b) ->
    map DeviceModelService.correlationId (DeviceModelService.sent st)
    = map uuidv4 (seq 0 (List.length (DeviceModelService.sent st)))
    /\ NoDup (map DeviceModelService.correlationId (DeviceModelService.sent st)).
Proof.
  intros repo uuidv4 JSON_parse station cacheCallback sendSetVariableRequest
         fuel st Hinj.
  destruct (execute_loop repo uuidv4 JSON_parse station cacheCallback
                         sendSetVariableRequest) as [limit Hrun].
  unfold st. rewrite Hrun.
  pose proof (loop_trace uuidv4 JSON_parse cacheCallback sendSetVariableRequest
                         limit (readAllSetVariableByStationId repo station) fuel)
    as (Hs & _).
  assert (map DeviceModelService.correlationId
              (DeviceModelService.sent
                 (stateOf (DeviceModelService.whileLoop
                             uuidv4 JSON_parse cacheCallback
                             sendSetVariableRequest limit fuel
                             (DeviceModelService.initialState
                                (readAllSetVariableByStationId repo station)))))
          = map uuidv4
                (seq 0 (List.length
                          (DeviceModelService.sent
                             (stateOf (DeviceModelService.whileLoop
                                         uuidv4 JSON_parse cacheCallback
                                         sendSetVariableRequest limit fuel
                                         (DeviceModelService.initialState
                                            (readAllSetVariableByStationId
                                               repo station)))))))) as Hids.
  { rewrite Hs at 1. now rewrite map_map. }
  split; [exact Hids|].
  rewrite Hids. apply NoDup_map_injective; [exact Hinj | apply seq_NoDup].
Qed.

Lemma X4_correlation_ids_distinct_witness :
  NoDup (map DeviceModelService.correlationId
             (DeviceModelService.sent
                (stateOf (DeviceModelService.executeSetVariablesAfterBoot
                            (Sample.repository [{| value := "2" |}]
                                               (Sample.itemList 5))
                            Sample.uuidv4 Sample.JSON_parse "station-1"
                            (Sample.cacheAlways "A") Sample.send 3)))).
Proof.
  refine (proj2
            (X4_correlation_ids_distinct
               (Sample.repository [{| value := "2" |}] (Sample.itemList 5))
               Sample.uuidv4 Sample.JSON_parse "station-1"
               (Sample.cacheAlways "A") Sample.send 3%nat _)).
  exact Sample_uuidv4_injective.
Defined.

(** X5.  If the send callback rejects chunk [k] with an error, at most
    [k + 1] chunks are ever dispatched; a run that dispatches chunk [k]
    throws that very error without consulting [cacheCallback] for it, the
    flags folded from the [k] earlier responses are not returned, and the
    run is over within [k + 1] iterations. *)
Theorem X5_rejected_send_propagates :
  forall (repo : IDeviceModelRepository) (uuidv4 : nat -> string)
         (JSON_parse : string -> option SetVariablesResponse)
         (station : string)
         (cacheCallback : string -> Promise (option string))
         (sendSetVariableRequest :
            string -> list SetVariableDataType -> number ->
            Promise IMessageConfirmation)
         (k : nat) (e : Error) (fuel : nat),
    let run :=
      DeviceModelService.executeSetVariablesAfterBoot
        repo uuidv4 JSON_parse station cacheCallback sendSetVariableRequest in
    (forall d n, sendSetVariableRequest (uuidv4 k) d n = RejectedWith e) ->
    (List.length (DeviceModelService.sent (stateOf (run fuel))) <= k + 1)%nat
    /\ ((k < List.length (DeviceModelService.sent (stateOf (run fuel))))%nat ->
        exists final,
          run fuel = Thrown e final
          /\ List.length (DeviceModelService.sent final) = (k + 1)%nat
          /\ List.length (DeviceModelService.retrieved final) = k)
    /\ ((k < fuel)%nat -> forall st, run fuel <> Running st).
Proof.
  intros repo uuidv4 JSON_parse station cacheCallback sendSetVariableRequest
         k e fuel run Hsend.
  destruct (execute_loop repo uuidv4 JSON_parse station cacheCallback
                         sendSetVariableRequest) as [limit Hrun].
  unfold run. rewrite Hrun.
  destruct (loop_send_rejected uuidv4 JSON_parse cacheCallback
                               sendSetVariableRequest limit
                               (readAllSetVariableByStationId repo station)
                               k e Hsend fuel) as (Hle & Hthrow & Hend).
  split; [exact Hle|]. split; [|exact Hend].
  intros Hk. destruct (Hthrow Hk) as (final & H1 & H2 & H3 & _).
  exists final. auto.
Qed.

Lemma X5_rejected_send_propagates_witness :
  let run :=
    DeviceModelService.executeSetVariablesAfterBoot
      (Sample.repository [{| value := "1" |}] (Sample.itemList 3))
      Sample.uuidv4 Sample.JSON_parse "station-1"
      (Sample.cacheAlways "R") (Sample2.sendFailingAt "id-1") in
  exists final,
    run 3%nat = Thrown (CallbackError "send failed") final
    /\ List.length (DeviceModelService.sent final) = 2%nat
    /\ List.length (DeviceModelService.retrieved final) = 1%nat.
Proof.
  refine (proj1 (proj2
            (X5_rejected_send_propagates
               (Sample.repository [{| value := "1" |}] (Sample.itemList 3))
               Sample.uuidv4 Sample.JSON_parse "station-1"
               (Sample.cacheAlways "R") (Sample2.sendFailingAt "id-1")
               1%nat (CallbackError "send failed") 3%nat _)) _).
  - intros d n. reflexivity.
  - vm_compute. lia.
Defined.

(** X6.  If [cacheCallback] rejects the read for chunk [k] with an error, at
    most [k + 1] chunks are ever dispatched, a run that asks for that
    response throws that very error after [k + 1] dispatches, and the run is
    over within [k + 1] iterations. *)
Theorem X6_rejected_cache_read_propagates :
  forall (repo : IDeviceModelRepository) (uuidv4 : nat -> string)
         (JSON_parse : string -> option SetVariablesResponse)
         (station : string)
         (cacheCallback : string -> Promise (option string))
         (sendSetVariableRequest :
            string -> list SetVariableDataType -> number ->
            Promise IMessageConfirmation)
         (k : nat) (e : Error) (fuel : nat),
    let run :=
      DeviceModelService.executeSetVariablesAfterBoot
        repo uuidv4 JSON_parse station cacheCallback sendSetVariableRequest in
    cacheCallback (uuidv4 k) = RejectedWith e ->
    (List.length (DeviceModelService.sent (stateOf (run fuel))) <= k + 1)%nat
    /\ ((k < List.length (DeviceModelService.retrieved (stateOf (run fuel))))%nat ->
        exists final,
          run fuel = Thrown e final
          /\ List.length (DeviceModelService.sent final) = (k + 1)%nat)
    /\ ((k < fuel)%nat -> forall st, run fuel <> Running st).
Proof.
  intros repo uuidv4 JSON_parse station cacheCallback sendSetVariableRequest
         k e fuel run Hcache.
  destruct (execute_loop repo uuidv4 JSON_parse station cacheCallback
                         sendSetVariableRequest) as [limit Hrun].
  unfold run. rewrite Hrun.
  exact (loop_cache_rejected uuidv4 JSON_parse cacheCallback
                             sendSetVariableRequest limit
                             (readAllSetVariableByStationId repo station)
                             k e Hcache fuel).
Qed.

Lemma X6_rejected_cache_read_propagates_witness :
  let run :=
    DeviceModelService.executeSetVariablesAfterBoot
      (Sample.repository [{| value := "1" |}] (Sample.itemList 3))
      Sample.uuidv4 Sample.JSON_parse "station-1"
      (Sample2.cacheFailingAt "id-1" "A") Sample.send in
  exists final,
    run 3%nat = Thrown (CallbackError "cache failed") final
    /\ List.length (DeviceModelService.sent final) = 2%nat.
Proof.
  refine (proj1 (proj2
            (X6_rejected_cache_read_propagates
               (Sample.repository [{| value := "1" |}] (Sample.itemList 3))
               Sample.uuidv4 Sample.JSON_parse "station-1"
               (Sample2.cacheFailingAt "id-1" "A") Sample.send
               1%nat (CallbackError "cache failed") 3%nat _)) _).
  - reflexivity.
  - vm_compute. lia.
Defined.

(** X7.  If the response to chunk [k] is a non-empty text that does not
    decode, and the earlier responses have not set both flags, at most
    [k + 1] chunks are ever dispatched and a run that retrieves that
    response throws the decoding error after [k + 1] dispatches. *)
Theorem X7_undecodable_response_throws :
  forall (repo : IDeviceModelRepository) (uuidv4 : nat -> string)
         (JSON_parse : string -> option SetVariablesResponse)
         (station : string)
         (cacheCallback : string -> Promise (option string))
         (sendSetVariableRequest :
            string -> list SetVariableDataType -> number ->
            Promise IMessageConfirmation)
         (k : nat) (text : string) (fuel : nat),
    let run :=
      DeviceModelService.executeSetVariablesAfterBoot
        repo uuidv4 JSON_parse station cacheCallback sendSetVariableRequest in
    cacheCallback (uuidv4 k) = Fulfilled (Some text) ->
    truthyString text = true ->
    JSON_parse text = None ->
    Run.bothSeenBefore uuidv4 JSON_parse cacheCallback k = false ->
    (List.length (DeviceModelService.sent (stateOf (run fuel))) <= k + 1)%nat
    /\ ((k < List.length (DeviceModelService.retrieved (stateOf (run fuel))))%nat ->
        exists final,
          run fuel = Thrown SyntaxError final
          /\ List.length (DeviceModelService.sent final) = (k + 1)%nat)
    /\ ((k < fuel)%nat -> forall st, run fuel <> Running st).
Proof.
  intros repo uuidv4 JSON_parse station cacheCallback sendSetVariableRequest
         k text fuel run Hcache Htruthy Hparse Hboth.
  destruct (execute_loop repo uuidv4 JSON_parse station cacheCallback
                         sendSetVariableRequest) as [limit Hrun].
  unfold run. rewrite Hrun.
  exact (loop_undecodable uuidv4 JSON_parse cacheCallback
                          sendSetVariableRequest limit
                          (readAllSetVariableByStationId repo station)
                          k text Hcache Htruthy Hparse Hboth fuel).
Qed.

Lemma X7_undecodable_response_throws_witness :
  let run :=
    DeviceModelService.executeSetVariablesAfterBoot
      (Sample.repository [{| value := "1" |}] (Sample.itemList 3))
      Sample.uuidv4 Sample.JSON_parse "station-1"
      (Sample.cache [Some "R"%string; Some "?"%string; Some "A"%string])
      Sample.send in
  exists final,
    run 3%nat = Thrown SyntaxError final
    /\ List.length (DeviceModelService.sent final) = 2%nat.
Proof.
  refine (proj1 (proj2
            (X7_undecodable_response_throws
               (Sample.repository [{| value := "1" |}] (Sample.itemList 3))
               Sample.uuidv4 Sample.JSON_parse "station-1"
               (Sample.cache [Some "R"%string; Some "?"%string; Some "A"%string])
               Sample.send 1%nat "?"%string 3%nat _ _ _ _)) _).
  - reflexivity.
  - reflexivity.
  - reflexivity.
  - reflexivity.
  - vm_compute. lia.
Defined.

Lemma existsb_nested_false {A : Type} (p : A -> bool) (results : nat -> list A)
      (count : nat) :
  (forall k x, (k < count)%nat -> In x (results k) -> p x = false) ->
  existsb (fun k => existsb p (results k)) (seq 0 count) = false.
Proof.
  intros H. apply not_true_is_false. intros Hex.
  apply existsb_exists in Hex. destruct Hex as (k & Hk & Hin).
  apply existsb_exists in Hin. destruct Hin as (x & Hx & Hp).
  apply in_seq in Hk. rewrite (H k x) in Hp by (auto; lia). discriminate.
Qed.

(** X8.  Only the statuses Rejected and RebootRequired reach the result: a
    run whose chunks report none of the first returns false for the first
    flag, and likewise for the second, whatever other statuses
    (UnknownComponent, UnknownVariable, NotSupportedAttributeType, Accepted)
    the responses carry. *)
Theorem X8_other_statuses_set_no_flag :
  forall (repo : IDeviceModelRepository) (uuidv4 : nat -> string)
         (JSON_parse : string -> option SetVariablesResponse)
         (station : string)
         (cacheCallback : string -> Promise (option string))
         (sendSetVariableRequest :
            string -> list SetVariableDataType -> number ->
            Promise IMessageConfirmation)
         (fuel : nat) (anyRejected anyRebootRequired : bool)
         (final : DeviceModelService.State),
    let results := Run.responseOf uuidv4 JSON_parse cacheCallback in
    let count := List.length (DeviceModelService.sent final) in
    DeviceModelService.executeSetVariablesAfterBoot
      repo uuidv4 JSON_parse station cacheCallback sendSetVariableRequest fuel
    = Returned (anyRejected, anyRebootRequired) final ->
    ((forall k result, (k < count)%nat -> In result (results k) ->
                       attributeStatus result <> Rejected) ->
     anyRejected = false)
    /\ ((forall k result, (k < count)%nat -> In result (results k) ->
                          attributeStatus result <> RebootRequired) ->
        anyRebootRequired = false).
Proof.
  intros repo uuidv4 JSON_parse station cacheCallback sendSetVariableRequest
         fuel anyRejected anyRebootRequired final results count Hret.
  destruct (execute_loop repo uuidv4 JSON_parse station cacheCallback
                         sendSetVariableRequest) as [limit Hrun].
  rewrite Hrun in Hret.
  pose proof (loop_Inv uuidv4 JSON_parse cacheCallback sendSetVariableRequest
                       limit (readAllSetVariableByStationId repo station) fuel
                       (DeviceModelService.initialState
                          (readAllSetVariableByStationId repo station))
                       (Inv_initial uuidv4 JSON_parse cacheCallback limit _))
    as HI.
  rewrite Hret in HI. destruct HI as (I & _ & Hflags & _).
  injection Hflags as -> ->.
  pose proof (Inv_sent_length _ _ _ _ _ _ I) as Hcount. fold count in Hcount.
  destruct I as [_ _ _ _ _ Irej Ireb _].
  rewrite Irej, Ireb, <- Hcount.
  split; intros Hnone; apply existsb_nested_false; intros k x Hk Hx;
    specialize (Hnone k x Hk Hx);
    unfold isRejected, isRebootRequired;
    destruct (attributeStatus x); try reflexivity; contradiction.
Qed.

Lemma X8_other_statuses_set_no_flag_witness :
  let run :=
    DeviceModelService.executeSetVariablesAfterBoot
      (Sample.repository [{| value := "2" |}] (Sample.itemList 4))
      Sample.uuidv4 Sample2.JSON_parse "station-1"
      (Sample.cache [Some "CV"%string; Some "NB"%string]) Sample.send in
  run 2%nat = Returned (false, true) (stateOf (run 2%nat))
  /\ false = false.
Proof.
  intros run.
  assert (run 2%nat = Returned (false, true) (stateOf (run 2%nat))) as Hret
    by (vm_compute; reflexivity).
  split; [exact Hret|].
  refine (proj1
            (X8_other_statuses_set_no_flag
               (Sample.repository [{| value := "2" |}] (Sample.itemList 4))
               Sample.uuidv4 Sample2.JSON_parse "station-1"
               (Sample.cache [Some "CV"%string; Some "NB"%string]) Sample.send
               2%nat false true (stateOf (run 2%nat)) Hret) _).
  intros k result Hk Hin.
  assert (k = 0 \/ k = 1)%nat as [-> | ->] by (vm_compute in Hk; lia);
    vm_compute in Hin;
    repeat (destruct Hin as [<- | Hin]; [discriminate|]); contradiction.
Defined.

(** X9.  A discovered limit whose integer value is at least the number of
    items (or +Infinity) acts like no limit: a non-empty list is dispatched
    exactly once, the chunk holding every item, and the run has ended after
    one iteration. *)
Theorem X9_covering_limit_single_chunk :
  forall (repo : IDeviceModelRepository) (uuidv4 : nat -> string)
         (JSON_parse : string -> option SetVariablesResponse)
         (station : string)
         (cacheCallback : string -> Promise (option string))
         (sendSetVariableRequest :
            string -> list SetVariableDataType -> number ->
            Promise IMessageConfirmation)
         (limit : number) (fuel : nat),
    let items := readAllSetVariableByStationId repo station in
    let run :=
      DeviceModelService.executeSetVariablesAfterBoot
        repo uuidv4 JSON_parse station cacheCallback sendSetVariableRequest in
    items <> [] ->
    DeviceModelService.getItemsPerMessageSetVariablesByStationId repo station
    = Fulfilled (Some limit) ->
    (exists z, ToIntegerOrInfinity limit = Int z
               /\ Z.of_nat (List.length items) <= z)
    \/ ToIntegerOrInfinity limit = PlusInf ->
    (0 < fuel)%nat ->
    (forall st, run fuel <> Running st)
    /\ DeviceModelService.sent (stateOf (run fuel))
       = [{| DeviceModelService.correlationId := uuidv4 O;
             DeviceModelService.data := items;
             DeviceModelService.itemsPerMessage := limit |}]
    /\ map DeviceModelService.chunkOf
           (DeviceModelService.sent (stateOf (run fuel))) = [items].
Proof.
  intros repo uuidv4 JSON_parse station cacheCallback sendSetVariableRequest
         limit fuel items run Hne Hlimit Hcover Hfuel.
  unfold run.
  rewrite (execute_discovered repo uuidv4 JSON_parse station cacheCallback
                              sendSetVariableRequest limit fuel Hlimit).
  fold items.
  destruct (slice_from_covering items limit Hcover) as [Hnil Hwhole].
  destruct (loop_covering uuidv4 JSON_parse cacheCallback sendSetVariableRequest
                          limit items Hnil Hne fuel Hfuel) as [Hend Hsent].
  split; [exact Hend|]. rewrite Hsent. split; [reflexivity|].
  cbn [map]. unfold DeviceModelService.chunkOf.
  cbn [DeviceModelService.data DeviceModelService.itemsPerMessage].
  now rewrite Hwhole.
Qed.

Lemma X9_covering_limit_single_chunk_witness :
  let run :=
    DeviceModelService.executeSetVariablesAfterBoot
      (Sample.repository [{| value := "Infinity" |}] (Sample.itemList 3))
      Sample.uuidv4 Sample.JSON_parse "station-1"
      (Sample.cacheAlways "A") Sample.send in
  (forall st, run 1%nat <> Running st)
  /\ DeviceModelService.sent (stateOf (run 1%nat))
     = [{| DeviceModelService.correlationId := Sample.uuidv4 O;
           DeviceModelService.data := Sample.itemList 3;
           DeviceModelService.itemsPerMessage := PosInfinity |}]
  /\ map DeviceModelService.chunkOf
         (DeviceModelService.sent (stateOf (run 1%nat)))
     = [Sample.itemList 3].
Proof.
  apply (X9_covering_limit_single_chunk
           (Sample.repository [{| value := "Infinity" |}] (Sample.itemList 3))
           Sample.uuidv4 Sample.JSON_parse "station-1"
           (Sample.cacheAlways "A") Sample.send PosInfinity 1%nat).
  - discriminate.
  - reflexivity.
  - right. reflexivity.
  - lia.
Defined.

(** X10.  With a discovered limit whose integer value is [L > 0] the loop
    always ends: whatever the callbacks answer, a run over [n] items never
    makes more than ceil(n / L) dispatches and is over (returned or thrown)
    within ceil(n / L) iterations. *)
Theorem X10_positive_limit_bounds_the_run :
  forall (repo : IDeviceModelRepository) (uuidv4 : nat -> string)
         (JSON_parse : string -> option SetVariablesResponse)
         (station : string)
         (cacheCallback : string -> Promise (option string))
         (sendSetVariableRequest :
            string -> list SetVariableDataType -> number ->
            Promise IMessageConfirmation)
         (limit : number) (L : nat) (fuel : nat),
    let items := readAllSetVariableByStationId repo station in
    let run :=
      DeviceModelService.executeSetVariablesAfterBoot
        repo uuidv4 JSON_parse station cacheCallback sendSetVariableRequest in
    DeviceModelService.getItemsPerMessageSetVariablesByStationId repo station
    = Fulfilled (Some limit) ->
    ToIntegerOrInfinity limit = Int (Z.of_nat L) ->
    (0 < L)%nat ->
    (List.length (DeviceModelService.sent (stateOf (run fuel)))
     <= ceilDiv (List.length items) L)%nat
    /\ ((ceilDiv (List.length items) L <= fuel)%nat ->
        forall st, run fuel <> Running st).
Proof.
  intros repo uuidv4 JSON_parse station cacheCallback sendSetVariableRequest
         limit L fuel items run Hlimit HL Hpos.
  unfold run.
  rewrite (execute_discovered repo uuidv4 JSON_parse station cacheCallback
                              sendSetVariableRequest limit fuel Hlimit).
  exact (loop_positive_bound uuidv4 JSON_parse cacheCallback
                             sendSetVariableRequest limit items L HL Hpos fuel).
Qed.

Lemma X10_positive_limit_bounds_the_run_witness :
  let run :=
    DeviceModelService.executeSetVariablesAfterBoot
      (Sample.repository [{| value := "2" |}] (Sample.itemList 5))
      Sample.uuidv4 Sample.JSON_parse "station-1"
      (Sample.cache [Some "A"%string]) Sample.send in
  (List.length (DeviceModelService.sent (stateOf (run 3%nat))) <= 3)%nat
  /\ ((3 <= 3)%nat -> forall st, run 3%nat <> Running st).
Proof.
  apply (X10_positive_limit_bounds_the_run
           (Sample.repository [{| value := "2" |}] (Sample.itemList 5))
           Sample.uuidv4 Sample.JSON_parse "station-1"
           (Sample.cache [Some "A"%string]) Sample.send (ofZ 2) 2%nat 3%nat).
  - reflexivity.
  - reflexivity.
  - lia.
Defined.

(** ** Further properties of the route-layer endpoints *)

Lemma copies_snoc {A : Type} (k : nat) (subset : list A) :
  Route.copies k subset ++ subset = Route.copies (S k) subset.
Proof.
  unfold Route.copies. induction k as [|k IH]; simpl.
  - now rewrite app_nil_r.
  - rewrite <- app_assoc. f_equal. exact IH.
Qed.

Lemma list_eq_dec_nil {A : Type} (l : list A) : l = [] \/ l <> [].
Proof. destruct l; [now left | right; discriminate]. Qed.

Lemma filter_seq_S (p : nat -> bool) (n : nat) :
  filter p (seq 0 (S n)) = filter p (seq 0 n) ++ (if p n then [n] else []).
Proof. rewrite seq_S, filter_app. simpl. now destruct (p n). Qed.

Section RouteFacts.

Import ProvisioningModuleApi.

Variable sendCall :
  nat -> string -> string -> CallAction -> Request -> Promise IMessageConfirmation.
Variable station party : string.
Variable limit : number.

(** What [finalMessageConfirmation] holds when [k] of the calls made so far
    came back without a payload. *)
Abbreviation collectedSet subset k :=
  (match k%nat with
   | O => {| success := true; payload := None |}
   | S _ => {| success := false;
               payload := Some (PayloadSetVariableData (Route.copies k subset)) |}
   end).

Abbreviation collectedGet subset k :=
  (match k%nat with
   | O => {| success := true; payload := None |}
   | S _ => {| success := false;
               payload := Some (PayloadGetVariableData (Route.copies k subset)) |}
   end).

Lemma setVariablesLoop_unfold (items : list SetVariableDataType) (fuel : nat)
      (st : State) :
  items <> [] ->
  setVariablesLoop sendCall station party items limit (S fuel) st
  = match setVariablesBody sendCall station party items limit st with
    | Continue st' => setVariablesLoop sendCall station party items limit fuel st'
    | Throw e st' => Thrown e st'
    end.
Proof. destruct items; [contradiction | reflexivity]. Qed.

Lemma setVariablesLoop_collects (items : list SetVariableDataType) (fuel : nat) :
  let subset := slice items (ofZ 0) (Some limit) in
  let unconfirmed st :=
    List.length (filter (Route.unconfirmedSet sendCall station party subset)
                        (seq 0 (List.length (calls st)))) in
  forall st,
    finalMessageConfirmation st = collectedSet subset (unconfirmed st) ->
    let st' := stateOf (setVariablesLoop sendCall station party items limit
                                         fuel st) in
    finalMessageConfirmation st' = collectedSet subset (unconfirmed st').
Proof.
  intros subset unconfirmed.
  destruct (list_eq_dec_nil items) as [Hnil|Hne].
  { intros st Hst. rewrite Hnil. destruct fuel; exact Hst. }
  induction fuel as [|fuel IH]; intros st Hst.
  { destruct items; [contradiction | exact Hst]. }
  rewrite setVariablesLoop_unfold by assumption.
  assert (forall call b,
            Route.unconfirmedSet sendCall station party subset
                                 (List.length (calls st)) = b ->
            List.length
              (filter (Route.unconfirmedSet sendCall station party subset)
                      (seq 0 (List.length (calls st ++ [call]))))
            = (unconfirmed st + if b then 1 else 0)%nat) as Hcount.
  { intros call b Hb. unfold unconfirmed.
    rewrite length_app. simpl. rewrite Nat.add_1_r, filter_seq_S, length_app, Hb.
    now destruct b. }
  unfold setVariablesBody. fold subset.
  destruct (sendCall (List.length (calls st)) station party SetVariables
                     (SetVariablesRequest subset)) as [confirmation|e] eqn:Hsend.
  - destruct (negb (truthyPayload (payload confirmation))) eqn:Hp.
    + apply IH. unfold unconfirmed. cbn [finalMessageConfirmation calls].
      rewrite (Hcount _ true)
        by (unfold Route.unconfirmedSet; now rewrite Hsend).
      rewrite Hst, Nat.add_1_r.
      destruct (unconfirmed st) as [|k]; cbn [payload].
      * unfold Route.copies. simpl. now rewrite app_nil_r.
      * now rewrite copies_snoc.
    + apply IH. unfold unconfirmed. cbn [finalMessageConfirmation calls].
      rewrite (Hcount _ false)
        by (unfold Route.unconfirmedSet; now rewrite Hsend).
      now rewrite Hst, Nat.add_0_r.
  - unfold unconfirmed. cbn [stateOf finalMessageConfirmation calls].
    rewrite (Hcount _ false)
      by (unfold Route.unconfirmedSet; now rewrite Hsend).
    now rewrite Hst, Nat.add_0_r.
Qed.

Lemma getVariablesLoop_unfold (items : list GetVariableDataType) (fuel : nat)
      (st : State) :
  items <> [] ->
  getVariablesLoop sendCall station party items limit (S fuel) st
  = match getVariablesBody sendCall station party items limit st with
    | Continue st' => getVariablesLoop sendCall station party items limit fuel st'
    | Throw e st' => Thrown e st'
    end.
Proof. destruct items; [contradiction | reflexivity]. Qed.

Lemma getVariablesLoop_collects (items : list GetVariableDataType) (fuel : nat) :
  let subset := slice items (ofZ 0) (Some limit) in
  let unconfirmed st :=
    List.length (filter (Route.unconfirmedGet sendCall station party subset)
                        (seq 0 (List.length (calls st)))) in
  forall st,
    finalMessageConfirmation st = collectedGet subset (unconfirmed st) ->
    let st' := stateOf (getVariablesLoop sendCall station party items limit
                                         fuel st) in
    finalMessageConfirmation st' = collectedGet subset (unconfirmed st').
Proof.
  intros subset unconfirmed.
  destruct (list_eq_dec_nil items) as [Hnil|Hne].
  { intros st Hst. rewrite Hnil. destruct fuel; exact Hst. }
  induction fuel as [|fuel IH]; intros st Hst.
  { destruct items; [contradiction | exact Hst]. }
  rewrite getVariablesLoop_unfold by assumption.
  assert (forall call b,
            Route.unconfirmedGet sendCall station party subset
                                 (List.length (calls st)) = b ->
            List.length
              (filter (Route.unconfirmedGet sendCall station party subset)
                      (seq 0 (List.length (calls st ++ [call]))))
            = (unconfirmed st + if b then 1 else 0)%nat) as Hcount.
  { intros call b Hb. unfold unconfirmed.
    rewrite length_app. simpl. rewrite Nat.add_1_r, filter_seq_S, length_app, Hb.
    now destruct b. }
  unfold getVariablesBody. fold subset.
  destruct (sendCall (List.length (calls st)) station party GetVariables
                     (GetVariablesRequest subset)) as [confirmation|e] eqn:Hsend.
  - destruct (negb (truthyPayload (payload confirmation))) eqn:Hp.
    + apply IH. unfold unconfirmed. cbn [finalMessageConfirmation calls].
      rewrite (Hcount _ true)
        by (unfold Route.unconfirmedGet; now rewrite Hsend).
      rewrite Hst, Nat.add_1_r.
      destruct (unconfirmed st) as [|k]; cbn [payload].
      * unfold Route.copies. simpl. now rewrite app_nil_r.
      * now rewrite copies_snoc.
    + apply IH. unfold unconfirmed. cbn [finalMessageConfirmation calls].
      rewrite (Hcount _ false)
        by (unfold Route.unconfirmedGet; now rewrite Hsend).
      now rewrite Hst, Nat.add_0_r.
  - unfold unconfirmed. cbn [stateOf finalMessageConfirmation calls].
    rewrite (Hcount _ false)
      by (unfold Route.unconfirmedGet; now rewrite Hsend).
    now rewrite Hst, Nat.add_0_r.
Qed.

End RouteFacts.

(** X11.  Edge cases of the route-layer endpoints.  With no limit attribute
    an endpoint makes exactly one call carrying the whole list, an empty
    list included, and its outcome is the transport's: the confirmation
    unchanged, or the error.  With one limit attribute and an empty list it
    makes no call and returns [success: true] without payload. *)
Theorem X11_route_without_limit_or_without_items :
  forall (readAllByQuery : VariableAttributeQuerystring -> list VariableAttribute)
         (sendCall : nat -> string -> string -> CallAction ->
                     ProvisioningModuleApi.Request ->
                     Promise IMessageConfirmation)
         (station party : string)
         (setVariableData : list SetVariableDataType)
         (getVariableData : list GetVariableDataType)
         (found : list VariableAttribute) (fuel : nat),
    let setQuery :=
      {| stationId := station; component_name := "DeviceDataCtrlr";
         variable_name := "ItemsPerMessage";
         variable_instance := "SetVariables"; type := Actual |} in
    let getQuery :=
      {| stationId := station; component_name := "DeviceDataCtrlr";
         variable_name := "ItemsPerMessage";
         variable_instance := "GetVariables"; type := Actual |} in
    let setRequest := ProvisioningModuleApi.SetVariablesRequest setVariableData in
    let getRequest := ProvisioningModuleApi.GetVariablesRequest getVariableData in
    let setRun data :=
      ProvisioningModuleApi.setVariables
        readAllByQuery sendCall station party data fuel in
    let getRun data :=
      ProvisioningModuleApi.getVariables
        readAllByQuery sendCall station party data fuel in
    (readAllByQuery setQuery = found -> found = [] ->
     ProvisioningModuleApi.calls (stateOf (setRun setVariableData))
     = [{| ProvisioningModuleApi.identifier := station;
           ProvisioningModuleApi.partyId := party;
           ProvisioningModuleApi.action := SetVariables;
           ProvisioningModuleApi.request := setRequest |}]
     /\ match sendCall O station party SetVariables setRequest with
        | Fulfilled confirmation =>
            exists final, setRun setVariableData = Returned confirmation final
        | RejectedWith e =>
            exists final, setRun setVariableData = Thrown e final
        end)
    /\ (readAllByQuery getQuery = found -> found = [] ->
        ProvisioningModuleApi.calls (stateOf (getRun getVariableData))
        = [{| ProvisioningModuleApi.identifier := station;
              ProvisioningModuleApi.partyId := party;
              ProvisioningModuleApi.action := GetVariables;
              ProvisioningModuleApi.request := getRequest |}]
        /\ match sendCall O station party GetVariables getRequest with
           | Fulfilled confirmation =>
               exists final, getRun getVariableData = Returned confirmation final
           | RejectedWith e =>
               exists final, getRun getVariableData = Thrown e final
           end)
    /\ (readAllByQuery setQuery = found -> List.length found = 1%nat ->
        setRun [] = Returned {| success := true; payload := None |}
                             ProvisioningModuleApi.initialState)
    /\ (readAllByQuery getQuery = found -> List.length found = 1%nat ->
        getRun [] = Returned {| success := true; payload := None |}
                             ProvisioningModuleApi.initialState).
Proof.
  intros readAllByQuery sendCall station party setVariableData getVariableData
         found fuel setQuery getQuery setRequest getRequest setRun getRun.
  split; [|split; [|split]].
  - intros Hq ->. unfold setRun, ProvisioningModuleApi.setVariables.
    fold setQuery. rewrite Hq. fold setRequest.
    destruct (sendCall O station party SetVariables setRequest);
      (split; [reflexivity | eexists; reflexivity]).
  - intros Hq ->. unfold getRun, ProvisioningModuleApi.getVariables.
    fold getQuery. rewrite Hq. fold getRequest.
    destruct (sendCall O station party GetVariables getRequest);
      (split; [reflexivity | eexists; reflexivity]).
  - intros Hq Hone. unfold setRun, ProvisioningModuleApi.setVariables.
    fold setQuery. rewrite Hq.
    destruct found as [|a [|b rest]]; try discriminate.
    destruct fuel; reflexivity.
  - intros Hq Hone. unfold getRun, ProvisioningModuleApi.getVariables.
    fold getQuery. rewrite Hq.
    destruct found as [|a [|b rest]]; try discriminate.
    destruct fuel; reflexivity.
Qed.

Lemma X11_route_without_limit_or_without_items_witness :
  ProvisioningModuleApi.calls
    (stateOf (ProvisioningModuleApi.setVariables
                (fun _ => []) Sample.sendCall "station-1" "party-1" [] 1))
  = [{| ProvisioningModuleApi.identifier := "station-1";
        ProvisioningModuleApi.partyId := "party-1";
        ProvisioningModuleApi.action := SetVariables;
        ProvisioningModuleApi.request :=
          ProvisioningModuleApi.SetVariablesRequest [] |}]
  /\ ProvisioningModuleApi.setVariables
       (fun _ => [{| value := "2" |}]) Sample.sendCall "station-1" "party-1" [] 1
     = Returned {| success := true; payload := None |}
                ProvisioningModuleApi.initialState.
Proof.
  split.
  - refine (proj1 (proj1
              (X11_route_without_limit_or_without_items
                 (fun _ => []) Sample.sendCall "station-1" "party-1"
                 [] [] [] 1%nat) _ _)); reflexivity.
  - refine (proj1 (proj2 (proj2
              (X11_route_without_limit_or_without_items
                 (fun _ => [{| value := "2" |}]) Sample.sendCall
                 "station-1" "party-1" [] [] [{| value := "2" |}] 1%nat))) _ _);
      reflexivity.
Defined.

(** X12.  In the loops of [setVariables] and [getVariables] the confirmation
    under construction records the calls that came back without a payload:
    with none of them it is [success: true] without payload; with [k] of
    them it is [success: false] and its payload is the sent subset repeated
    [k] times, since every call sends the same subset. *)
Theorem X12_route_collects_unconfirmed_subsets :
  forall (readAllByQuery : VariableAttributeQuerystring -> list VariableAttribute)
         (sendCall : nat -> string -> string -> CallAction ->
                     ProvisioningModuleApi.Request ->
                     Promise IMessageConfirmation)
         (station party : string)
         (setVariableData : list SetVariableDataType)
         (getVariableData : list GetVariableDataType)
         (attribute : VariableAttribute) (fuel : nat),
    let limit := Number (value attribute) in
    (readAllByQuery {| stationId := station;
                       component_name := "DeviceDataCtrlr";
                       variable_name := "ItemsPerMessage";
                       variable_instance := "SetVariables";
                       type := Actual |} = [attribute] ->
     let st :=
       stateOf (ProvisioningModuleApi.setVariables
                  readAllByQuery sendCall station party setVariableData fuel) in
     let subset := slice setVariableData (ofZ 0) (Some limit) in
     let k :=
       List.length
         (filter (Route.unconfirmedSet sendCall station party subset)
                 (seq 0 (List.length (ProvisioningModuleApi.calls st)))) in
     ProvisioningModuleApi.finalMessageConfirmation st
     = match k with
       | O => {| success := true; payload := None |}
       | S _ => {| success := false;
                   payload := Some (PayloadSetVariableData
                                      (Route.copies k subset)) |}
       end)
    /\ (readAllByQuery {| stationId := station;
                          component_name := "DeviceDataCtrlr";
                          variable_name := "ItemsPerMessage";
                          variable_instance := "GetVariables";
                          type := Actual |} = [attribute] ->
        let st :=
          stateOf (ProvisioningModuleApi.getVariables
                     readAllByQuery sendCall station party getVariableData fuel) in
        let subset := slice getVariableData (ofZ 0) (Some limit) in
        let k :=
          List.length
            (filter (Route.unconfirmedGet sendCall station party subset)
                    (seq 0 (List.length (ProvisioningModuleApi.calls st)))) in
        ProvisioningModuleApi.finalMessageConfirmation st
        = match k with
          | O => {| success := true; payload := None |}
          | S _ => {| success := false;
                      payload := Some (PayloadGetVariableData
                                         (Route.copies k subset)) |}
          end).
Proof.
  intros readAllByQuery sendCall station party setVariableData getVariableData
         attribute fuel limit.
  split; intros Hattr.
  - unfold ProvisioningModuleApi.setVariables. rewrite Hattr.
    exact (setVariablesLoop_collects sendCall station party limit
                                     setVariableData fuel
                                     ProvisioningModuleApi.initialState eq_refl).
  - unfold ProvisioningModuleApi.getVariables. rewrite Hattr.
    exact (getVariablesLoop_collects sendCall station party limit
                                     getVariableData fuel
                                     ProvisioningModuleApi.initialState eq_refl).
Qed.

Lemma X12_route_collects_unconfirmed_subsets_witness :
  ProvisioningModuleApi.finalMessageConfirmation
    (stateOf (ProvisioningModuleApi.setVariables
                (fun _ => [{| value := "2" |}])
                (Sample2.sendCallUnconfirmed [1; 3]%nat)
                "station-1" "party-1" (Sample.itemList 3) 5))
  = {| success := false;
       payload := Some (PayloadSetVariableData
                          (Sample.itemList 2 ++ Sample.itemList 2)) |}.
Proof.
  refine (eq_trans
            (proj1
               (X12_route_collects_unconfirmed_subsets
                  (fun _ => [{| value := "2" |}])
                  (Sample2.sendCallUnconfirmed [1; 3]%nat)
                  "station-1" "party-1" (Sample.itemList 3) (Sample.queryList 3)
                  {| value := "2" |} 5%nat) eq_refl) _).
  vm_compute. reflexivity.
Defined.

(** ** Properties of [updateDeviceModel] *)

Lemma writeOf_injective (stationId timestamp : string)
      (a b : DeviceModelUpdate.Attribute) :
  DeviceModelUpdate.writeOf stationId timestamp a
  = DeviceModelUpdate.writeOf stationId timestamp b -> a = b.
Proof.
  destruct a, b. unfold DeviceModelUpdate.writeOf. simpl.
  intros H. injection H as -> -> ->. reflexivity.
Qed.

Lemma attributes_length (cs : DeviceModelUpdate.ChargingStation) :
  List.length (DeviceModelUpdate.attributes cs) = 6%nat.
Proof. reflexivity. Qed.

(** X13.  Every write [updateDeviceModel] issues goes to the given station
    with the given timestamp and carries exactly one attribute, which is of
    type Actual, read-only, persistent and constant and has a value other
    than [undefined]; there are at most six writes. *)
Theorem X13_update_writes_are_readonly_actual :
  forall (createOrUpdateDeviceModelByStationId :
            DeviceModelUpdate.ReportDataType -> string -> string ->
            Promise (list VariableAttribute))
         (chargingStation : DeviceModelUpdate.ChargingStation)
         (stationId timestamp : string),
    let calls :=
      fst (DeviceModelUpdate.updateDeviceModel
             createOrUpdateDeviceModelByStationId chargingStation
             stationId timestamp) in
    Forall (fun w =>
              DeviceModelUpdate.station w = stationId
              /\ DeviceModelUpdate.timestamp w = timestamp
              /\ exists v,
                  DeviceModelUpdate.variableAttribute (DeviceModelUpdate.report w)
                  = [{| DeviceModelUpdate.type := Actual;
                        DeviceModelUpdate.attributeValue := v;
                        DeviceModelUpdate.mutability := DeviceModelUpdate.ReadOnly;
                        DeviceModelUpdate.persistent := true;
                        DeviceModelUpdate.constant := true |}]
                  /\ v <> DeviceModelUpdate.Undefined)
           calls
    /\ (List.length calls <= 6)%nat.
Proof.
  intros create cs stationId timestamp calls. split.
  - apply Forall_forall. intros w Hw.
    unfold calls, DeviceModelUpdate.updateDeviceModel, DeviceModelUpdate.writes in Hw.
    cbn [fst] in Hw. apply in_map_iff in Hw. destruct Hw as (attr & <- & Hin).
    apply filter_In in Hin. destruct Hin as [_ Hdef].
    repeat split. exists (DeviceModelUpdate.value attr). split; [reflexivity|].
    intros Hu. rewrite Hu in Hdef. discriminate.
  - unfold calls, DeviceModelUpdate.updateDeviceModel, DeviceModelUpdate.writes.
    cbn [fst]. rewrite length_map.
    pose proof (filter_length_le
                  (fun attr => DeviceModelUpdate.isDefined
                                 (DeviceModelUpdate.value attr))
                  (DeviceModelUpdate.attributes cs)) as Hle.
    now rewrite attributes_length in Hle.
Qed.

(** X14.  A boot payload whose [modem] is absent or [null] makes
    [updateDeviceModel] write nothing for the DataLink component (no IMSI,
    no ICCID), so it issues at most four writes. *)
Theorem X14_update_skips_absent_modem :
  forall (createOrUpdateDeviceModelByStationId :
            DeviceModelUpdate.ReportDataType -> string -> string ->
            Promise (list VariableAttribute))
         (chargingStation : DeviceModelUpdate.ChargingStation)
         (stationId timestamp : string),
    let calls :=
      fst (DeviceModelUpdate.updateDeviceModel
             createOrUpdateDeviceModelByStationId chargingStation
             stationId timestamp) in
    DeviceModelUpdate.modem chargingStation = DeviceModelUpdate.ModemUndefined
    \/ DeviceModelUpdate.modem chargingStation = DeviceModelUpdate.ModemNull ->
    Forall (fun w =>
              DeviceModelUpdate.componentName (DeviceModelUpdate.report w)
              <> "DataLink"%string)
           calls
    /\ (List.length calls <= 4)%nat.
Proof.
  intros create cs stationId timestamp calls Hmodem.
  unfold calls, DeviceModelUpdate.updateDeviceModel, DeviceModelUpdate.writes.
  cbn [fst].
  assert (DeviceModelUpdate.modem_imsi cs = DeviceModelUpdate.Undefined
          /\ DeviceModelUpdate.modem_iccid cs = DeviceModelUpdate.Undefined)
    as [Himsi Hiccid].
  { unfold DeviceModelUpdate.modem_imsi, DeviceModelUpdate.modem_iccid.
    destruct Hmodem as [-> | ->]; split; reflexivity. }
  unfold DeviceModelUpdate.attributes. rewrite Himsi, Hiccid.
  cbn [filter DeviceModelUpdate.value DeviceModelUpdate.isDefined].
  destruct (DeviceModelUpdate.isDefined (DeviceModelUpdate.model cs)),
           (DeviceModelUpdate.isDefined (DeviceModelUpdate.vendorName cs)),
           (DeviceModelUpdate.isDefined (DeviceModelUpdate.firmwareVersion cs)),
           (DeviceModelUpdate.isDefined (DeviceModelUpdate.serialNumber cs));
    (split; [repeat constructor; discriminate | simpl; lia]).
Qed.

Lemma X14_update_skips_absent_modem_witness :
  let chargingStation :=
    {| DeviceModelUpdate.model := DeviceModelUpdate.Text "M1";
       DeviceModelUpdate.vendorName := DeviceModelUpdate.Text "Vendor";
       DeviceModelUpdate.firmwareVersion := DeviceModelUpdate.Text "1.0";
       DeviceModelUpdate.serialNumber := DeviceModelUpdate.Text "S1";
       DeviceModelUpdate.modem := DeviceModelUpdate.ModemNull |} in
  let calls :=
    fst (DeviceModelUpdate.updateDeviceModel
           (fun _ _ _ => Fulfilled []) chargingStation "station-1" "t0") in
  Forall (fun w =>
            DeviceModelUpdate.componentName (DeviceModelUpdate.report w)
            <> "DataLink"%string)
         calls
  /\ (List.length calls <= 4)%nat.
Proof.
  apply (X14_update_skips_absent_modem
           (fun _ _ _ => Fulfilled [])
           {| DeviceModelUpdate.model := DeviceModelUpdate.Text "M1";
              DeviceModelUpdate.vendorName := DeviceModelUpdate.Text "Vendor";
              DeviceModelUpdate.firmwareVersion := DeviceModelUpdate.Text "1.0";
              DeviceModelUpdate.serialNumber := DeviceModelUpdate.Text "S1";
              DeviceModelUpdate.modem := DeviceModelUpdate.ModemNull |}
           "station-1" "t0").
  right. reflexivity.
Defined.

(** X15.  [updateDeviceModel] writes one of its six attributes exactly when
    the value read from the boot payload is not [undefined]; a [null] value
    passes the filter and is written.  The number of writes is the number of
    such values. *)
Theorem X15_update_writes_iff_not_undefined :
  forall (createOrUpdateDeviceModelByStationId :
            DeviceModelUpdate.ReportDataType -> string -> string ->
            Promise (list VariableAttribute))
         (chargingStation : DeviceModelUpdate.ChargingStation)
         (stationId timestamp : string)
         (attr : DeviceModelUpdate.Attribute),
    let calls :=
      fst (DeviceModelUpdate.updateDeviceModel
             createOrUpdateDeviceModelByStationId chargingStation
             stationId timestamp) in
    In attr (DeviceModelUpdate.attributes chargingStation) ->
    (In (DeviceModelUpdate.writeOf stationId timestamp attr) calls
     <-> DeviceModelUpdate.value attr <> DeviceModelUpdate.Undefined)
    /\ (DeviceModelUpdate.value attr = DeviceModelUpdate.Null ->
        In (DeviceModelUpdate.writeOf stationId timestamp attr) calls)
    /\ List.length calls
       = List.length
           (filter (fun a => DeviceModelUpdate.isDefined (DeviceModelUpdate.value a))
                   (DeviceModelUpdate.attributes chargingStation)).
Proof.
  intros create cs stationId timestamp attr calls Hattr.
  assert (In (DeviceModelUpdate.writeOf stationId timestamp attr) calls
          <-> DeviceModelUpdate.value attr <> DeviceModelUpdate.Undefined) as Hiff.
  { unfold calls, DeviceModelUpdate.updateDeviceModel, DeviceModelUpdate.writes.
    cbn [fst]. split.
    - intros Hin. apply in_map_iff in Hin. destruct Hin as (a & Heq & Hin).
      apply writeOf_injective in Heq. subst a.
      apply filter_In in Hin. destruct Hin as [_ Hdef].
      intros Hu. rewrite Hu in Hdef. discriminate.
    - intros Hdef. apply in_map. apply filter_In. split; [assumption|].
      destruct (DeviceModelUpdate.value attr); [contradiction | |]; reflexivity. }
  split; [exact Hiff|]. split.
  - intros Hnull. apply Hiff. rewrite Hnull. discriminate.
  - unfold calls, DeviceModelUpdate.updateDeviceModel, DeviceModelUpdate.writes.
    cbn [fst]. apply length_map.
Qed.

Lemma X15_update_writes_iff_not_undefined_witness :
  let attr :=
    {| DeviceModelUpdate.component := "ChargingStation";
       DeviceModelUpdate.variable := "SerialNumber";
       DeviceModelUpdate.value := DeviceModelUpdate.Null |} in
  let calls :=
    fst (DeviceModelUpdate.updateDeviceModel
           (fun _ _ _ => Fulfilled []) Sample2.station "station-1" "t0") in
  In (DeviceModelUpdate.writeOf "station-1" "t0" attr) calls
  /\ List.length calls = 4%nat.
Proof.
  pose proof (X15_update_writes_iff_not_undefined
                (fun _ _ _ => Fulfilled []) Sample2.station "station-1" "t0"
                {| DeviceModelUpdate.component := "ChargingStation";
                   DeviceModelUpdate.variable := "SerialNumber";
                   DeviceModelUpdate.value := DeviceModelUpdate.Null |})
    as H.
  destruct H as (_ & Hnull & Hlen).
  - right. right. right. left. reflexivity.
  - split; [apply Hnull; reflexivity | exact Hlen].
Defined.

(** ** Draining, and an empty subset in the route layer *)

(** X17.  Under a positive limit, responses only have to decode until both
    flags are set: if every chunk is accepted by the send callback and
    answered by a non-empty text, and the texts decode for the chunks that
    arrive before both flags are set, the run returns after ceil(n / L)
    dispatches; and if both flags are set by the responses before some
    chunk, the result is (true, true) whatever the later texts contain. *)
Theorem X17_both_flags_set_later_content_irrelevant :
  forall (repo : IDeviceModelRepository) (uuidv4 : nat -> string)
         (JSON_parse : string -> option SetVariablesResponse)
         (station : string)
         (cacheCallback : string -> Promise (option string))
         (sendSetVariableRequest :
            string -> list SetVariableDataType -> number ->
            Promise IMessageConfirmation)
         (limit : number) (L : nat) (fuel : nat),
    let items := readAllSetVariableByStationId repo station in
    let count := ceilDiv (List.length items) L in
    let run :=
      DeviceModelService.executeSetVariablesAfterBoot
        repo uuidv4 JSON_parse station cacheCallback sendSetVariableRequest in
    DeviceModelService.getItemsPerMessageSetVariablesByStationId repo station
    = Fulfilled (Some limit) ->
    ToIntegerOrInfinity limit = Int (Z.of_nat L) ->
    (0 < L)%nat ->
    (forall k, (k < count)%nat ->
       exists c, sendSetVariableRequest (uuidv4 k) (Run.remaining limit items k)
                                        limit = Fulfilled c) ->
    (forall k, (k < count)%nat -> Run.present uuidv4 cacheCallback k) ->
    (forall k, (k < count)%nat ->
       Run.bothSeenBefore uuidv4 JSON_parse cacheCallback k = false ->
       exists text response,
         cacheCallback (uuidv4 k) = Fulfilled (Some text)
         /\ JSON_parse text = Some response) ->
    (count <= fuel)%nat ->
    exists result final,
      run fuel = Returned result final
      /\ List.length (DeviceModelService.sent final) = count
      /\ (forall k, (k <= count)%nat ->
            Run.bothSeenBefore uuidv4 JSON_parse cacheCallback k = true ->
            result = (true, true)).
Proof.
  intros repo uuidv4 JSON_parse station cacheCallback sendSetVariableRequest
         limit L fuel items count run Hlimit HL Hpos Hsend Hpresent Hdecode Hfuel.
  destruct (run_drains uuidv4 JSON_parse cacheCallback sendSetVariableRequest
                       limit items L HL Hpos) with (fuel := fuel)
    as (final & Hrun & Hcount & Hboth).
  - intros k Hk. split; [split|]; auto.
  - exact Hfuel.
  - exists (DeviceModelService.rejectedSetVariable final,
            DeviceModelService.rebootSetVariable final), final.
    split; [|split].
    + unfold run.
      rewrite (execute_discovered repo uuidv4 JSON_parse station cacheCallback
                                  sendSetVariableRequest limit fuel Hlimit).
      exact Hrun.
    + exact Hcount.
    + intros k Hk Hb. destruct (Hboth k Hk Hb) as [-> ->]. reflexivity.
Qed.

Lemma X17_both_flags_set_later_content_irrelevant_witness :
  let run :=
    DeviceModelService.executeSetVariablesAfterBoot
      (Sample.repository [{| value := "1" |}] (Sample.itemList 3))
      Sample.uuidv4 Sample.JSON_parse "station-1"
      (Sample.cache [Some "RB"%string; Some "?"%string; Some "not json"%string])
      Sample.send in
  exists result final,
    run 3%nat = Returned result final
    /\ List.length (DeviceModelService.sent final) = 3%nat
    /\ (forall k, (k <= 3)%nat ->
          Run.bothSeenBefore
            Sample.uuidv4 Sample.JSON_parse
            (Sample.cache [Some "RB"%string; Some "?"%string;
                           Some "not json"%string]) k = true ->
          result = (true, true)).
Proof.
  apply (X17_both_flags_set_later_content_irrelevant
           (Sample.repository [{| value := "1" |}] (Sample.itemList 3))
           Sample.uuidv4 Sample.JSON_parse "station-1"
           (Sample.cache [Some "RB"%string; Some "?"%string;
                          Some "not json"%string])
           Sample.send (ofZ 1) 1%nat 3%nat).
  - reflexivity.
  - reflexivity.
  - lia.
  - intros k _. eexists. reflexivity.
  - intros k Hk.
    assert (k = 0 \/ k = 1 \/ k = 2)%nat as [-> | [-> | ->]]
      by (vm_compute in Hk; lia);
      eexists; (split; [reflexivity | reflexivity]).
  - intros k Hk Hboth.
    assert (k = 0 \/ k = 1 \/ k = 2)%nat as [-> | [-> | ->]]
      by (vm_compute in Hk; lia).
    + exists "RB"%string. eexists. split; reflexivity.
    + vm_compute in Hboth. discriminate.
    + vm_compute in Hboth. discriminate.
  - vm_compute. lia.
Defined.

(** X18.  In the route layer a limit that converts to 0 (the text "0", a
    non-numeric text, a fraction below 1) makes [slice(0, limit)] empty:
    every call of the [setVariables] or [getVariables] loop then sends a
    request with no item at all. *)
Theorem X18_route_zero_limit_sends_empty_requests :
  forall (readAllByQuery : VariableAttributeQuerystring -> list VariableAttribute)
         (sendCall : nat -> string -> string -> CallAction ->
                     ProvisioningModuleApi.Request ->
                     Promise IMessageConfirmation)
         (station party : string)
         (setVariableData : list SetVariableDataType)
         (getVariableData : list GetVariableDataType)
         (attribute : VariableAttribute) (fuel : nat),
    ToIntegerOrInfinity (Number (value attribute)) = Int 0 ->
    (readAllByQuery {| stationId := station;
                       component_name := "DeviceDataCtrlr";
                       variable_name := "ItemsPerMessage";
                       variable_instance := "SetVariables";
                       type := Actual |} = [attribute] ->
     Forall (fun call =>
               ProvisioningModuleApi.request call
               = ProvisioningModuleApi.SetVariablesRequest [])
            (ProvisioningModuleApi.calls
               (stateOf (ProvisioningModuleApi.setVariables
                           readAllByQuery sendCall station party
                           setVariableData fuel))))
    /\ (readAllByQuery {| stationId := station;
                          component_name := "DeviceDataCtrlr";
                          variable_name := "ItemsPerMessage";
                          variable_instance := "GetVariables";
                          type := Actual |} = [attribute] ->
        Forall (fun call =>
                  ProvisioningModuleApi.request call
                  = ProvisioningModuleApi.GetVariablesRequest [])
               (ProvisioningModuleApi.calls
                  (stateOf (ProvisioningModuleApi.getVariables
                              readAllByQuery sendCall station party
                              getVariableData fuel)))).
Proof.
  intros readAllByQuery sendCall station party setVariableData getVariableData
         attribute fuel H0.
  assert (forall (A : Type) (l : list A),
            slice l (ofZ 0) (Some (Number (value attribute))) = []) as Hempty.
  { intros A l. rewrite slice_upto, H0, relativeIndex_nonneg by lia.
    rewrite Z.min_l by lia. reflexivity. }
  split; intros Hattr.
  - unfold ProvisioningModuleApi.setVariables. rewrite Hattr.
    rewrite <- (Hempty _ setVariableData).
    apply setVariablesLoop_calls. constructor.
  - unfold ProvisioningModuleApi.getVariables. rewrite Hattr.
    rewrite <- (Hempty _ getVariableData).
    apply getVariablesLoop_calls. constructor.
Qed.

Lemma X18_route_zero_limit_sends_empty_requests_witness :
  Forall (fun call =>
            ProvisioningModuleApi.request call
            = ProvisioningModuleApi.SetVariablesRequest [])
         (ProvisioningModuleApi.calls
            (stateOf (ProvisioningModuleApi.setVariables
                        (fun _ => [{| value := "abc" |}]) Sample.sendCall
                        "station-1" "party-1" (Sample.itemList 3) 4)))
  /\ List.length
       (ProvisioningModuleApi.calls
          (stateOf (ProvisioningModuleApi.setVariables
                      (fun _ => [{| value := "abc" |}]) Sample.sendCall
                      "station-1" "party-1" (Sample.itemList 3) 4))) = 4%nat.
Proof.
  split; [|reflexivity].
  refine (proj1
            (X18_route_zero_limit_sends_empty_requests
               (fun _ => [{| value := "abc" |}]) Sample.sendCall
               "station-1" "party-1" (Sample.itemList 3) (Sample.queryList 3)
               {| value := "abc" |} 4%nat _) _); reflexivity.
Defined.
